(** * AccelerateOED: the migration and validation scripts

    A shallow embedding of [scripts/migrate_project.py] and
    [scripts/validate_migration.py], and the properties of the migration
    engine and of the validation runner that are stated about them.

    Modelling conventions.
    - A [pathlib.Path] is the list of its components below the filesystem
      root (paths are absolute, POSIX flavour); [".."] and symbolic links
      are not resolved.
    - The filesystem is a finite map from paths to nodes, a node being a
      directory or a regular file with its bytes.  File metadata
      (timestamps, permissions) is not represented.
    - A text (a Python [str]) is represented by the bytes of its UTF-8
      encoding, and the encoding of the locale is UTF-8: reading a file in
      text mode checks that its bytes are well-formed UTF-8 and raises
      [UnicodeDecodeError] when they are not; writing a text writes its
      bytes.  A character is a lead byte with the continuation bytes that
      follow it.  Strings with lone surrogates, which have no encoding,
      are not represented.
    - Effectful code lives in the monad [M]: it reads and updates a state,
      appends to standard output, and either returns or raises.  For the
      migration the state is the filesystem and the exceptions are those
      of the file operations; for the validation the state is the
      validator object, and the filesystem, the import machinery and the
      YAML library are an environment that is only read.  A call into the
      import machinery may also end the process ([SystemExit]), which no
      [except Exception] catches. *)

From Stdlib Require Import String Ascii List Bool Arith Lia DecimalString.
From stdpp Require Import base option list gmap strings fin_maps.

Local Open Scope string_scope.
Local Open Scope list_scope.

(** ** Strings *)

Module Str.

Definition dquote : ascii := "034"%char.
Definition squote : ascii := "039"%char.
Definition LF : ascii := "010"%char.
Definition CR : ascii := "013"%char.

Definition nl : string := String LF EmptyString.

(** [c * n] on a one-character string. *)
Fixpoint mul (c : ascii) (n : nat) : string :=
  match n with
  | O => EmptyString
  | S n' => String c (mul c n')
  end.

(** The three-character delimiters of a Python docstring. *)
Definition dq3 : string := mul dquote 3.
Definition sq3 : string := mul squote 3.

(** [sub in s]. *)
Fixpoint contains (sub s : string) : bool :=
  String.prefix sub s ||
  match s with
  | EmptyString => false
  | String _ s' => contains sub s'
  end.

(** *** Characters

    A text is held as the bytes of its UTF-8 encoding: a character is a
    byte that is no continuation byte, with the continuation bytes that
    follow it. *)
Definition is_continuation (c : ascii) : bool :=
  let n := nat_of_ascii c in
  Nat.leb 128 n && Nat.leb n 191.

Definition continues (s : string) : bool :=
  match s with
  | String c _ => is_continuation c
  | EmptyString => false
  end.

(** The characters of a text, in order. *)
Fixpoint chars (s : string) : list string :=
  match s with
  | EmptyString => []
  | String c s' =>
      match chars s' with
      | ch :: l =>
          if continues s' then String c ch :: l
          else String c EmptyString :: ch :: l
      | [] => [String c EmptyString]
      end
  end.

Definition unchars (l : list string) : string :=
  List.fold_right String.append EmptyString l.

(** [len(s)] *)
Definition len (s : string) : nat := length (chars s).

(** [ch.isspace()] for a character: TAB, LF, VT, FF, CR, the four
    separators 0x1c-0x1f and the space in ASCII; outside ASCII U+0085,
    U+00A0, U+1680, U+2000 to U+200A, U+2028, U+2029, U+202F, U+205F and
    U+3000, by their encodings. *)
Definition is_space (ch : string) : bool :=
  match List.map nat_of_ascii (list_ascii_of_string ch) with
  | [a] => (Nat.leb 9 a && Nat.leb a 13) || (Nat.leb 28 a && Nat.leb a 32)
  | [a; b] => Nat.eqb a 194 && (Nat.eqb b 133 || Nat.eqb b 160)
  | [a; b; c] =>
      (Nat.eqb a 225 && Nat.eqb b 154 && Nat.eqb c 128)
      || (Nat.eqb a 226 && Nat.eqb b 128
          && ((Nat.leb 128 c && Nat.leb c 138)
              || Nat.eqb c 168 || Nat.eqb c 169 || Nat.eqb c 175))
      || (Nat.eqb a 226 && Nat.eqb b 129 && Nat.eqb c 159)
      || (Nat.eqb a 227 && Nat.eqb b 128 && Nat.eqb c 128)
  | _ => false
  end.

Fixpoint lstrip_chars (l : list string) : list string :=
  match l with
  | [] => []
  | ch :: l' => if is_space ch then lstrip_chars l' else l
  end.

Fixpoint rstrip_chars (l : list string) : list string :=
  match l with
  | [] => []
  | ch :: l' =>
      match rstrip_chars l' with
      | [] => if is_space ch then [] else [ch]
      | r => ch :: r
      end
  end.

(** [s.lstrip()], [s.rstrip()], [s.strip()] *)
Definition lstrip (s : string) : string := unchars (lstrip_chars (chars s)).

Definition rstrip (s : string) : string := unchars (rstrip_chars (chars s)).

Definition strip (s : string) : string :=
  unchars (rstrip_chars (lstrip_chars (chars s))).

(** What reading a file in text mode does to line ends: [CR LF] and a lone
    [CR] both become [LF]. *)
Fixpoint universal_newlines (s : string) : string :=
  match s with
  | EmptyString => EmptyString
  | String c s' =>
      if Ascii.eqb c CR then
        match s' with
        | String c' s'' =>
            if Ascii.eqb c' LF then String LF (universal_newlines s'')
            else String LF (universal_newlines s')
        | EmptyString => String LF EmptyString
        end
      else String c (universal_newlines s')
  end.

(** No carriage return in [s]. *)
Fixpoint no_CR (s : string) : bool :=
  match s with
  | EmptyString => true
  | String c s' => negb (Ascii.eqb c CR) && no_CR s'
  end.

(** The bytes of which whitespace is made: the ASCII whitespace and the
    bytes outside ASCII. *)
Definition blank (c : ascii) : bool :=
  let n := nat_of_ascii c in
  (Nat.leb 9 n && Nat.leb n 13) || (Nat.leb 28 n && Nat.leb n 32) || Nat.leb 128 n.

Fixpoint all_blank (s : string) : bool :=
  match s with
  | EmptyString => true
  | String c s' => blank c && all_blank s'
  end.

Fixpoint no_blank (s : string) : bool :=
  match s with
  | EmptyString => true
  | String c s' => negb (blank c) && no_blank s'
  end.

(** [str(n)] for a non-negative integer. *)
Definition of_nat (n : nat) : string :=
  NilEmpty.string_of_uint (Nat.to_uint n).

Fixpoint join (sep : string) (l : list string) : string :=
  match l with
  | [] => EmptyString
  | [x] => x
  | x :: l' => x +:+ sep +:+ join sep l'
  end.

(** [format(n, '02x')] for a byte. *)
Definition hex_digit (n : nat) : ascii :=
  match String.get n "0123456789abcdef" with
  | Some c => c
  | None => "0"%char
  end.

Definition hex2 (n : nat) : string :=
  String (hex_digit (Nat.div n 16)) (String (hex_digit (Nat.modulo n 16)) EmptyString).

End Str.

(** ** The UTF-8 codec

    What [bytes.decode('utf-8')] accepts, and where and why it stops when
    it does not: a scan of the bytes that remembers the sequence under
    way. *)

Module Utf8.

(** The ranges in which the next byte of a sequence may lie. *)
Inductive range : Type :=
| R80_BF
| RA0_BF
| R80_9F
| R90_BF
| R80_8F.

Definition in_range (r : range) (b : nat) : bool :=
  match r with
  | R80_BF => Nat.leb 128 b && Nat.leb b 191
  | RA0_BF => Nat.leb 160 b && Nat.leb b 191
  | R80_9F => Nat.leb 128 b && Nat.leb b 159
  | R90_BF => Nat.leb 144 b && Nat.leb b 191
  | R80_8F => Nat.leb 128 b && Nat.leb b 143
  end.

(** A sequence under way: [seen] bytes of it are read, the next one must
    lie in [next], and [more] bytes follow that one. *)
Record pending : Type := {
  seen : nat;
  next : range;
  more : nat
}.

(** What a byte starts when no sequence is under way: a character of its
    own ([Some None]), a sequence, or nothing ([None]: a continuation
    byte, [C0], [C1] and [F5] to [FF] start no character). *)
Definition lead (b : nat) : option (option pending) :=
  if Nat.ltb b 128 then Some None
  else if Nat.ltb b 194 then None
  else if Nat.ltb b 224 then Some (Some {| seen := 1; next := R80_BF; more := 0 |})
  else if Nat.eqb b 224 then Some (Some {| seen := 1; next := RA0_BF; more := 1 |})
  else if Nat.eqb b 237 then Some (Some {| seen := 1; next := R80_9F; more := 1 |})
  else if Nat.ltb b 240 then Some (Some {| seen := 1; next := R80_BF; more := 1 |})
  else if Nat.eqb b 240 then Some (Some {| seen := 1; next := R90_BF; more := 2 |})
  else if Nat.ltb b 244 then Some (Some {| seen := 1; next := R80_BF; more := 2 |})
  else if Nat.eqb b 244 then Some (Some {| seen := 1; next := R80_8F; more := 2 |})
  else None.

(** The attributes [start], [end] and [reason] of a [UnicodeDecodeError]. *)
Record failure : Type := {
  start : nat;
  stop : nat;
  reason : string
}.

(** Scan [s], which begins at position [pos], with the sequence [st] under
    way: [None] when the bytes decode, the first failure otherwise. *)
Fixpoint scan (st : option pending) (pos : nat) (s : string) : option failure :=
  match s with
  | EmptyString =>
      match st with
      | None => None
      | Some p =>
          Some {| start := pos - seen p; stop := pos; reason := "unexpected end of data" |}
      end
  | String c s' =>
      let b := nat_of_ascii c in
      match st with
      | None =>
          match lead b with
          | Some st' => scan st' (S pos) s'
          | None => Some {| start := pos; stop := S pos; reason := "invalid start byte" |}
          end
      | Some p =>
          if in_range (next p) b then
            scan (match more p with
                  | O => None
                  | S m => Some {| seen := S (seen p); next := R80_BF; more := m |}
                  end) (S pos) s'
          else
            Some {| start := pos - seen p; stop := pos;
                    reason := "invalid continuation byte" |}
      end
  end.

Definition decode_failure (s : string) : option failure := scan None 0 s.

(** The bytes are the encoding of a text. *)
Definition valid (s : string) : bool :=
  match decode_failure s with
  | None => true
  | Some _ => false
  end.

End Utf8.

(** ** Paths *)

Abbreviation Path := (list string).

Module PathLib.

(** Cut a string at every ["/"]. *)
Fixpoint split_slash (s cur : string) : list string :=
  match s with
  | EmptyString => [cur]
  | String c s' =>
      if Ascii.eqb c "/"%char then cur :: split_slash s' EmptyString
      else split_slash s' (cur +:+ String c EmptyString)
  end.

(** Cut a dotted module name at every ["."]. *)
Fixpoint split_dot_from (s cur : string) : list string :=
  match s with
  | EmptyString => [cur]
  | String c s' =>
      if Ascii.eqb c "."%char then cur :: split_dot_from s' EmptyString
      else split_dot_from s' (cur +:+ String c EmptyString)
  end.

Definition split_dot (s : string) : list string := split_dot_from s EmptyString.

(** The components of a path string: empty components and ["."] vanish. *)
Definition parts (s : string) : Path :=
  List.filter (fun c => negb (String.eqb c EmptyString) && negb (String.eqb c "."))
              (split_slash s EmptyString).

(** [base / rel]: an absolute right operand replaces the left one. *)
Definition joinpath (base : Path) (rel : string) : Path :=
  if String.prefix "/" rel then parts rel else base ++ parts rel.

(** [p.parent]; the root is its own parent. *)
Definition parent (p : Path) : Path := removelast p.

(** [p.name]; empty for the root. *)
Definition name (p : Path) : string := List.last p EmptyString.

(** [str(p)] *)
Definition to_str (p : Path) : string :=
  match p with
  | [] => "/"
  | _ => "/" +:+ Str.join "/" p
  end.

End PathLib.

Notation "p // rel" := (PathLib.joinpath p rel) (at level 40, left associativity).


(** ** The filesystem *)

Inductive node : Type :=
| Dir
| File (content : string).

#[global] Instance node_eq_dec : EqDecision node.
Proof. solve_decision. Defined.

Abbreviation FS := (gmap Path node).

(** What the modelled file operations raise: the [OSError]s, with the path
    they name, and the [UnicodeDecodeError] of a read in text mode, with
    the bytes that do not decode and the failure of the codec.  (The latter
    is a [ValueError] in Python; no code here tells the two apart.) *)
Inductive OSError : Type :=
| FileNotFoundError (p : Path)
| FileExistsError (p : Path)
| NotADirectoryError (p : Path)
| IsADirectoryError (p : Path)
| SameFileError (src dst : Path)
| UnicodeDecodeError (object : string) (failure : Utf8.failure).

Definition repr_path (p : Path) : string :=
  String Str.squote (PathLib.to_str p) +:+ String Str.squote EmptyString.

(** [str(e)] *)
Definition OSError_str (e : OSError) : string :=
  match e with
  | FileNotFoundError p => "[Errno 2] No such file or directory: " +:+ repr_path p
  | FileExistsError p => "[Errno 17] File exists: " +:+ repr_path p
  | NotADirectoryError p => "[Errno 20] Not a directory: " +:+ repr_path p
  | IsADirectoryError p => "[Errno 21] Is a directory: " +:+ repr_path p
  | SameFileError a b =>
      "PosixPath(" +:+ repr_path a +:+ ") and PosixPath(" +:+ repr_path b
      +:+ ") are the same file"
  | UnicodeDecodeError object f =>
      if Nat.eqb (Utf8.stop f) (S (Utf8.start f)) then
        "'utf-8' codec can't decode byte 0x"
        +:+ Str.hex2 (match String.get (Utf8.start f) object with
                      | Some c => nat_of_ascii c
                      | None => 0
                      end)
        +:+ " in position " +:+ Str.of_nat (Utf8.start f) +:+ ": " +:+ Utf8.reason f
      else
        "'utf-8' codec can't decode bytes in position "
        +:+ Str.of_nat (Utf8.start f) +:+ "-" +:+ Str.of_nat (Utf8.stop f - 1)
        +:+ ": " +:+ Utf8.reason f
  end.

(** The root always is a directory. *)
Definition node_at (fs : FS) (p : Path) : option node :=
  match p with
  | [] => Some Dir
  | _ => fs !! p
  end.

(** [p.exists()], [p.is_dir()], [p.is_file()] *)
Definition exists_ (fs : FS) (p : Path) : bool :=
  match node_at fs p with Some _ => true | None => false end.

Definition is_dir (fs : FS) (p : Path) : bool :=
  match node_at fs p with Some Dir => true | _ => false end.

Definition is_file (fs : FS) (p : Path) : bool :=
  match node_at fs p with Some (File _) => true | _ => false end.

(** A filesystem is well formed when whatever exists lies in a directory. *)
Definition wf (fs : FS) : Prop :=
  map_Forall (fun p _ => node_at fs (PathLib.parent p) = Some Dir) fs.

#[global] Instance wf_dec fs : Decision (wf fs).
Proof. unfold wf. apply _. Defined.

(** ** The monad of effectful code

    A computation starts from a state, appends to standard output and
    either returns or raises; the state reached and the output produced so
    far survive a raise. *)

Inductive Result (S E A : Type) : Type :=
| Ok (a : A) (s : S) (out : list string)
| Raise (e : E) (s : S) (out : list string).
Arguments Ok {S E A} a s out.
Arguments Raise {S E A} e s out.

Definition M (S E A : Type) : Type := S -> Result S E A.

(** The state in which a computation stopped, and what it printed. *)
Definition state_of {S E A} (r : Result S E A) : S :=
  match r with Ok _ s _ | Raise _ s _ => s end.

Definition out_of {S E A} (r : Result S E A) : list string :=
  match r with Ok _ _ out | Raise _ _ out => out end.

(** Whether it returned, and what (or [default] if it raised). *)
Definition is_Ok {S E A} (r : Result S E A) : bool :=
  match r with Ok _ _ _ => true | Raise _ _ _ => false end.

Definition value_of {S E A} (default : A) (r : Result S E A) : A :=
  match r with Ok a _ _ => a | Raise _ _ _ => default end.

Section Monad.
Context {S E : Type}.

Definition ret {A} (a : A) : M S E A := fun s => Ok a s [].

Definition bind {A B} (m : M S E A) (k : A -> M S E B) : M S E B :=
  fun s =>
    match m s with
    | Ok a s1 o1 =>
        match k a s1 with
        | Ok b s2 o2 => Ok b s2 (o1 ++ o2)
        | Raise e s2 o2 => Raise e s2 (o1 ++ o2)
        end
    | Raise e s1 o1 => Raise e s1 o1
    end.

(** [print(s)]: one entry of the output per call. *)
Definition print (line : string) : M S E unit := fun s => Ok tt s [line].

Definition raise {A} (e : E) : M S E A := fun s => Raise e s [].

Definition get_state : M S E S := fun s => Ok s s [].

Definition put_state (s' : S) : M S E unit := fun _ => Ok tt s' [].

(** [try: m  except Exception as e: handler(e)] *)
Definition try_except {A} (m : M S E A) (handler : E -> M S E A) : M S E A :=
  fun s =>
    match m s with
    | Ok a s1 o1 => Ok a s1 o1
    | Raise e s1 o1 =>
        match handler e s1 with
        | Ok b s2 o2 => Ok b s2 (o1 ++ o2)
        | Raise e' s2 o2 => Raise e' s2 (o1 ++ o2)
        end
    end.

End Monad.

Notation "'do' x <- m ; k" := (bind m (fun x => k))
  (at level 10, x name, m at level 100, k at level 200,
   format "'[v' 'do'  x  <-  m ; '/' k ']'").
Notation "'run' m ; k" := (bind m (fun _ => k))
  (at level 10, m at level 100, k at level 200,
   format "'[v' 'run'  m ; '/' k ']'").

(** [for x in l: body(x)] *)
Fixpoint for_each {S E A} (l : list A) (body : A -> M S E unit) : M S E unit :=
  match l with
  | [] => ret tt
  | x :: l' => run body x; for_each l' body
  end.

(** Filesystem code: the state is the filesystem, the exceptions are
    [OSError]s. *)
Abbreviation FSM := (M FS OSError).

(** *** Library calls *)

(** Walk down from [pre], creating every missing directory on the way.
    [target] is the path the caller asked for, which the error names. *)
Fixpoint mkdir_from (target pre : Path) (rest : list string) : FSM unit :=
  match rest with
  | [] => ret tt
  | c :: rest' =>
      do fs <- get_state;
      match fs !! (pre ++ [c]) with
      | Some Dir => mkdir_from target (pre ++ [c]) rest'
      | Some (File _) =>
          raise (match rest' with
                 | [] => FileExistsError target
                 | _ => NotADirectoryError target
                 end)
      | None =>
          run put_state (<[pre ++ [c] := Dir]> fs);
          mkdir_from target (pre ++ [c]) rest'
      end
  end.

(** [p.mkdir(parents=True, exist_ok=True)] *)
Definition mkdir_parents (p : Path) : FSM unit := mkdir_from p [] p.

(** Why a path that is not there cannot be opened: a regular file on the
    way makes it [ENOTDIR], a missing component [ENOENT]. *)
Fixpoint lookup_error_from (fs : FS) (target pre : Path) (rest : list string) : OSError :=
  match rest with
  | [] => FileNotFoundError target
  | c :: rest' =>
      match fs !! (pre ++ [c]) with
      | Some Dir => lookup_error_from fs target (pre ++ [c]) rest'
      | Some (File _) => NotADirectoryError target
      | None => FileNotFoundError target
      end
  end.

Definition lookup_error (fs : FS) (p : Path) : OSError := lookup_error_from fs p [] p.

(** [open(p, 'rb').read()] *)
Definition read_bytes (p : Path) : FSM string :=
  do fs <- get_state;
  match node_at fs p with
  | Some (File c) => ret c
  | Some Dir => raise (IsADirectoryError p)
  | None => raise (lookup_error fs p)
  end.

(** What text mode makes of the bytes of a file, when they decode: the
    text, with line ends translated. *)
Definition decode (c : string) : FSM string :=
  match Utf8.decode_failure c with
  | None => ret (Str.universal_newlines c)
  | Some f => raise (UnicodeDecodeError c f)
  end.

(** [open(p, 'r').read()], which is also [p.read_text()]. *)
Definition read_text (p : Path) : FSM string :=
  do c <- read_bytes p; decode c.

(** [open(p, 'r')] handed to a library that reads the stream itself: the
    library is given the bytes, with line ends translated, and a stream
    that does not decode is among the failures of the library. *)
Definition open_text (p : Path) : FSM string :=
  do c <- read_bytes p; ret (Str.universal_newlines c).

(** Open [p] for writing and leave [f old] in it, [old] being what the file
    held ([None] when the file is created). *)
Definition open_write (p : Path) (f : option string -> string) : FSM unit :=
  do fs <- get_state;
  match node_at fs p with
  | Some Dir => raise (IsADirectoryError p)
  | Some (File c) => put_state (<[p := File (f (Some c))]> fs)
  | None =>
      match node_at fs (PathLib.parent p) with
      | Some Dir => put_state (<[p := File (f None)]> fs)
      | _ => raise (lookup_error fs p)
      end
  end.

(** Mode ['w']: the file is truncated, then [s] is written. *)
Definition write_text (p : Path) (s : string) : FSM unit :=
  open_write p (fun _ => s).

(** Mode ['a']: [s] is written after what the file holds. *)
Definition append_text (p : Path) (s : string) : FSM unit :=
  open_write p (fun old => match old with Some c => c +:+ s | None => s end).

(** [shutil.copy2(src, dst)]: into [dst] when [dst] is a directory, onto
    [dst] otherwise; the bytes are copied as they are. *)
Definition copy2 (src dst : Path) : FSM unit :=
  do fs <- get_state;
  let dst' := if is_dir fs dst then dst ++ [PathLib.name src] else dst in
  if decide (src = dst') then raise (SameFileError src dst')
  else do c <- read_bytes src; write_text dst' c.

(** ** migrate_project.py *)

Module Migrate.

(** File mapping: (source, destination, needs_improvement).  The table
    marks the second and third row for [sync_detection.py] with the
    comment [# Append]. *)
Definition FILE_MAPPING : list (string * string * bool) :=
  [ (* Core files *)
    ("N5ForShare/MOCU.py", "src/core/mocu_cuda.py", true);
    ("N5ForShare/determineSyncN.py", "src/core/sync_detection.py", true);
    ("N5ForShare/determineSyncTwo.py", "src/core/sync_detection.py", false);
    ("N5ForShare/mocu_comp.py", "src/core/sync_detection.py", false);
    (* Model files *)
    ("models/MP_train.py", "src/models/trainer.py", true);
    (* Strategy files *)
    ("N5ForShare/findMPSequence.py", "src/strategies/mp_strategy.py", true);
    ("N5ForShare/findMOCUSequence.py", "src/strategies/mocu_strategy.py", true);
    ("N5ForShare/findEntropySequence.py", "src/strategies/entropy_strategy.py", true);
    ("N5ForShare/findRandomSequence.py", "src/strategies/random_strategy.py", true);
    (* Utility files *)
    ("models/utils.py", "src/utils/visualization.py", true);
    (* Scripts *)
    ("N5ForShare/drawResults.py", "scripts/4_visualize_results.py", true);
    ("N5ForShare/runMainForPerformanceMeasure.py", "scripts/3_run_experiment.py", true) ].

Definition dirs : list string :=
  [ "src/core"; "src/models"; "src/strategies"; "src/utils"; "scripts";
    "tests"; "logs"; "configs"; "Dataset"; "Experiment"; "results" ].

Definition PACKAGE_INIT : string :=
  Str.dq3 +:+ "Package initialization." +:+ Str.dq3 +:+ Str.nl.

(** The body of the loop of [ensure_directories]. *)
Definition ensure_directory (base_path : Path) (d : string) : FSM unit :=
  run mkdir_parents (base_path // d);
  if String.prefix "src/" d then
    let init_file := base_path // d // "__init__.py" in
    do fs <- get_state;
    if negb (exists_ fs init_file) then write_text init_file PACKAGE_INIT
    else ret tt
  else ret tt.

Definition ensure_directories (base_path : Path) : FSM unit :=
  for_each dirs (ensure_directory base_path).

(** What [copy_file] writes in front of appended content. *)
Definition separator (src : Path) : string :=
  (Str.nl +:+ Str.nl +:+ "# " +:+ Str.mul "=" 60 +:+ Str.nl)
  +:+ ("# Appended from " +:+ PathLib.name src +:+ Str.nl)
  +:+ ("# " +:+ Str.mul "=" 60 +:+ Str.nl +:+ Str.nl).

Definition copy_file (src dst : Path) (append : bool) : FSM bool :=
  do fs <- get_state;
  if negb (exists_ fs src) then
    run print ("  WARNING: Source file not found: " +:+ PathLib.to_str src);
    ret false
  else
    run mkdir_parents (PathLib.parent dst);
    do fs <- get_state;
    run (if append && exists_ fs dst then
           do content <- read_text src;
           append_text dst (separator src +:+ content)
         else copy2 src dst);
    run print ("  ✓ Copied: " +:+ PathLib.to_str src +:+ " -> " +:+ PathLib.to_str dst);
    ret true.

Definition header (description : string) : string :=
  Str.dq3 +:+ Str.nl
  +:+ description +:+ Str.nl
  +:+ Str.nl
  +:+ "This module is part of the MOCU-OED project for optimal experimental design" +:+ Str.nl
  +:+ "in coupled oscillator systems." +:+ Str.nl
  +:+ Str.dq3 +:+ Str.nl
  +:+ Str.nl.

Definition add_file_header (file_path : Path) (description : string) : FSM unit :=
  do content <- read_text file_path;
  if negb (String.prefix Str.dq3 (Str.strip content))
     && negb (String.prefix Str.sq3 (Str.strip content))
  then write_text file_path (header description +:+ content)
  else ret tt.

(** The copying loop of [migrate_files] over a plan, with its two
    counters. *)
Fixpoint copy_loop (plan : list (string * string * bool)) (old_base new_base : Path)
    (success_count fail_count : nat) : FSM (nat * nat) :=
  match plan with
  | [] => ret (success_count, fail_count)
  | (src_rel, dst_rel, needs_improvement) :: plan' =>
      let src := old_base // src_rel in
      let dst := new_base // dst_rel in
      let append := Str.contains "Append" dst_rel in
      do ok <- copy_file src dst append;
      if ok then copy_loop plan' old_base new_base (S success_count) fail_count
      else copy_loop plan' old_base new_base success_count (S fail_count)
  end.

Definition file_descriptions : list (string * string) :=
  [ ("src/core/mocu_cuda.py", "CUDA-accelerated MOCU computation");
    ("src/core/sync_detection.py", "Synchronization detection for oscillator systems");
    ("src/models/trainer.py", "Neural network training utilities");
    ("src/strategies/mp_strategy.py", "Message passing-based OED strategy");
    ("src/strategies/mocu_strategy.py", "ODE-based MOCU strategy");
    ("src/strategies/entropy_strategy.py", "Entropy-based OED strategy");
    ("src/strategies/random_strategy.py", "Random baseline strategy") ].

(** The body of the header loop of [migrate_files]. *)
Definition add_header_if_exists (new_base : Path) (item : string * string) : FSM unit :=
  let '(file_rel, description) := item in
  let file_path := new_base // file_rel in
  do fs <- get_state;
  if exists_ fs file_path then
    run add_file_header file_path description;
    print ("  ✓ Added header: " +:+ file_rel)
  else ret tt.

Definition report_head (success fail : nat) : string :=
  "# Migration Report

Generated: migrate_project.py

## Summary

- **Files copied successfully**: " +:+ Str.of_nat success +:+ "
- **Files failed**: " +:+ Str.of_nat fail +:+ "
- **Status**: " +:+ (if Nat.eqb fail 0 then "✓ Complete" else "⚠ Incomplete") +:+ "

## File Mapping

The following files were migrated:

| Old Location | New Location | Status |
|-------------|-------------|--------|
".

Definition report_tail : string :=
  "

## Manual Steps Required

### 1. Update Import Statements

Old imports like:
```python
from MOCU import *
from determineSyncN import *
```

Should become:
```python
from src.core.mocu_cuda import MOCU
from src.core.sync_detection import determineSyncN
```

### 2. Update Configuration

- Update `N_global` in CUDA kernel if needed
- Configure model paths in `configs/default_config.yaml`

### 3. Test Migration

Run the test suite:
```bash
pytest tests/ -v
```

### 4. Update Documentation

- Review and update docstrings
- Update README examples
- Check that all functions have type hints

## Known Issues

1. **Hard-coded paths**: Some files contain hard-coded paths that need updating
2. **N_global parameter**: CUDA kernel requires manual update for different N
3. **Model loading**: Update model paths in strategy files

## Validation Checklist

- [ ] All files copied successfully
- [ ] Import statements updated
- [ ] Tests pass
- [ ] Documentation reviewed
- [ ] Configuration files created
- [ ] Example scripts work

## Contact

If you encounter issues, please check:
- REORGANIZATION_GUIDE.md
- README.md
- GitHub issues
".

(** The table rows of the report, one per entry of the plan. *)
Fixpoint report_rows (plan : list (string * string * bool)) (base_path : Path)
    (fs : FS) (report : string) : string :=
  match plan with
  | [] => report
  | (src, dst, _) :: plan' =>
      let status := if exists_ fs (base_path // dst) then "✓" else "✗" in
      report_rows plan' base_path fs
        (report +:+ "| `" +:+ src +:+ "` | `" +:+ dst +:+ "` | " +:+ status +:+ " |" +:+ Str.nl)
  end.

Definition create_migration_report (base_path : Path) (success fail : nat) : FSM unit :=
  do fs <- get_state;
  let report := report_head success fail in
  let report := report_rows FILE_MAPPING base_path fs report in
  let report := report +:+ report_tail in
  write_text (base_path // "MIGRATION_REPORT.md") report.

Definition migrate_files (old_base new_base : Path) : FSM unit :=
  run print (Str.mul "=" 70);
  run print "MOCU-OED Project Migration";
  run print (Str.mul "=" 70);
  (* Ensure directory structure exists *)
  run print (Str.nl +:+ "1. Creating directory structure...");
  run ensure_directories new_base;
  run print "  ✓ Directory structure created";
  (* Copy files *)
  run print (Str.nl +:+ "2. Copying files...");
  do counts <- copy_loop FILE_MAPPING old_base new_base 0 0;
  let success_count := fst counts in
  let fail_count := snd counts in
  run print (Str.nl +:+ "  Summary: " +:+ Str.of_nat success_count +:+ " succeeded, "
             +:+ Str.of_nat fail_count +:+ " failed");
  (* Add headers *)
  run print (Str.nl +:+ "3. Adding professional headers...");
  run for_each file_descriptions (add_header_if_exists new_base);
  (* Create migration report *)
  run print (Str.nl +:+ "4. Creating migration report...");
  run create_migration_report new_base success_count fail_count;
  run print "  ✓ Report created: MIGRATION_REPORT.md";
  run print (Str.nl +:+ Str.mul "=" 70);
  run print "Migration complete!";
  run print (Str.mul "=" 70);
  run print (Str.nl +:+ "Next steps:");
  run print "1. Review MIGRATION_REPORT.md";
  run print "2. Run validation: python scripts/validate_migration.py";
  run print "3. Run tests: pytest tests/";
  print "4. Update import statements as needed".

End Migrate.

(** ** validate_migration.py *)

Module Validate.

(** What [yaml.safe_load] can return (core schema). *)
#[local] Unset Elimination Schemes.
Inductive yaml : Type :=
| YNull
| YBool (b : bool)
| YInt (n : Z)
| YFloat (repr : string)
| YStr (s : string)
| YSeq (items : list yaml)
| YMap (items : list (yaml * yaml)).
#[local] Set Elimination Schemes.

(** What [yaml.safe_load] does with a stream: a value, a [YAMLError], or
    another exception (a [UnicodeDecodeError] of the stream among them),
    each with its message. *)
Inductive load_result : Type :=
| Loaded (config : yaml)
| LoadFails (msg : string)
| LoadRaises (msg : string).

(** What [importlib.util.find_spec] does for a module name: a spec, [None],
    an exception with its message, or, as it imports the packages above
    the module, the end of the process with a status: a [SystemExit]
    raised by the code of such a package is no [Exception]. *)
Inductive spec_result : Type :=
| SpecFound
| SpecNone
| SpecRaises (msg : string)
| SpecExits (status : nat).

(** The world the validator looks at.  [yaml_module] is [None] when
    [import yaml] fails. *)
Record Env : Type := {
  env_fs : FS;
  find_spec : string -> spec_result;
  yaml_module : option (string -> load_result)
}.

(** The exceptions ([Exception] subclasses) met in a validation run. *)
Inductive Exception : Type :=
| OSErr (e : OSError)
| YAMLError (msg : string)
| TypeError (msg : string)
| UnboundLocalError (msg : string)
| OtherException (msg : string).

(** [str(e)] *)
Definition Exception_str (e : Exception) : string :=
  match e with
  | OSErr e => OSError_str e
  | YAMLError msg | TypeError msg | UnboundLocalError msg | OtherException msg => msg
  end.

Record ProjectValidator : Type := {
  project_root : Path;
  errors : list string;
  warnings : list string;
  passed : list string
}.

(** [ProjectValidator(project_root)] *)
Definition init (root : Path) : ProjectValidator :=
  {| project_root := root; errors := []; warnings := []; passed := [] |}.

(** What can leave a call: an [Exception], or a [SystemExit] with the
    status that the process is to end with. *)
Inductive BaseException : Type :=
| Exc (e : Exception)
| SystemExit (status : nat).

(** The exceptions of a piece of code, among which are the [Exception]s:
    [as_exception e] is [isinstance(e, Exception)], with the exception
    when it holds. *)
Class Exceptions (E : Type) : Type := {
  of_exception : Exception -> E;
  as_exception : E -> option Exception
}.

#[global] Instance Exception_Exceptions : Exceptions Exception :=
  {| of_exception := fun e => e; as_exception := fun e => Some e |}.

#[global] Instance BaseException_Exceptions : Exceptions BaseException :=
  {| of_exception := Exc;
     as_exception := fun e => match e with
                              | Exc e => Some e
                              | SystemExit _ => None
                              end |}.

(** Code of the validator that returns or raises an [Exception], and code
    that may also end the process. *)
Abbreviation V := (M ProjectValidator Exception).
Abbreviation P := (M ProjectValidator BaseException).

(** Code that raises [Exception]s only, among code that may raise more. *)
Definition lift {E : Type} `{Exceptions E} {A : Type} (m : V A) : M ProjectValidator E A :=
  fun self =>
    match m self with
    | Ok a self1 out => Ok a self1 out
    | Raise e self1 out => Raise (of_exception e) self1 out
    end.

(** [try: m  except Exception as e: handler(e)]: what is no [Exception]
    passes. *)
Definition except_Exception {E : Type} `{Exceptions E} {A : Type}
    (m : M ProjectValidator E A) (handler : Exception -> M ProjectValidator E A)
    : M ProjectValidator E A :=
  fun self =>
    match m self with
    | Ok a self1 o1 => Ok a self1 o1
    | Raise e self1 o1 =>
        match as_exception e with
        | Some e' =>
            match handler e' self1 with
            | Ok b self2 o2 => Ok b self2 (o1 ++ o2)
            | Raise e2 self2 o2 => Raise e2 self2 (o1 ++ o2)
            end
        | None => Raise e self1 o1
        end
    end.

(** [self.errors.append(msg)] and its two siblings. *)
Definition errors_append {E : Type} (msg : string) : M ProjectValidator E unit :=
  fun self => Ok tt {| project_root := project_root self;
                       errors := errors self ++ [msg];
                       warnings := warnings self;
                       passed := passed self |} [].

Definition warnings_append {E : Type} (msg : string) : M ProjectValidator E unit :=
  fun self => Ok tt {| project_root := project_root self;
                       errors := errors self;
                       warnings := warnings self ++ [msg];
                       passed := passed self |} [].

Definition passed_append {E : Type} (msg : string) : M ProjectValidator E unit :=
  fun self => Ok tt {| project_root := project_root self;
                       errors := errors self;
                       warnings := warnings self;
                       passed := passed self ++ [msg] |} [].

(** A filesystem read made from a check: the filesystem is not changed,
    what the read raises becomes the check's exception. *)
Definition read_fs {A} (env : Env) (m : FSM A) : V A :=
  fun self =>
    match m (env_fs env) with
    | Ok a _ _ => Ok a self []
    | Raise e _ _ => Raise (OSErr e) self []
    end.

Definition required_dirs : list string :=
  [ "src"; "src/core"; "src/models"; "src/strategies"; "src/utils";
    "scripts"; "configs"; "tests" ].

(** The body of the loop of [check_directory_structure]. *)
Definition check_directory (env : Env) (dir_path : string) : V unit :=
  do self <- get_state;
  let full_path := project_root self // dir_path in
  if exists_ (env_fs env) full_path && is_dir (env_fs env) full_path then
    run passed_append ("Directory exists: " +:+ dir_path);
    print ("  ✓ " +:+ dir_path)
  else
    run errors_append ("Missing directory: " +:+ dir_path);
    print ("  ✗ " +:+ dir_path).

Definition check_directory_structure (env : Env) : V unit :=
  for_each required_dirs (check_directory env).

Definition required_files : list string :=
  [ "README.md"; "requirements.txt"; "setup.py"; "configs/default_config.yaml";
    "src/__init__.py"; "src/core/__init__.py"; "src/models/__init__.py";
    "src/strategies/__init__.py"; "src/utils/__init__.py" ].

(** The body of the loop of [check_required_files]. *)
Definition check_required_file (env : Env) (file_path : string) : V unit :=
  do self <- get_state;
  let full_path := project_root self // file_path in
  if exists_ (env_fs env) full_path && is_file (env_fs env) full_path then
    run passed_append ("File exists: " +:+ file_path);
    print ("  ✓ " +:+ file_path)
  else
    run errors_append ("Missing file: " +:+ file_path);
    print ("  ✗ " +:+ file_path).

Definition check_required_files (env : Env) : V unit :=
  for_each required_files (check_required_file env).

Definition import_tests : list (string * string) :=
  [ ("src.utils.config", "Config utilities");
    ("src.utils.data_utils", "Data utilities");
    ("src.utils.logging_utils", "Logging utilities");
    ("src.models.message_passing", "Message passing model") ].

(** [importlib.util.find_spec(module_name)]: whether there is a spec.  The
    change of [sys.path] is part of what [find_spec] of the environment
    answers. *)
Definition find_spec_call (env : Env) (module_name : string) : P bool :=
  match find_spec env module_name with
  | SpecFound => ret true
  | SpecNone => ret false
  | SpecRaises msg => raise (Exc (OtherException msg))
  | SpecExits status => raise (SystemExit status)
  end.

(** The body of the loop of [check_imports], with its own
    [try]/[except Exception]. *)
Definition check_import (env : Env) (test : string * string) : P unit :=
  let '(module_name, description) := test in
  except_Exception
    (do spec <- find_spec_call env module_name;
     if spec then
       run passed_append ("Import works: " +:+ module_name);
       print ("  ✓ " +:+ description +:+ " (" +:+ module_name +:+ ")")
     else
       run warnings_append ("Module not found: " +:+ module_name);
       print ("  ⚠ " +:+ description +:+ " (" +:+ module_name +:+ ")"))
    (fun e =>
       run errors_append ("Import failed: " +:+ module_name +:+ " - " +:+ Exception_str e);
       print ("  ✗ " +:+ description +:+ " (" +:+ module_name +:+ "): " +:+ Exception_str e)).

Definition check_imports (env : Env) : P unit :=
  for_each import_tests (check_import env).

Definition required_sections : list string :=
  [ "system"; "integration"; "training"; "model"; "oed"; "paths" ].

Definition type_name (config : yaml) : string :=
  match config with
  | YNull => "NoneType"
  | YBool _ => "bool"
  | YInt _ => "int"
  | YFloat _ => "float"
  | YStr _ => "str"
  | YSeq _ => "list"
  | YMap _ => "dict"
  end.

Definition is_str (s : string) (v : yaml) : bool :=
  match v with
  | YStr k => String.eqb k s
  | _ => false
  end.

(** [section in config]: key lookup in a mapping, element lookup in a
    sequence, substring search in a string, a [TypeError] otherwise. *)
Definition section_in (section : string) (config : yaml) : V bool :=
  match config with
  | YMap items => ret (existsb (fun kv => is_str section (fst kv)) items)
  | YSeq items => ret (existsb (is_str section) items)
  | YStr s => ret (Str.contains section s)
  | _ => raise (TypeError ("argument of type '" +:+ type_name config
                           +:+ "' is not iterable"))
  end.

(** The body of the loop over the required sections. *)
Definition check_section (config : yaml) (section : string) : V unit :=
  do present <- section_in section config;
  if present then
    run passed_append ("Config section exists: " +:+ section);
    print (" Section '" +:+ section +:+ "' present")
  else
    run warnings_append ("Config section missing: " +:+ section);
    print ("  Section '" +:+ section +:+ "' missing").

(** The body of the [try] of [check_configuration], once [yaml] is
    imported. *)
Definition check_configuration_try (env : Env) (safe_load : string -> load_result)
    (config_file : Path) : V unit :=
  do f <- read_fs env (open_text config_file);
  do config <- match safe_load f with
               | Loaded config => ret config
               | LoadFails msg => raise (YAMLError msg)
               | LoadRaises msg => raise (OtherException msg)
               end;
  (* Check required sections *)
  for_each required_sections (check_section config).

Definition check_configuration (env : Env) : V unit :=
  do self <- get_state;
  let config_file := project_root self // "configs" // "default_config.yaml" in
  if negb (exists_ (env_fs env) config_file) then
    run errors_append "Configuration file not found";
    print "  ✗ Configuration file missing"
  else
    match yaml_module env with
    | None =>
        (* [import yaml] fails inside the [try]; looking up
           [yaml.YAMLError] for the first [except] then fails as well. *)
        raise (UnboundLocalError
          "cannot access local variable 'yaml' where it is not associated with a value")
    | Some safe_load =>
        try_except (check_configuration_try env safe_load config_file)
          (fun e =>
             match e with
             | YAMLError msg =>
                 run errors_append ("Invalid YAML: " +:+ msg);
                 print ("  Invalid YAML: " +:+ msg)
             | _ =>
                 run errors_append ("Config check failed: " +:+ Exception_str e);
                 print ("  " +:+ Exception_str e)
             end)
    end.

Definition doc_files : list (string * string) :=
  [ ("README.md", "Main README");
    ("REORGANIZATION_GUIDE.md", "Reorganization guide") ].

(** The body of the loop of [check_documentation]. *)
Definition check_doc_file (env : Env) (doc : string * string) : V unit :=
  let '(file_name, description) := doc in
  do self <- get_state;
  let file_path := project_root self // file_name in
  if exists_ (env_fs env) file_path then
    (* Check if file has content *)
    do content <- read_fs env (read_text file_path);
    if Nat.ltb 100 (Str.len (Str.strip content)) then
      run passed_append ("Documentation exists: " +:+ file_name);
      print ("  ✓ " +:+ description)
    else
      run warnings_append ("Documentation too short: " +:+ file_name);
      print ("  ⚠ " +:+ description +:+ " (needs more content)")
  else
    run warnings_append ("Documentation missing: " +:+ file_name);
    print ("  ⚠ " +:+ description +:+ " missing").

Definition check_documentation (env : Env) : V unit :=
  for_each doc_files (check_doc_file env).

Definition print_summary : V unit :=
  do self <- get_state;
  run print (Str.nl +:+ Str.mul "=" 70);
  run print "Validation Summary";
  run print (Str.mul "=" 70);
  run print (Str.nl +:+ "✓ Passed:   " +:+ Str.of_nat (length (passed self)));
  run print ("⚠ Warnings: " +:+ Str.of_nat (length (warnings self)));
  run print ("✗ Errors:   " +:+ Str.of_nat (length (errors self)));
  run (match warnings self with
       | [] => ret tt
       | _ =>
           run print (Str.nl +:+ "⚠ Warnings:");
           for_each (warnings self) (fun warning => print ("  - " +:+ warning))
       end);
  run (match errors self with
       | [] => print (Str.nl +:+ " All validation checks passed!")
       | _ =>
           run print (Str.nl +:+ "✗ Errors:");
           for_each (errors self) (fun error => print ("  - " +:+ error))
       end);
  print (Str.nl +:+ Str.mul "=" 70).

(** The body of the loop of [validate_all]: one check under its
    [try]/[except Exception].  The checks are code that raises
    [Exception]s only, or code that may also end the process. *)
Definition run_check {E : Type} `{Exceptions E} (check : string * M ProjectValidator E unit)
    : M ProjectValidator E unit :=
  let '(check_name, check_func) := check in
  run print (Str.nl +:+ check_name +:+ ":");
  run print (Str.mul "-" 40);
  except_Exception check_func
    (fun e =>
       run errors_append (check_name +:+ ": " +:+ Exception_str e);
       print ("  ✗ ERROR: " +:+ Exception_str e)).

(** [validate_all] over a given list of checks. *)
Definition validate_all_with {E : Type} `{Exceptions E}
    (checks : list (string * M ProjectValidator E unit)) : M ProjectValidator E bool :=
  run print (Str.mul "=" 70);
  run print "MOCU-OED Project Validation";
  run print (Str.mul "=" 70);
  run for_each checks run_check;
  (* Print summary *)
  run lift print_summary;
  do self <- get_state;
  ret (Nat.eqb (length (errors self)) 0).

(** The five checks; the import check is the one that may end the
    process. *)
Definition checks (env : Env) : list (string * P unit) :=
  [ ("Directory Structure", lift (check_directory_structure env));
    ("Required Files", lift (check_required_files env));
    ("Python Imports", check_imports env);
    ("Configuration", lift (check_configuration env));
    ("Documentation", lift (check_documentation env)) ].

Definition validate_all (env : Env) : P bool := validate_all_with (checks env).

(** [main]: the exit status of the process and what it printed.
    [project_root] is the directory above the script's.  A [SystemExit]
    that reaches the top ends the process with its status; an exception
    that does, with status 1. *)
Definition main (env : Env) (project_root : Path) : nat * list string :=
  let banner := "Project root: " +:+ PathLib.to_str project_root +:+ Str.nl in
  (* Run validation *)
  let validator := init project_root in
  match validate_all env validator with
  | Ok success _ out =>
      (* Exit with appropriate code *)
      ((if success then 0 else 1)%nat, banner :: out)
  | Raise (SystemExit status) _ out => (status, banner :: out)
  | Raise (Exc _) _ out => (1%nat, banner :: out)
  end.

(** *** What a run of the checks amounts to

    [settle name r] is the validator object once the check [name] has
    stopped with [r] and the runner has handled it; [check_output] is what
    the runner and the check have printed by then. *)
Definition settle (check_name : string) (r : Result ProjectValidator Exception unit)
    : ProjectValidator :=
  match r with
  | Ok _ self _ => self
  | Raise e self _ =>
      {| project_root := project_root self;
         errors := errors self ++ [check_name +:+ ": " +:+ Exception_str e];
         warnings := warnings self;
         passed := passed self |}
  end.

Definition check_output (check_name : string) (r : Result ProjectValidator Exception unit)
    : list string :=
  [Str.nl +:+ check_name +:+ ":"; Str.mul "-" 40]
  ++ out_of r
  ++ match r with
     | Ok _ _ _ => []
     | Raise e _ _ => ["  ✗ ERROR: " +:+ Exception_str e]
     end.

Fixpoint after_checks (checks : list (string * V unit)) (self : ProjectValidator)
    : ProjectValidator :=
  match checks with
  | [] => self
  | (check_name, check_func) :: checks' =>
      after_checks checks' (settle check_name (check_func self))
  end.

Fixpoint output_of_checks (checks : list (string * V unit)) (self : ProjectValidator)
    : list string :=
  match checks with
  | [] => []
  | (check_name, check_func) :: checks' =>
      check_output check_name (check_func self)
      ++ output_of_checks checks' (settle check_name (check_func self))
  end.

(** The values on which [in] is defined: mappings, sequences and
    strings. *)
Definition supports_in (config : yaml) : bool :=
  match config with
  | YStr _ | YSeq _ | YMap _ => true
  | _ => false
  end.

Definition banner : list string :=
  [Str.mul "=" 70; "MOCU-OED Project Validation"; Str.mul "=" 70].

End Validate.

(** * What the migration touches

    The paths at which a computation may change the filesystem, and the
    state in which provisioning has nothing left to do. *)

Module Footprint.
Import Migrate.

(** [q] is touched by the targets [ts] when it lies on the way from the
    root to one of them. *)
Definition touched (ts : list Path) (q : Path) : Prop :=
  exists t, In t ts /\ q `prefix_of` t.

(** [m] leaves what [ts] does not touch as it was, whether it returns or
    raises. *)
Definition frames {A} (ts : list Path) (m : FSM A) : Prop :=
  forall (fs : FS) (q : Path), ~ touched ts q -> state_of (m fs) !! q = fs !! q.

Definition ensure_footprint (base_path : Path) (d : string) : list Path :=
  (base_path // d)
  :: (if String.prefix "src/" d then [base_path // d // "__init__.py"] else []).

Definition copy_footprint (old_base new_base : Path) (entry : string * string * bool)
    : list Path :=
  let '(src_rel, dst_rel, _) := entry in
  [ new_base // dst_rel;
    (new_base // dst_rel) ++ [PathLib.name (old_base // src_rel)] ].

Definition migrate_footprint (old_base new_base : Path) : list Path :=
  flat_map (ensure_footprint new_base) dirs
  ++ flat_map (copy_footprint old_base new_base) FILE_MAPPING
  ++ List.map (fun item => new_base // fst item) file_descriptions
  ++ [new_base // "MIGRATION_REPORT.md"].

(** The directory [d] and what is above it are there, and so is its marker
    file if it is to have one. *)
Definition provisioned (base_path : Path) (fs : FS) (d : string) : Prop :=
  (forall k : Path, k <> [] -> k `prefix_of` (base_path // d) -> fs !! k = Some Dir)
  /\ (String.prefix "src/" d = true ->
      exists_ fs (base_path // d // "__init__.py") = true).

End Footprint.

(** * Concrete inputs *)

Module Scenario.
Import Validate.

Definition long_text : string := Str.mul "a" 120.

Definition six_sections_text : string :=
  "system: {}
integration: {}
training: {}
model: {}
oed: {}
paths: {}
".

Definition six_sections : yaml :=
  YMap [ (YStr "system", YMap []); (YStr "integration", YMap []);
         (YStr "training", YMap []); (YStr "model", YMap []);
         (YStr "oed", YMap []); (YStr "paths", YMap []) ].

(** A root that has every required directory and file, and three of the
    four modules that the import check looks for. *)
Definition conforming_fs : FS :=
  list_to_map
    [ (["proj"], Dir);
      (["proj"; "src"], Dir); (["proj"; "src"; "core"], Dir);
      (["proj"; "src"; "models"], Dir); (["proj"; "src"; "strategies"], Dir);
      (["proj"; "src"; "utils"], Dir); (["proj"; "scripts"], Dir);
      (["proj"; "configs"], Dir); (["proj"; "tests"], Dir);
      (["proj"; "README.md"], File long_text);
      (["proj"; "REORGANIZATION_GUIDE.md"], File long_text);
      (["proj"; "requirements.txt"], File "pyyaml");
      (["proj"; "setup.py"], File "import setuptools");
      (["proj"; "configs"; "default_config.yaml"], File six_sections_text);
      (["proj"; "src"; "__init__.py"], File EmptyString);
      (["proj"; "src"; "core"; "__init__.py"], File EmptyString);
      (["proj"; "src"; "models"; "__init__.py"], File EmptyString);
      (["proj"; "src"; "strategies"; "__init__.py"], File EmptyString);
      (["proj"; "src"; "utils"; "__init__.py"], File EmptyString);
      (["proj"; "src"; "utils"; "config.py"], File EmptyString);
      (["proj"; "src"; "utils"; "data_utils.py"], File EmptyString);
      (["proj"; "src"; "utils"; "logging_utils.py"], File EmptyString) ].

(** The import machinery over a tree: a module is found when its file is
    there ([a.b.c] in [root/a/b/c.py]). *)
Definition module_path (root : Path) (module_name : string) : Path :=
  root ++ PathLib.split_dot module_name.

Definition find_in (fs : FS) (root : Path) (module_name : string) : spec_result :=
  match module_path root module_name with
  | [] => SpecNone
  | p =>
      if is_file fs (PathLib.parent p ++ [PathLib.name p +:+ ".py"]) then SpecFound
      else SpecNone
  end.

(** Everything conforms, but one of the four modules is not found:
    [src/models/message_passing.py] is not there. *)
Definition one_import_missing : Env :=
  {| env_fs := conforming_fs;
     find_spec := find_in conforming_fs ["proj"];
     yaml_module :=
       Some (fun text =>
               if String.eqb text six_sections_text then Loaded six_sections
               else LoadFails "not the text of this scenario") |}.

(** A tree with nothing under the root but a package [src/utils] whose
    code ends the process with status 0 as soon as it is imported. *)
Definition exiting_package_fs : FS :=
  list_to_map
    [ (["proj"], Dir); (["proj"; "src"], Dir); (["proj"; "src"; "utils"], Dir);
      (["proj"; "src"; "utils"; "__init__.py"], File "import sys; sys.exit(0)") ].

Definition exiting_package : Env :=
  {| env_fs := exiting_package_fs;
     find_spec := fun m =>
       if String.prefix "src.utils." m then SpecExits 0 else SpecNone;
     yaml_module := None |}.

(** The old tree holds the first two sources of [sync_detection.py] and
    nothing else; the new tree is empty. *)
Definition xy_fs : FS :=
  list_to_map
    [ (["old"], Dir); (["old"; "N5ForShare"], Dir);
      (["old"; "N5ForShare"; "determineSyncN.py"], File "X");
      (["old"; "N5ForShare"; "determineSyncTwo.py"], File "Y");
      (["new"], Dir) ].

Definition sync_detection : Path := ["new"; "src"; "core"; "sync_detection.py"].

(** Two sources out of three. *)
Definition two_of_three_fs : FS :=
  list_to_map
    [ (["old"], Dir); (["old"; "a.py"], File "A"); (["old"; "c.py"], File "C");
      (["new"], Dir) ].

(** A plan of three entries into the new tree; the source of the second
    one is missing from [two_of_three_fs]. *)
Definition three_entries : list (string * string * bool) :=
  [ ("a.py", "a.py", true); ("b.py", "b.py", true); ("c.py", "c.py", true) ].

(** A file that starts with bytes that do not decode. *)
Definition latin1_fs : FS :=
  list_to_map
    [ (["proj"], Dir);
      (["proj"; "m.py"], File (String (ascii_of_nat 233) "t" +:+ "e")) ].

(** A configuration file that holds one plain scalar. *)
Definition scalar_config_fs : FS :=
  list_to_map
    [ (["proj"], Dir); (["proj"; "configs"], Dir);
      (["proj"; "configs"; "default_config.yaml"], File "system and paths") ].

Definition scalar_config : Env :=
  {| env_fs := scalar_config_fs;
     find_spec := find_in scalar_config_fs ["proj"];
     yaml_module := Some (fun text => Loaded (YStr text)) |}.

(** The configuration file is there, the YAML library is not. *)
Definition no_yaml : Env :=
  {| env_fs := scalar_config_fs;
     find_spec := find_in scalar_config_fs ["proj"];
     yaml_module := None |}.

(** An empty configuration file. *)
Definition empty_config_fs : FS :=
  list_to_map
    [ (["proj"], Dir); (["proj"; "configs"], Dir);
      (["proj"; "configs"; "default_config.yaml"], File EmptyString) ].

Definition empty_config : Env :=
  {| env_fs := empty_config_fs;
     find_spec := find_in empty_config_fs ["proj"];
     yaml_module := Some (fun _ => Loaded YNull) |}.

(** A destination that exists already, next to its second source. *)
Definition append_fs : FS :=
  list_to_map
    [ (["old"], Dir); (["old"; "b.py"], File "Y");
      (["new"], Dir); (["new"; "out.py"], File "X") ].

(** One file without a docstring. *)
Definition plain_file_fs : FS :=
  list_to_map [ (["proj"], Dir); (["proj"; "m.py"], File "import os") ].

End Scenario.

(** * The entry point of the migration *)

Module MigrateMain.
Import Migrate.

(** [c.lower()] on the ASCII letters; no letter outside ASCII lowers to
    [y], [e] or [s]. *)
Definition lower_char (c : ascii) : ascii :=
  let n := nat_of_ascii c in
  if Nat.leb 65 n && Nat.leb n 90 then ascii_of_nat (n + 32) else c.

Fixpoint lower (s : string) : string :=
  match s with
  | EmptyString => EmptyString
  | String c s' => String (lower_char c) (lower s')
  end.

(** [response.lower() in ['yes', 'y']] *)
Definition affirmative (response : string) : bool :=
  String.eqb (lower response) "yes" || String.eqb (lower response) "y".

(** The block under [if __name__ == "__main__"]: [script_dir] is the
    directory of the script, [response] what is typed at the prompt, which
    [input] writes to standard output. *)
Definition main (script_dir : Path) (response : string) : FSM unit :=
  let old_base := PathLib.parent script_dir in
  let new_base := PathLib.parent script_dir in
  run print ("Old base: " +:+ PathLib.to_str old_base);
  run print ("New base: " +:+ PathLib.to_str new_base);
  run print EmptyString;
  (* Confirm *)
  run print "Proceed with migration? (yes/no): ";
  if affirmative response then migrate_files old_base new_base
  else print "Migration cancelled.".

End MigrateMain.

(** * The table of the report *)

Module Report.
Import Migrate.

(** One row of the table, with the mark of whether the destination is
    there. *)
Definition row (base_path : Path) (fs : FS) (entry : string * string * bool) : string :=
  let '(src, dst, _) := entry in
  "| `" +:+ src +:+ "` | `" +:+ dst +:+ "` | "
  +:+ (if exists_ fs (base_path // dst) then "✓" else "✗") +:+ " |" +:+ Str.nl.

Fixpoint table (base_path : Path) (fs : FS) (plan : list (string * string * bool)) : string :=
  match plan with
  | [] => EmptyString
  | entry :: plan' => row base_path fs entry +:+ table base_path fs plan'
  end.

End Report.

(** * What stands in the way *)

Module Blocked.

(** A regular file stands at [p] or above it, where a directory is
    needed. *)
Definition blocked (fs : FS) (p : Path) : Prop :=
  exists (k : Path) (c : string), k <> [] /\ k `prefix_of` p /\ fs !! k = Some (File c).

End Blocked.

(** * Plans whose transfers do not meet *)

Module Transfer.
Import Migrate.

Definition source (old_base : Path) (entry : string * string * bool) : Path :=
  old_base // fst (fst entry).

Definition destination (new_base : Path) (entry : string * string * bool) : Path :=
  new_base // snd (fst entry).

(** The entry can be transferred as the filesystem stands: it is made in
    overwrite mode, its source is no directory, and its destination is no
    directory and lies in a directory that is there. *)
Definition ready (old_base new_base : Path) (fs : FS) (entry : string * string * bool)
    : bool :=
  negb (Str.contains "Append" (snd (fst entry)))
  && negb (is_dir fs (source old_base entry))
  && negb (is_dir fs (destination new_base entry))
  && is_dir fs (PathLib.parent (destination new_base entry)).

(** No transfer writes where a transfer reads. *)
Definition apart (old_base new_base : Path) (plan : list (string * string * bool)) : Prop :=
  forall e e', In e plan -> In e' plan -> destination new_base e <> source old_base e'.

(** The source of the entry is there. *)
Definition present (old_base : Path) (fs : FS) (entry : string * string * bool) : bool :=
  exists_ fs (source old_base entry).

(** The line that the transfer of the entry prints. *)
Definition line (old_base new_base : Path) (fs : FS) (entry : string * string * bool)
    : string :=
  if present old_base fs entry
  then "  ✓ Copied: " +:+ PathLib.to_str (source old_base entry) +:+ " -> "
       +:+ PathLib.to_str (destination new_base entry)
  else "  WARNING: Source file not found: " +:+ PathLib.to_str (source old_base entry).

(** The filesystem with, for each entry in turn, the bytes of its source,
    if it is a file, at its destination. *)
Fixpoint transferred (old_base new_base : Path) (plan : list (string * string * bool))
    (fs : FS) : FS :=
  match plan with
  | [] => fs
  | entry :: plan' =>
      transferred old_base new_base plan'
        (match node_at fs (source old_base entry) with
         | Some (File c) => <[destination new_base entry := File c]> fs
         | _ => fs
         end)
  end.

End Transfer.

(** * What the migration keeps *)

Module Keeps.

(** A directory stays a directory and a file a file. *)
Definition same_kind (n n' : node) : Prop :=
  match n, n' with
  | Dir, Dir => True
  | File _, File _ => True
  | _, _ => False
  end.

(** Whatever is there when [m] starts is there, of the same kind, when [m]
    stops, whether it returns or raises. *)
Definition keeps {A} (m : FSM A) : Prop :=
  forall (fs : FS) (p : Path) (n : node),
    fs !! p = Some n ->
    exists n', state_of (m fs) !! p = Some n' /\ same_kind n n'.

End Keeps.

(** * What decides a validation run *)

Module Verdict.
Import Validate.

(** The validator object with findings filed after those it holds. *)
Definition file_findings (self : ProjectValidator) (es ws ps : list string)
    : ProjectValidator :=
  {| project_root := project_root self;
     errors := errors self ++ es;
     warnings := warnings self ++ ws;
     passed := passed self ++ ps |}.

(** The findings of the loops that file one finding for each item. *)
Definition directory_errors (env : Env) (root : Path) (dir_path : string) : list string :=
  if is_dir (env_fs env) (root // dir_path) then [] else ["Missing directory: " +:+ dir_path].

Definition directory_passed (env : Env) (root : Path) (dir_path : string) : list string :=
  if is_dir (env_fs env) (root // dir_path) then ["Directory exists: " +:+ dir_path] else [].

Definition file_errors (env : Env) (root : Path) (file_path : string) : list string :=
  if is_file (env_fs env) (root // file_path) then [] else ["Missing file: " +:+ file_path].

Definition file_passed (env : Env) (root : Path) (file_path : string) : list string :=
  if is_file (env_fs env) (root // file_path) then ["File exists: " +:+ file_path] else [].

(** The first of the lookups for [tests] that ends the process, if one
    does, with its status; and the lookups made before it. *)
Fixpoint first_exit (env : Env) (tests : list (string * string)) : option nat :=
  match tests with
  | [] => None
  | test :: tests' =>
      match find_spec env (fst test) with
      | SpecExits status => Some status
      | _ => first_exit env tests'
      end
  end.

Fixpoint before_exit (env : Env) (tests : list (string * string)) : list (string * string) :=
  match tests with
  | [] => []
  | test :: tests' =>
      match find_spec env (fst test) with
      | SpecExits _ => []
      | _ => test :: before_exit env tests'
      end
  end.

Definition import_errors (env : Env) (test : string * string) : list string :=
  match find_spec env (fst test) with
  | SpecRaises e => ["Import failed: " +:+ fst test +:+ " - " +:+ e]
  | _ => []
  end.

Definition import_warnings (env : Env) (test : string * string) : list string :=
  match find_spec env (fst test) with
  | SpecNone => ["Module not found: " +:+ fst test]
  | _ => []
  end.

Definition import_passed (env : Env) (test : string * string) : list string :=
  match find_spec env (fst test) with
  | SpecFound => ["Import works: " +:+ fst test]
  | _ => []
  end.

Definition import_lines (env : Env) (test : string * string) : list string :=
  match find_spec env (fst test) with
  | SpecFound => ["  ✓ " +:+ snd test +:+ " (" +:+ fst test +:+ ")"]
  | SpecNone => ["  ⚠ " +:+ snd test +:+ " (" +:+ fst test +:+ ")"]
  | SpecRaises e => ["  ✗ " +:+ snd test +:+ " (" +:+ fst test +:+ "): " +:+ e]
  | SpecExits _ => []
  end.

(** The validator object with the findings of the lookups [l]. *)
Definition imports_state (env : Env) (self : ProjectValidator) (l : list (string * string))
    : ProjectValidator :=
  file_findings self (flat_map (import_errors env) l) (flat_map (import_warnings env) l)
    (flat_map (import_passed env) l).

(** What the import check does when no lookup ends the process, as code
    that raises nothing. *)
Definition imports_filed (env : Env) : V unit :=
  fun self =>
    Ok tt (file_findings self
             (flat_map (import_errors env) import_tests)
             (flat_map (import_warnings env) import_tests)
             (flat_map (import_passed env) import_tests))
       (flat_map (import_lines env) import_tests).

(** The five checks when no lookup ends the process. *)
Definition quiet_checks (env : Env) : list (string * V unit) :=
  [ ("Directory Structure", check_directory_structure env);
    ("Required Files", check_required_files env);
    ("Python Imports", imports_filed env);
    ("Configuration", check_configuration env);
    ("Documentation", check_documentation env) ].

(** The check [check_func], run under the name [check_name], files an
    Error (its own or the runner's) exactly when [condition] fails for the
    root of the validator, which it leaves alone together with the errors
    that are there. *)
Definition decides (check_name : string) (check_func : V unit) (condition : Path -> Prop)
    : Prop :=
  forall self, exists delta,
    errors (settle check_name (check_func self)) = errors self ++ delta
    /\ project_root (settle check_name (check_func self)) = project_root self
    /\ (delta = [] <-> condition (project_root self)).

(** The same for a run of several checks in a row. *)
Definition decide_together (checks : list (string * V unit)) (condition : Path -> Prop)
    : Prop :=
  forall self, exists delta,
    errors (after_checks checks self) = errors self ++ delta
    /\ project_root (after_checks checks self) = project_root self
    /\ (delta = [] <-> condition (project_root self)).

(** The conditions under which a check files no Error and does not
    raise. *)
Definition directories_ok (env : Env) (root : Path) : Prop :=
  forall dir_path, In dir_path required_dirs -> is_dir (env_fs env) (root // dir_path) = true.

Definition files_ok (env : Env) (root : Path) : Prop :=
  forall file_path, In file_path required_files ->
                    is_file (env_fs env) (root // file_path) = true.

Definition imports_ok (env : Env) : Prop :=
  forall test, In test import_tests ->
               match find_spec env (fst test) with SpecRaises _ => False | _ => True end.

Definition configuration_ok (env : Env) (root : Path) : Prop :=
  exists content safe_load config,
    node_at (env_fs env) (root // "configs" // "default_config.yaml") = Some (File content)
    /\ yaml_module env = Some safe_load
    /\ safe_load (Str.universal_newlines content) = Loaded config
    /\ supports_in config = true.

(** Reading [p] as text does not raise, if [p] is there: it is no
    directory, and its bytes decode. *)
Definition reads_as_text (fs : FS) (p : Path) : bool :=
  match node_at fs p with
  | Some Dir => false
  | Some (File c) => Utf8.valid c
  | None => true
  end.

Definition documentation_ok (env : Env) (root : Path) : Prop :=
  forall doc, In doc doc_files -> reads_as_text (env_fs env) (root // fst doc) = true.

(** The findings of the loop over the sections, for a mapping. *)
Definition section_warnings (items : list (yaml * yaml)) (section : string) : list string :=
  if existsb (fun kv => is_str section (fst kv)) items then []
  else ["Config section missing: " +:+ section].

Definition section_passed (items : list (yaml * yaml)) (section : string) : list string :=
  if existsb (fun kv => is_str section (fst kv)) items
  then ["Config section exists: " +:+ section] else [].

End Verdict.

(** * More concrete inputs *)

Module Scenario2.
Import Validate.

(** A source that is a directory. *)
Definition dir_source_fs : FS :=
  list_to_map [ (["old"], Dir); (["old"; "a.py"], Dir); (["new"], Dir) ].

(** A destination that is a directory. *)
Definition dir_destination_fs : FS :=
  list_to_map
    [ (["old"], Dir); (["old"; "a.py"], File "A"); (["new"], Dir); (["new"; "out"], Dir) ].

(** The project as the script finds it: sources under the root itself. *)
Definition in_place_fs : FS :=
  list_to_map
    [ (["proj"], Dir); (["proj"; "scripts"], Dir);
      (["proj"; "N5ForShare"], Dir);
      (["proj"; "N5ForShare"; "MOCU.py"], File "import numpy") ].

(** A README that is a directory. *)
Definition readme_dir_fs : FS :=
  list_to_map [ (["proj"], Dir); (["proj"; "README.md"], Dir) ].

Definition readme_dir : Env :=
  {| env_fs := readme_dir_fs;
     find_spec := Scenario.find_in readme_dir_fs ["proj"];
     yaml_module := None |}.

Definition two_sections_text : string :=
  "system: {}
paths: {}
3:
".

Definition two_sections_fs : FS :=
  list_to_map
    [ (["proj"], Dir); (["proj"; "configs"], Dir);
      (["proj"; "configs"; "default_config.yaml"], File two_sections_text) ].

(** A configuration with two of the six sections. *)
Definition two_sections : yaml :=
  YMap [ (YStr "system", YMap []); (YStr "paths", YMap []); (YInt 3, YNull) ].

Definition two_sections_config : Env :=
  {| env_fs := two_sections_fs;
     find_spec := Scenario.find_in two_sections_fs ["proj"];
     yaml_module :=
       Some (fun text =>
               if String.eqb text two_sections_text then Loaded two_sections
               else LoadFails "not the text of this scenario") |}.

End Scenario2.

(** * Properties *)

(** ** The monad *)

Section MonadFacts.
Context {S E : Type}.

Lemma bind_Ok {A B} (m : M S E A) (k : A -> M S E B) s a s1 o1 :
  m s = Ok a s1 o1 ->
  bind m k s = match k a s1 with
               | Ok b s2 o2 => Ok b s2 (o1 ++ o2)
               | Raise e s2 o2 => Raise e s2 (o1 ++ o2)
               end.
Proof. intros H. unfold bind. now rewrite H. Qed.

Lemma bind_Raise {A B} (m : M S E A) (k : A -> M S E B) s e s1 o1 :
  m s = Raise e s1 o1 -> bind m k s = Raise e s1 o1.
Proof. intros H. unfold bind. now rewrite H. Qed.

Lemma Result_eta {A} (r : Result S E A) :
  match r with
  | Ok b s2 o2 => Ok b s2 ([] ++ o2)
  | Raise e s2 o2 => Raise e s2 ([] ++ o2)
  end = r.
Proof. now destruct r. Qed.

Lemma is_Ok_eq {A} (default : A) (r : Result S E A) :
  is_Ok r = true -> r = Ok (value_of default r) (state_of r) (out_of r).
Proof. now destruct r. Qed.

Lemma is_Ok_unit (r : Result S E unit) :
  is_Ok r = true -> r = Ok tt (state_of r) (out_of r).
Proof. now destruct r as [[] s o|e s o]. Qed.

Lemma bind_ret {A B} (a : A) (k : A -> M S E B) s : bind (ret a) k s = k a s.
Proof. unfold bind, ret. apply Result_eta. Qed.

Lemma bind_get_state {B} (k : S -> M S E B) s : bind get_state k s = k s s.
Proof. unfold bind, get_state. apply Result_eta. Qed.

Lemma bind_put_state {B} (k : unit -> M S E B) s s' :
  bind (put_state s') k s = k tt s'.
Proof. unfold bind, put_state. apply Result_eta. Qed.

Lemma bind_raise {A B} (e : E) (k : A -> M S E B) s :
  bind (raise e) k s = Raise e s [].
Proof. reflexivity. Qed.

Lemma bind_print {B} (line : string) (k : unit -> M S E B) s :
  bind (print line) k s
  = match k tt s with
    | Ok b s2 o2 => Ok b s2 (line :: o2)
    | Raise e s2 o2 => Raise e s2 (line :: o2)
    end.
Proof. reflexivity. Qed.

(** A loop that only prints. *)
Lemma for_each_print {A} (l : list A) (f : A -> string) (s : S) :
  for_each l (fun x => print (E := E) (f x)) s = Ok tt s (List.map f l).
Proof.
  induction l as [|x l IH]; [reflexivity|].
  cbn [for_each]. unfold bind at 1. cbn. now rewrite IH.
Qed.

End MonadFacts.

(** ** Strings *)

Module StrFacts.
Import Str.

Lemma append_cons (c : ascii) (s t : string) : String c s +:+ t = String c (s +:+ t).
Proof. reflexivity. Qed.

Lemma append_nil_r (s : string) : s +:+ EmptyString = s.
Proof. induction s as [|c s IH]; [reflexivity|]. now rewrite append_cons, IH. Qed.

Lemma append_assoc (a b c : string) : (a +:+ b) +:+ c = a +:+ (b +:+ c).
Proof. induction a as [|x a IH]; [reflexivity|]. now rewrite !append_cons, IH. Qed.

Lemma prefix_append d : forall x, String.prefix d (d +:+ x) = true.
Proof.
  induction d as [|a d IH]; intros x.
  - now destruct x.
  - rewrite append_cons. cbn [String.prefix].
    destruct (ascii_dec a a); [apply IH|congruence].
Qed.

Lemma prefix_app_r (m : string) : forall a b : string,
  String.prefix m a = true -> String.prefix m (a +:+ b) = true.
Proof.
  induction m as [|x m IH]; intros a b H; [now destruct (a +:+ b)|].
  destruct a as [|y a]; [discriminate|]. rewrite append_cons.
  cbn [String.prefix] in *. destruct (ascii_dec x y); [now apply IH|discriminate].
Qed.

(** *** Characters *)

Lemma chars_nil (s : string) : chars s = [] -> s = EmptyString.
Proof.
  destruct s as [|c s]; [reflexivity|]. cbn [chars].
  destruct (chars s); [discriminate|]. destruct (continues s); discriminate.
Qed.

(** A byte before a byte that is no continuation is a character. *)
Lemma chars_cons (c : ascii) (s : string) :
  s <> EmptyString -> continues s = false ->
  chars (String c s) = String c EmptyString :: chars s.
Proof.
  intros Hs Hc. cbn [chars]. rewrite Hc.
  destruct (chars s) eqn:E; [|reflexivity]. now apply chars_nil in E.
Qed.

Lemma unchars_app (l1 l2 : list string) : unchars (l1 ++ l2) = unchars l1 +:+ unchars l2.
Proof.
  induction l1 as [|ch l1 IH]; [reflexivity|].
  cbn [app unchars fold_right]. fold (unchars (l1 ++ l2)). fold (unchars l1).
  now rewrite IH, append_assoc.
Qed.

(** A text is its characters, one after the other. *)
Lemma unchars_chars (s : string) : unchars (chars s) = s.
Proof.
  induction s as [|c s IH]; [reflexivity|]. cbn [chars].
  destruct (chars s) as [|ch l]; [now rewrite <- IH|].
  destruct (continues s); cbn [unchars fold_right] in *; now rewrite <- IH.
Qed.

(** *** Stripping *)

Lemma all_blank_app (a b : string) :
  all_blank a = true -> all_blank b = true -> all_blank (a +:+ b) = true.
Proof.
  induction a as [|c a IH]; intros Ha Hb; [exact Hb|].
  rewrite append_cons. cbn [all_blank] in *.
  apply andb_prop in Ha as [-> Ha]. now apply IH.
Qed.

Lemma is_space_blank (ch : string) : is_space ch = true -> all_blank ch = true.
Proof.
  unfold is_space.
  destruct ch as [|c1 [|c2 [|c3 [|c4 ch]]]]; cbn [list_ascii_of_string List.map all_blank];
    try discriminate; unfold blank;
    repeat match goal with
           | |- context [nat_of_ascii ?c] =>
               let n := fresh "n" in generalize (nat_of_ascii c); intros n
           end;
    intros H;
    repeat (rewrite ?andb_true_iff, ?orb_true_iff, ?Nat.eqb_eq, ?Nat.leb_le in * );
    repeat split; lia.
Qed.

(** Stripping on the right takes whitespace away, and nothing else. *)
Lemma rstrip_chars_split (l : list string) :
  exists sp, l = rstrip_chars l ++ sp /\ all_blank (unchars sp) = true.
Proof.
  induction l as [|ch l (sp & Hl & Hsp)]; [now exists []|].
  cbn [rstrip_chars]. destruct (rstrip_chars l) as [|x r] eqn:E.
  - cbn [app] in Hl. subst sp. destruct (is_space ch) eqn:Hch.
    + exists (ch :: l). split; [reflexivity|].
      cbn [unchars fold_right]. apply all_blank_app; [now apply is_space_blank|exact Hsp].
    + exists l. split; [reflexivity|exact Hsp].
  - exists sp. split; [|exact Hsp]. rewrite Hl at 1. reflexivity.
Qed.

(** A prefix free of such bytes does not reach into whitespace. *)
Lemma prefix_before_blank (m : string) : forall a b : string,
  no_blank m = true -> all_blank b = true ->
  String.prefix m (a +:+ b) = true -> String.prefix m a = true.
Proof.
  induction m as [|x m IH]; intros a b Hm Hb H; [now destruct a|].
  cbn [no_blank] in Hm. apply andb_prop in Hm as [Hx Hm].
  destruct a as [|y a].
  - change (EmptyString +:+ b) with b in H. destruct b as [|y b]; [discriminate|].
    cbn [String.prefix all_blank] in *. apply andb_prop in Hb as [Hy _].
    destruct (ascii_dec x y) as [->|]; [|discriminate].
    rewrite Hy in Hx. discriminate.
  - rewrite append_cons in H. cbn [String.prefix] in *.
    destruct (ascii_dec x y); [|discriminate]. now apply (IH a b).
Qed.

Lemma prefix_rstrip_chars (m : string) (l : list string) :
  no_blank m = true ->
  String.prefix m (unchars (rstrip_chars l)) = String.prefix m (unchars l).
Proof.
  intros Hm. destruct (rstrip_chars_split l) as (sp & Hl & Hsp).
  rewrite Hl at 2. rewrite unchars_app.
  destruct (String.prefix m (unchars (rstrip_chars l))) eqn:E.
  - symmetry. now apply prefix_app_r.
  - destruct (String.prefix m (_ +:+ _)) eqn:E'; [|reflexivity].
    apply prefix_before_blank in E'; [congruence|exact Hm|exact Hsp].
Qed.

(** Whether a text starts with [m], whitespace apart, does not depend on
    what is stripped at its end. *)
Lemma prefix_strip (m s : string) :
  no_blank m = true -> String.prefix m (strip s) = String.prefix m (lstrip s).
Proof. intros Hm. unfold strip, lstrip. now apply prefix_rstrip_chars. Qed.

(** A text that starts with a docstring delimiter is not stripped on the
    left. *)
Lemma lstrip_quoted (q : ascii) (t : string) :
  is_continuation q = false -> is_space (String q EmptyString) = false ->
  t <> EmptyString -> continues t = false ->
  lstrip (mul q 3 +:+ t) = mul q 3 +:+ t.
Proof.
  intros Hq Hsp Ht Hc. unfold lstrip. cbn [mul]. rewrite !append_cons.
  change (EmptyString +:+ t) with t.
  rewrite !chars_cons by (try discriminate; try exact Ht; try exact Hc; exact Hq).
  cbn [lstrip_chars]. rewrite Hsp.
  cbn [unchars fold_right]. fold (unchars (chars t)).
  now rewrite unchars_chars.
Qed.

(** *** Line ends *)

(** A text without carriage returns is read as it is. *)
Lemma universal_newlines_id (s : string) : no_CR s = true -> universal_newlines s = s.
Proof.
  induction s as [|c s IH]; [reflexivity|]. cbn [no_CR universal_newlines].
  intros H. apply andb_prop in H as [Hc Hs].
  apply negb_true_iff in Hc. rewrite Hc. now rewrite IH.
Qed.

End StrFacts.

(** ** The codec *)

Module Utf8Facts.
Import Utf8 StrFacts.

(** Whether the bytes decode does not depend on where they begin. *)
Lemma scan_None_pos (s : string) : forall (st : option pending) (pos pos' : nat),
  scan st pos s = None -> scan st pos' s = None.
Proof.
  induction s as [|c s IH]; intros st pos pos'; cbn [scan].
  - now destruct st.
  - cbv zeta. destruct st as [p|].
    + destruct (in_range _ _); [apply IH|discriminate].
    + destruct (lead _); [apply IH|discriminate].
Qed.

(** Bytes that decode leave no sequence under way. *)
Lemma scan_app (a : string) : forall (st : option pending) (pos : nat) (b : string),
  scan st pos a = None ->
  scan st pos (a +:+ b) = scan None (pos + String.length a) b.
Proof.
  induction a as [|c a IH]; intros st pos b.
  - cbn [scan]. destruct st; [discriminate|]. intros _.
    change (EmptyString +:+ b) with b. cbn. now rewrite Nat.add_0_r.
  - rewrite append_cons. cbn [scan String.length]. cbv zeta.
    rewrite Nat.add_succ_r.
    destruct st as [p|].
    + destruct (in_range _ _); [apply IH|discriminate].
    + destruct (lead _); [apply IH|discriminate].
Qed.

(** Two texts, one after the other, are a text. *)
Lemma valid_app (a b : string) :
  valid a = true -> valid b = true -> valid (a +:+ b) = true.
Proof.
  unfold valid, decode_failure. intros Ha Hb.
  destruct (scan None 0 a) eqn:Ea; [discriminate|].
  rewrite (scan_app a None 0 b Ea).
  destruct (scan None 0 b) eqn:Eb; [discriminate|].
  now rewrite (scan_None_pos b None 0 _ Eb).
Qed.

Lemma in_range_continuation (r : range) (b : nat) : in_range r b = true -> 128 <= b.
Proof.
  destruct r; unfold in_range; rewrite andb_true_iff, !Nat.leb_le; lia.
Qed.

(** Translating the line ends of a text gives a text. *)
Lemma scan_universal_newlines (n : nat) :
  forall (s : string) (st : option pending) (pos pos' : nat),
    String.length s < n ->
    scan st pos s = None -> scan st pos' (Str.universal_newlines s) = None.
Proof.
  induction n as [|n IH]; intros s st pos pos' Hn; [lia|].
  destruct s as [|c s]; [now destruct st|].
  cbn [String.length] in Hn. cbn [Str.universal_newlines].
  destruct (Ascii.eqb c Str.CR) eqn:Ec.
  - apply Ascii.eqb_eq in Ec. subst c. cbn [scan]. cbv zeta.
    destruct st as [p|].
    { destruct (in_range (next p) (nat_of_ascii Str.CR)) eqn:Er; [|discriminate].
      apply in_range_continuation in Er.
      change (nat_of_ascii Str.CR) with 13 in Er. lia. }
    change (lead (nat_of_ascii Str.CR)) with (Some (@None pending)).
    destruct s as [|c' s].
    + intros _. reflexivity.
    + destruct (Ascii.eqb c' Str.LF) eqn:El.
      * apply Ascii.eqb_eq in El. subst c'. cbn [scan]. cbv zeta.
        change (lead (nat_of_ascii Str.LF)) with (Some (@None pending)).
        cbn [String.length] in Hn. apply IH. lia.
      * intros H. cbn [scan]. cbv zeta.
        change (lead (nat_of_ascii Str.LF)) with (Some (@None pending)).
        apply (IH _ _ (S pos)); [lia|exact H].
  - cbn [scan]. cbv zeta. destruct st as [p|].
    + destruct (in_range _ _); [|discriminate]. apply IH. lia.
    + destruct (lead _); [|discriminate]. apply IH. lia.
Qed.

Lemma valid_universal_newlines (s : string) :
  valid s = true -> valid (Str.universal_newlines s) = true.
Proof.
  unfold valid, decode_failure. intros H.
  destruct (scan None 0 s) eqn:E; [discriminate|].
  now rewrite (scan_universal_newlines (S (String.length s)) s None 0 0 (Nat.lt_succ_diag_r _) E).
Qed.

End Utf8Facts.

(** ** The validation runner *)

Module ValidateFacts.
Import Validate.

Lemma lift_Ok {E : Type} `{Exceptions E} {A : Type} (m : V A)
    (self self1 : ProjectValidator) (a : A) (out : list string) :
  m self = Ok a self1 out -> lift m self = Ok a self1 out.
Proof. intros Hm. unfold lift. now rewrite Hm. Qed.

Lemma print_summary_Ok self :
  print_summary self = Ok tt self (out_of (print_summary self)).
Proof.
  pose proof (for_each_print (S := ProjectValidator) (E := Exception) (A := string)) as P.
  unfold print in P.
  unfold print_summary, bind, get_state, print.
  destruct (warnings self) as [|w ws], (errors self) as [|e es];
    cbn -[for_each]; rewrite ?P; reflexivity.
Qed.

(** One check under the runner's handler: the runner goes on in every
    case. *)
Lemma run_check_settle check_name (check_func : V unit) self :
  run_check (check_name, check_func) self
  = Ok tt (settle check_name (check_func self))
          (check_output check_name (check_func self)).
Proof.
  unfold run_check, check_output, settle, bind, print, except_Exception, errors_append.
  destruct (check_func self) as [[] s1 o1 | e s1 o1]; cbn.
  - now rewrite app_nil_r.
  - reflexivity.
Qed.

(** The loop over the checks never stops early. *)
Lemma for_each_run_check checks self :
  for_each checks run_check self
  = Ok tt (after_checks checks self) (output_of_checks checks self).
Proof.
  revert self. induction checks as [|[check_name check_func] checks IH]; intros self.
  - reflexivity.
  - cbn [for_each after_checks output_of_checks].
    erewrite bind_Ok by apply run_check_settle.
    now rewrite IH.
Qed.

Lemma validate_all_with_Ok checks self :
  validate_all_with checks self
  = Ok (Nat.eqb (length (errors (after_checks checks self))) 0)
       (after_checks checks self)
       (banner ++ output_of_checks checks self
               ++ out_of (print_summary (after_checks checks self))).
Proof.
  unfold validate_all_with.
  do 3 (erewrite bind_Ok by reflexivity).
  erewrite bind_Ok by apply for_each_run_check.
  erewrite bind_Ok by apply lift_Ok, print_summary_Ok.
  cbn. now rewrite !app_nil_r.
Qed.

Lemma read_fs_open_text env p content self :
  node_at (env_fs env) p = Some (File content) ->
  read_fs env (open_text p) self = Ok (Str.universal_newlines content) self [].
Proof.
  intros H. unfold read_fs, open_text, read_bytes, bind, get_state.
  now rewrite H.
Qed.

Lemma read_fs_text env p content self :
  node_at (env_fs env) p = Some (File content) ->
  read_fs env (read_text p) self
  = match Utf8.decode_failure content with
    | None => Ok (Str.universal_newlines content) self []
    | Some f => Raise (OSErr (UnicodeDecodeError content f)) self []
    end.
Proof.
  intros H. unfold read_fs, read_text, read_bytes, decode, bind, get_state.
  rewrite H. cbn. now destruct (Utf8.decode_failure content).
Qed.

(** On a value that supports [in], the loop over the sections files one
    finding per section, Passed or Warning, and no Error. *)
Lemma for_each_check_section config sections :
  supports_in config = true ->
  forall self, exists self' out,
    for_each sections (check_section config) self = Ok tt self' out
    /\ project_root self' = project_root self
    /\ errors self' = errors self
    /\ length (passed self') + length (warnings self')
       = length (passed self) + length (warnings self) + length sections.
Proof.
  intros Hc. induction sections as [|section sections IH]; intros self.
  - exists self, []. cbn. repeat split; lia.
  - cbn [for_each].
    assert (exists b, section_in section config = ret b) as [b Hb]
      by (destruct config; try discriminate; eexists; reflexivity).
    assert (exists self1 o1,
               check_section config section self = Ok tt self1 o1
               /\ project_root self1 = project_root self
               /\ errors self1 = errors self
               /\ length (passed self1) + length (warnings self1)
                  = length (passed self) + length (warnings self) + 1)
      as (self1 & o1 & H1 & Hr & He & Hn).
    { unfold check_section. rewrite Hb, bind_ret.
      destruct b; eexists _, _; (split; [reflexivity|]); cbn;
        rewrite ?length_app; cbn; repeat split; lia. }
    destruct (IH self1) as (self' & out & H2 & Hr' & He' & Hn').
    exists self', (o1 ++ out). erewrite bind_Ok by exact H1. rewrite H2.
    cbn [length]. repeat split; try congruence; lia.
Qed.

(** The loop over the required files never raises, keeps the errors that
    are there, and files an error for every file that is missing. *)
Lemma for_each_check_required_file env (files : list string) :
  forall self, exists self' out,
    for_each files (check_required_file env) self = Ok tt self' out
    /\ project_root self' = project_root self
    /\ (forall msg, In msg (errors self) -> In msg (errors self'))
    /\ (forall file_path,
          In file_path files ->
          exists_ (env_fs env) (project_root self // file_path)
          && is_file (env_fs env) (project_root self // file_path) = false ->
          In ("Missing file: " +:+ file_path) (errors self')).
Proof.
  induction files as [|file files IH]; intros self.
  - exists self, []. cbn. repeat split; auto. intros ? [].
  - cbn [for_each].
    assert (exists self1 o1,
               check_required_file env file self = Ok tt self1 o1
               /\ project_root self1 = project_root self
               /\ (forall msg, In msg (errors self) -> In msg (errors self1))
               /\ (exists_ (env_fs env) (project_root self // file)
                   && is_file (env_fs env) (project_root self // file) = false ->
                   In ("Missing file: " +:+ file) (errors self1)))
      as (self1 & o1 & H1 & Hr & Hk & Hm).
    { unfold check_required_file. rewrite bind_get_state.
      destruct (_ && _); eexists _, _; (split; [reflexivity|]); cbn;
        repeat split; auto; try discriminate.
      - intros msg Hmsg. apply in_or_app. now left.
      - intros _. apply in_or_app. right. now left. }
    destruct (IH self1) as (self' & out & H2 & Hr' & Hk' & Hm').
    exists self', (o1 ++ out). erewrite bind_Ok by exact H1. rewrite H2.
    repeat split; [congruence|auto|].
    intros file_path [<-|Hin] Hmiss.
    + auto.
    + apply Hm'; [exact Hin|]. now rewrite Hr.
Qed.

End ValidateFacts.

(** ** The process *)

Module ProcessFacts.
Import Validate Verdict ValidateFacts.

Lemma file_findings_nil (self : ProjectValidator) : file_findings self [] [] [] = self.
Proof. destruct self. unfold file_findings. cbn. now rewrite !app_nil_r. Qed.

Lemma file_findings_twice (self : ProjectValidator) (e1 w1 p1 e2 w2 p2 : list string) :
  file_findings (file_findings self e1 w1 p1) e2 w2 p2
  = file_findings self (e1 ++ e2) (w1 ++ w2) (p1 ++ p2).
Proof. unfold file_findings. cbn. now rewrite !app_assoc. Qed.

(** One lookup under the handler of the import check: a finding, unless
    the lookup ends the process. *)
Lemma check_import_eq (env : Env) (test : string * string) (self : ProjectValidator) :
  check_import env test self
  = match find_spec env (fst test) with
    | SpecExits status => Raise (SystemExit status) self []
    | _ =>
        Ok tt (file_findings self (import_errors env test) (import_warnings env test)
                 (import_passed env test))
           (import_lines env test)
    end.
Proof.
  destruct test as [module_name description].
  unfold check_import, except_Exception, bind, find_spec_call,
    import_errors, import_warnings, import_passed, import_lines.
  cbn [fst snd].
  destruct (find_spec env module_name); cbn; unfold file_findings; cbn;
    rewrite ?app_nil_r; reflexivity.
Qed.

(** The loop of the import check stops at the first lookup that ends the
    process, with the findings of the lookups before it. *)
Lemma for_each_check_import (env : Env) (tests : list (string * string)) :
  forall self : ProjectValidator,
    for_each tests (check_import env) self
    = match first_exit env tests with
      | None =>
          Ok tt (imports_state env self (before_exit env tests))
             (flat_map (import_lines env) (before_exit env tests))
      | Some status =>
          Raise (SystemExit status) (imports_state env self (before_exit env tests))
                (flat_map (import_lines env) (before_exit env tests))
      end.
Proof.
  unfold imports_state.
  induction tests as [|test tests IH]; intros self.
  - cbn. now rewrite file_findings_nil.
  - cbn [for_each first_exit before_exit]. unfold bind. rewrite check_import_eq.
    destruct (find_spec env (fst test)) eqn:E;
      try (rewrite IH; destruct (first_exit env tests);
           cbn [flat_map]; now rewrite file_findings_twice).
    cbn. now rewrite file_findings_nil.
Qed.

Lemma before_exit_all (env : Env) (tests : list (string * string)) :
  first_exit env tests = None -> before_exit env tests = tests.
Proof.
  induction tests as [|test tests IH]; [reflexivity|].
  cbn [first_exit before_exit].
  destruct (find_spec env (fst test)); try discriminate; intros H; now rewrite IH.
Qed.

(** When no lookup ends the process, the import check files its findings
    and returns. *)
Lemma check_imports_quiet (env : Env) (self : ProjectValidator) :
  first_exit env import_tests = None ->
  check_imports env self = lift (imports_filed env) self.
Proof.
  intros H. unfold check_imports. rewrite for_each_check_import, H.
  now rewrite before_exit_all.
Qed.

(** A check that raises [Exception]s only, under the runner. *)
Lemma run_check_as (check_name : string) (check_func : P unit) (v : V unit)
    (self : ProjectValidator) :
  check_func self = lift v self ->
  run_check (check_name, check_func) self
  = Ok tt (settle check_name (v self)) (check_output check_name (v self)).
Proof.
  intros Hc.
  unfold run_check, check_output, settle, bind, print, except_Exception, errors_append.
  rewrite Hc. unfold lift.
  destruct (v self) as [[] s1 o1 | e s1 o1]; cbn.
  - now rewrite app_nil_r.
  - reflexivity.
Qed.

(** A check that ends the process does so under the runner. *)
Lemma run_check_exit (check_name : string) (check_func : P unit)
    (self self1 : ProjectValidator) (status : nat) (o1 : list string) :
  check_func self = Raise (SystemExit status) self1 o1 ->
  run_check (check_name, check_func) self
  = Raise (SystemExit status) self1
          ([Str.nl +:+ check_name +:+ ":"; Str.mul "-" 40] ++ o1).
Proof.
  intros Hc. unfold run_check, bind, print, except_Exception. now rewrite Hc.
Qed.

(** A run in which no lookup ends the process is the run of checks that
    raise [Exception]s only. *)
Lemma validate_all_quiet (env : Env) (self : ProjectValidator) :
  first_exit env import_tests = None ->
  validate_all env self
  = Ok (Nat.eqb (length (errors (after_checks (quiet_checks env) self))) 0)
       (after_checks (quiet_checks env) self)
       (banner ++ output_of_checks (quiet_checks env) self
               ++ out_of (print_summary (after_checks (quiet_checks env) self))).
Proof.
  intros Hquiet. unfold validate_all, validate_all_with, checks, quiet_checks.
  do 3 (erewrite bind_Ok by reflexivity).
  cbn [for_each after_checks output_of_checks].
  erewrite bind_Ok.
  2:{ erewrite bind_Ok by (apply run_check_as; reflexivity).
      erewrite bind_Ok by (apply run_check_as; reflexivity).
      erewrite bind_Ok by (apply run_check_as, check_imports_quiet, Hquiet).
      erewrite bind_Ok by (apply run_check_as; reflexivity).
      erewrite bind_Ok by (apply run_check_as; reflexivity).
      reflexivity. }
  erewrite bind_Ok by apply lift_Ok, print_summary_Ok.
  cbn. now rewrite !app_nil_r, <- !app_assoc.
Qed.

(** A run in which a lookup ends the process stops in the import check,
    with the findings filed until then. *)
Lemma validate_all_exit (env : Env) (self : ProjectValidator) (status : nat) :
  first_exit env import_tests = Some status ->
  let before :=
    after_checks [ ("Directory Structure", check_directory_structure env);
                   ("Required Files", check_required_files env) ] self in
  exists out,
    validate_all env self
    = Raise (SystemExit status)
            (imports_state env before (before_exit env import_tests)) out.
Proof.
  intros Hexit. cbv zeta. unfold validate_all, validate_all_with, checks.
  do 3 (erewrite bind_Ok by reflexivity).
  cbn [for_each after_checks].
  eexists. erewrite bind_Raise; [reflexivity|].
  erewrite bind_Ok by (apply run_check_as; reflexivity).
  erewrite bind_Ok by (apply run_check_as; reflexivity).
  erewrite bind_Raise; [reflexivity|].
  apply run_check_exit. unfold check_imports.
  now rewrite for_each_check_import, Hexit.
Qed.

(** The exit status: that of the lookup that ends the process, if one
    does, and otherwise 0 or 1 by the Error bucket. *)
Lemma main_status (env : Env) (root : Path) :
  fst (main env root)
  = match first_exit env import_tests with
    | Some status => status
    | None =>
        if Nat.eqb (length (errors (after_checks (quiet_checks env) (init root)))) 0
        then 0 else 1
    end.
Proof.
  unfold main. destruct (first_exit env import_tests) as [status|] eqn:E.
  - destruct (validate_all_exit env (init root) status E) as [out ->]. reflexivity.
  - rewrite (validate_all_quiet env (init root) E). reflexivity.
Qed.

End ProcessFacts.

(** ** The filesystem operations *)

Module FSFacts.

Lemma node_at_cons fs c p : node_at fs (c :: p) = fs !! (c :: p).
Proof. reflexivity. Qed.

Lemma node_at_snoc fs p c : node_at fs (p ++ [c]) = fs !! (p ++ [c]).
Proof. now destruct p. Qed.

Lemma node_at_weaken (fs fs' : FS) p n :
  fs ⊆ fs' -> node_at fs p = Some n -> node_at fs' p = Some n.
Proof.
  intros Hsub. destruct p as [|c p]; [easy|]. cbn.
  intros H. eapply lookup_weaken; eauto.
Qed.

Lemma exists_weaken (fs fs' : FS) p :
  fs ⊆ fs' -> exists_ fs p = true -> exists_ fs' p = true.
Proof.
  intros Hsub. unfold exists_.
  destruct (node_at fs p) as [n|] eqn:H; [|discriminate].
  now rewrite (node_at_weaken _ _ _ _ Hsub H).
Qed.

Lemma node_at_insert_ne (fs : FS) (p q : Path) (n : node) :
  p <> q -> node_at (<[q := n]> fs) p = node_at fs p.
Proof.
  intros Hne. unfold node_at. destruct p; [reflexivity|].
  now rewrite lookup_insert_ne by congruence.
Qed.

Lemma node_at_insert (fs : FS) (p : Path) (n : node) :
  p <> [] -> node_at (<[p := n]> fs) p = Some n.
Proof. intros Hp. destruct p; [done|]. cbn. apply lookup_insert_eq. Qed.

Lemma exists_insert_ne (fs : FS) (p q : Path) (n : node) :
  p <> q -> exists_ (<[q := n]> fs) p = exists_ fs p.
Proof. intros Hne. unfold exists_. now rewrite node_at_insert_ne. Qed.

Lemma is_dir_insert_ne (fs : FS) (p q : Path) (n : node) :
  p <> q -> is_dir (<[q := n]> fs) p = is_dir fs p.
Proof. intros Hne. unfold is_dir. now rewrite node_at_insert_ne. Qed.

Lemma parent_snoc p c : PathLib.parent (p ++ [c]) = p.
Proof. apply removelast_last. Qed.

Lemma name_snoc p c : PathLib.name (p ++ [c]) = c.
Proof. apply last_last. Qed.

(** In a well-formed filesystem everything above an existing node is a
    directory. *)
Lemma wf_above (fs : FS) :
  wf fs ->
  forall l2 l1, l2 <> [] -> is_Some (fs !! (l1 ++ l2)) -> node_at fs l1 = Some Dir.
Proof.
  intros Hwf l2. induction l2 as [|c l2 IH] using rev_ind; [done|].
  intros l1 _ [n Hn].
  pose proof (Hwf _ _ Hn) as Hp. cbv beta in Hp.
  rewrite app_assoc, parent_snoc in Hp.
  destruct l2 as [|c' l2].
  - now rewrite app_nil_r in Hp.
  - apply IH; [done|].
    destruct l1; cbn in Hp |- *; eauto.
Qed.

Lemma lookup_error_from_cases (fs : FS) (target : Path) (rest : list string) :
  forall pre : Path,
    lookup_error_from fs target pre rest = FileNotFoundError target
    \/ lookup_error_from fs target pre rest = NotADirectoryError target.
Proof.
  induction rest as [|c rest IH]; intros pre; cbn; [now left|].
  destruct (fs !! (pre ++ [c])) as [[|content]|]; auto.
Qed.

Lemma lookup_error_cases (fs : FS) (p : Path) :
  lookup_error fs p = FileNotFoundError p \/ lookup_error fs p = NotADirectoryError p.
Proof. apply lookup_error_from_cases. Qed.

(** *** mkdir *)

Lemma mkdir_from_cons target pre c rest fs :
  mkdir_from target pre (c :: rest) fs
  = match fs !! (pre ++ [c]) with
    | Some Dir => mkdir_from target (pre ++ [c]) rest fs
    | Some (File _) =>
        Raise (match rest with
               | [] => FileExistsError target
               | _ => NotADirectoryError target
               end) fs []
    | None => mkdir_from target (pre ++ [c]) rest (<[pre ++ [c] := Dir]> fs)
    end.
Proof.
  cbn [mkdir_from]. rewrite bind_get_state.
  destruct (fs !! (pre ++ [c])) as [[|content]|]; try reflexivity.
  now rewrite bind_put_state.
Qed.

Lemma prefix_cons_nonempty {A} (k : list A) c rest :
  k <> [] -> k `prefix_of` c :: rest -> exists k', k = c :: k' /\ k' `prefix_of` rest.
Proof.
  destruct k as [|x k]; [done|]. intros _ H.
  pose proof (prefix_cons_inv_1 _ _ _ _ H) as ->.
  apply prefix_cons_inv_2 in H. eauto.
Qed.

(** Nothing happens when the directories are there. *)
Lemma mkdir_from_noop target rest : forall pre (fs : FS),
  (forall k, k <> [] -> k `prefix_of` rest -> fs !! (pre ++ k) = Some Dir) ->
  mkdir_from target pre rest fs = Ok tt fs [].
Proof.
  induction rest as [|c rest IH]; intros pre fs H; [reflexivity|].
  rewrite mkdir_from_cons.
  rewrite (H [c]); [|done|apply prefix_cons, prefix_nil].
  apply IH. intros k Hk Hpre.
  rewrite <- app_assoc. apply H; [done|]. now apply prefix_cons.
Qed.

(** When it returns, the directories are there and nothing else changed
    hands. *)
Lemma mkdir_from_Ok target rest : forall pre (fs fs' : FS) o,
  mkdir_from target pre rest fs = Ok tt fs' o ->
  o = [] /\ fs ⊆ fs'
  /\ (forall k, k <> [] -> k `prefix_of` rest -> fs' !! (pre ++ k) = Some Dir).
Proof.
  induction rest as [|c rest IH]; intros pre fs fs' o H.
  - cbn in H. injection H as <- <-. repeat split; [reflexivity|].
    intros k Hk Hpre. apply prefix_nil_inv in Hpre. congruence.
  - rewrite mkdir_from_cons in H.
    destruct (fs !! (pre ++ [c])) as [[|content]|] eqn:E; [| discriminate |].
    + destruct (IH _ _ _ _ H) as (-> & Hsub & Hdirs). repeat split; [done|].
      intros k Hk Hpre.
      destruct (prefix_cons_nonempty _ _ _ Hk Hpre) as (k' & -> & Hk').
      destruct k' as [|c' k'].
      * eapply lookup_weaken; eauto.
      * change (c :: c' :: k') with ([c] ++ c' :: k').
        rewrite app_assoc. apply Hdirs; [done|done].
    + destruct (IH _ _ _ _ H) as (-> & Hsub & Hdirs).
      assert (fs ⊆ fs') as Hsub'.
      { etrans; [|exact Hsub]. now apply insert_subseteq. }
      repeat split; [done|].
      intros k Hk Hpre.
      destruct (prefix_cons_nonempty _ _ _ Hk Hpre) as (k' & -> & Hk').
      destruct k' as [|c' k'].
      * eapply lookup_weaken; [|exact Hsub]. apply lookup_insert_eq.
      * change (c :: c' :: k') with ([c] ++ c' :: k').
        rewrite app_assoc. apply Hdirs; [done|done].
Qed.

(** What is not above the target is left alone, also when [mkdir]
    raises. *)
Lemma mkdir_from_frame target rest : forall pre (fs : FS) q,
  ~ q `prefix_of` pre ++ rest ->
  state_of (mkdir_from target pre rest fs) !! q = fs !! q.
Proof.
  induction rest as [|c rest IH]; intros pre fs q Hq; [reflexivity|].
  rewrite mkdir_from_cons.
  assert (~ q `prefix_of` (pre ++ [c]) ++ rest) as Hq'
    by now rewrite <- app_assoc.
  destruct (fs !! (pre ++ [c])) as [[|content]|] eqn:E.
  - now apply IH.
  - reflexivity.
  - rewrite IH by done. apply lookup_insert_ne.
    intros <-. apply Hq. apply prefix_app, prefix_cons, prefix_nil.
Qed.

Lemma mkdir_parents_noop (p : Path) (fs : FS) :
  (forall k, k <> [] -> k `prefix_of` p -> fs !! k = Some Dir) ->
  mkdir_parents p fs = Ok tt fs [].
Proof. intros H. apply mkdir_from_noop. exact H. Qed.

Lemma mkdir_parents_Ok (p : Path) (fs fs' : FS) o :
  mkdir_parents p fs = Ok tt fs' o ->
  o = [] /\ fs ⊆ fs' /\ node_at fs' p = Some Dir
  /\ (forall k, k <> [] -> k `prefix_of` p -> fs' !! k = Some Dir).
Proof.
  intros H. apply mkdir_from_Ok in H as (-> & Hsub & Hdirs).
  repeat split; try done.
  destruct p as [|c p]; [reflexivity|]. apply (Hdirs (c :: p)); done.
Qed.

Lemma mkdir_parents_frame (p : Path) (fs : FS) (q : Path) :
  ~ q `prefix_of` p -> state_of (mkdir_parents p fs) !! q = fs !! q.
Proof. intros H. now apply mkdir_from_frame. Qed.

(** In a well-formed filesystem, the directory of an existing node needs
    no making. *)
Lemma mkdir_parent_of_existing (fs : FS) (p : Path) n :
  wf fs -> node_at fs p = Some n ->
  mkdir_parents (PathLib.parent p) fs = Ok tt fs [].
Proof.
  intros Hwf Hn. apply mkdir_parents_noop. intros k Hk [l Hl].
  destruct p as [|c p] using rev_ind.
  - cbn in Hl. symmetry in Hl. apply app_eq_nil in Hl as [-> _]. congruence.
  - clear IHp. rewrite parent_snoc in Hl. subst p.
    rewrite node_at_snoc in Hn.
    assert (node_at fs k = Some Dir) as Hd.
    { apply (wf_above fs Hwf (l ++ [c]) k).
      - destruct l; discriminate.
      - rewrite app_assoc. eauto. }
    destruct k; [congruence|exact Hd].
Qed.

End FSFacts.

(** ** The migration engine *)

Module MigrateFacts.
Import Migrate FSFacts.

Lemma read_bytes_eq p fs :
  read_bytes p fs
  = match node_at fs p with
    | Some (File c) => Ok c fs []
    | Some Dir => Raise (IsADirectoryError p) fs []
    | None => Raise (lookup_error fs p) fs []
    end.
Proof.
  unfold read_bytes. rewrite bind_get_state.
  now destruct (node_at fs p) as [[|c]|].
Qed.

Lemma decode_eq c fs :
  decode c fs
  = match Utf8.decode_failure c with
    | None => Ok (Str.universal_newlines c) fs []
    | Some f => Raise (UnicodeDecodeError c f) fs []
    end.
Proof. unfold decode. now destruct (Utf8.decode_failure c). Qed.

Lemma read_text_eq p fs :
  read_text p fs
  = match node_at fs p with
    | Some (File c) =>
        match Utf8.decode_failure c with
        | None => Ok (Str.universal_newlines c) fs []
        | Some f => Raise (UnicodeDecodeError c f) fs []
        end
    | Some Dir => Raise (IsADirectoryError p) fs []
    | None => Raise (lookup_error fs p) fs []
    end.
Proof.
  unfold read_text, bind. rewrite read_bytes_eq.
  destruct (node_at fs p) as [[|c]|]; try reflexivity.
  rewrite decode_eq. now destruct (Utf8.decode_failure c).
Qed.

(** A read in text mode of bytes that decode. *)
Lemma read_text_valid p fs c :
  node_at fs p = Some (File c) -> Utf8.valid c = true ->
  read_text p fs = Ok (Str.universal_newlines c) fs [].
Proof.
  intros Hp Hc. rewrite read_text_eq, Hp. unfold Utf8.valid in Hc.
  now destruct (Utf8.decode_failure c).
Qed.

Lemma open_write_eq p f fs :
  open_write p f fs
  = match node_at fs p with
    | Some Dir => Raise (IsADirectoryError p) fs []
    | Some (File c) => Ok tt (<[p := File (f (Some c))]> fs) []
    | None =>
        match node_at fs (PathLib.parent p) with
        | Some Dir => Ok tt (<[p := File (f None)]> fs) []
        | _ => Raise (lookup_error fs p) fs []
        end
    end.
Proof.
  unfold open_write. rewrite bind_get_state.
  destruct (node_at fs p) as [[|c]|]; try reflexivity.
  now destruct (node_at fs (PathLib.parent p)) as [[|c]|].
Qed.

Lemma copy2_eq (src dst : Path) (fs : FS) :
  copy2 src dst fs
  = let dst' := if is_dir fs dst then dst ++ [PathLib.name src] else dst in
    if decide (src = dst') then Raise (SameFileError src dst') fs []
    else match node_at fs src with
         | Some (File c) => open_write dst' (fun _ => c) fs
         | Some Dir => Raise (IsADirectoryError src) fs []
         | None => Raise (lookup_error fs src) fs []
         end.
Proof.
  unfold copy2. rewrite bind_get_state. cbv zeta.
  destruct (decide _); [reflexivity|].
  unfold bind. rewrite read_bytes_eq.
  destruct (node_at fs src) as [[|c]|]; try reflexivity.
  unfold write_text. apply Result_eta.
Qed.

(** [copy_file], one effect after the other. *)
Lemma copy_file_eq src dst append fs :
  copy_file src dst append fs
  = if negb (exists_ fs src) then
      Ok false fs ["  WARNING: Source file not found: " +:+ PathLib.to_str src]
    else
      match mkdir_parents (PathLib.parent dst) fs with
      | Raise e fs1 o1 => Raise e fs1 o1
      | Ok _ fs1 o1 =>
          match (if append && exists_ fs1 dst then
                   bind (read_text src)
                        (fun content => append_text dst (separator src +:+ content))
                 else copy2 src dst) fs1 with
          | Raise e fs2 o2 => Raise e fs2 (o1 ++ o2)
          | Ok _ fs2 o2 =>
              Ok true fs2
                 (o1 ++ o2 ++ ["  ✓ Copied: " +:+ PathLib.to_str src +:+ " -> "
                                +:+ PathLib.to_str dst])
          end
      end.
Proof.
  unfold copy_file. rewrite bind_get_state.
  destruct (negb (exists_ fs src)); [reflexivity|].
  unfold bind at 1.
  destruct (mkdir_parents (PathLib.parent dst) fs) as [[] fs1 o1|e fs1 o1];
    [|reflexivity].
  rewrite bind_get_state.
  destruct (append && exists_ fs1 dst); unfold bind at 1.
  - destruct (bind (read_text src) _ fs1) as [[] fs2 o2|e fs2 o2]; reflexivity.
  - destruct (copy2 src dst fs1) as [[] fs2 o2|e fs2 o2]; reflexivity.
Qed.

Lemma add_file_header_eq file_path description fs :
  add_file_header file_path description fs
  = match node_at fs file_path with
    | Some (File c) =>
        match Utf8.decode_failure c with
        | None =>
            let content := Str.universal_newlines c in
            if negb (String.prefix Str.dq3 (Str.strip content))
               && negb (String.prefix Str.sq3 (Str.strip content))
            then Ok tt (<[file_path := File (header description +:+ content)]> fs) []
            else Ok tt fs []
        | Some f => Raise (UnicodeDecodeError c f) fs []
        end
    | Some Dir => Raise (IsADirectoryError file_path) fs []
    | None => Raise (lookup_error fs file_path) fs []
    end.
Proof.
  unfold add_file_header, bind. rewrite read_text_eq.
  destruct (node_at fs file_path) as [[|c]|] eqn:E; try reflexivity.
  destruct (Utf8.decode_failure c); [reflexivity|].
  cbv zeta. destruct (_ && _); [|reflexivity].
  unfold write_text. rewrite open_write_eq, E. reflexivity.
Qed.

(** A docstring at the start of the text is seen whether or not the end of
    the text is stripped. *)
Lemma has_docstring_lstrip content :
  negb (String.prefix Str.dq3 (Str.strip content))
  && negb (String.prefix Str.sq3 (Str.strip content))
  = negb (String.prefix Str.dq3 (Str.lstrip content)
          || String.prefix Str.sq3 (Str.lstrip content)).
Proof.
  rewrite !StrFacts.prefix_strip by reflexivity.
  now rewrite negb_orb.
Qed.

(** What [add_file_header] writes starts with a docstring, and is a text
    when the description and the content are. *)
Lemma header_is_docstring description content :
  String.prefix Str.dq3
    (Str.lstrip (Str.universal_newlines (header description +:+ content))) = true.
Proof.
  assert (exists rest, header description +:+ content
                       = Str.mul Str.dquote 3 +:+ String Str.LF rest) as [rest ->].
  { unfold header. rewrite !StrFacts.append_assoc. eexists. reflexivity. }
  assert (Str.universal_newlines (Str.mul Str.dquote 3 +:+ String Str.LF rest)
          = Str.mul Str.dquote 3 +:+ String Str.LF (Str.universal_newlines rest)) as ->
    by reflexivity.
  rewrite StrFacts.lstrip_quoted by (reflexivity || discriminate).
  apply StrFacts.prefix_append.
Qed.

Lemma header_valid description :
  Utf8.valid description = true -> Utf8.valid (header description) = true.
Proof.
  intros Hd. unfold header.
  apply Utf8Facts.valid_app; [reflexivity|].
  apply Utf8Facts.valid_app; [reflexivity|].
  apply Utf8Facts.valid_app; [exact Hd|reflexivity].
Qed.

Lemma copy_file_missing src dst append fs :
  exists_ fs src = false ->
  copy_file src dst append fs
  = Ok false fs ["  WARNING: Source file not found: " +:+ PathLib.to_str src].
Proof. intros H. rewrite copy_file_eq, H. reflexivity. Qed.

(** *** The copying loop *)

Lemma copy_loop_cons src_rel dst_rel ni plan old_base new_base sc fc fs :
  copy_loop ((src_rel, dst_rel, ni) :: plan) old_base new_base sc fc fs
  = match copy_file (old_base // src_rel) (new_base // dst_rel)
                    (Str.contains "Append" dst_rel) fs with
    | Ok ok fs1 o1 =>
        match copy_loop plan old_base new_base
                (if ok then S sc else sc) (if ok then fc else S fc) fs1 with
        | Ok c fs2 o2 => Ok c fs2 (o1 ++ o2)
        | Raise e fs2 o2 => Raise e fs2 (o1 ++ o2)
        end
    | Raise e fs1 o1 => Raise e fs1 o1
    end.
Proof.
  cbn [copy_loop]. unfold bind.
  destruct (copy_file _ _ _ fs) as [[|] fs1 o1|e fs1 o1]; reflexivity.
Qed.

(** The loop over [pre ++ post] is the loop over [pre], then the loop over
    [post] from the counters and the filesystem that it left. *)
Lemma copy_loop_app old_base new_base pre post : forall sc fc fs,
  copy_loop (pre ++ post) old_base new_base sc fc fs
  = match copy_loop pre old_base new_base sc fc fs with
    | Ok c fs1 o1 =>
        match copy_loop post old_base new_base (fst c) (snd c) fs1 with
        | Ok c' fs2 o2 => Ok c' fs2 (o1 ++ o2)
        | Raise e fs2 o2 => Raise e fs2 (o1 ++ o2)
        end
    | Raise e fs1 o1 => Raise e fs1 o1
    end.
Proof.
  induction pre as [|[[src_rel dst_rel] ni] pre IH]; intros sc fc fs.
  - cbn. now rewrite Result_eta.
  - rewrite <- app_comm_cons, !copy_loop_cons.
    destruct (copy_file _ _ _ fs) as [ok fs1 o1|e fs1 o1]; [|reflexivity].
    rewrite IH.
    destruct (copy_loop pre _ _ _ _ fs1) as [c fs2 o2|e fs2 o2]; [|reflexivity].
    destruct (copy_loop post _ _ _ _ fs2) as [c' fs3 o3|e fs3 o3];
      now rewrite app_assoc.
Qed.

(** The counters only count. *)
Lemma copy_loop_shift old_base new_base plan : forall sc fc fs c fs' o ds df,
  copy_loop plan old_base new_base sc fc fs = Ok c fs' o ->
  copy_loop plan old_base new_base (ds + sc) (df + fc) fs
  = Ok (ds + fst c, df + snd c) fs' o.
Proof.
  induction plan as [|[[src_rel dst_rel] ni] plan IH]; intros sc fc fs c fs' o ds df H.
  - cbn in H |- *. unfold ret in *. injection H as <- <- <-. reflexivity.
  - rewrite copy_loop_cons in H |- *.
    destruct (copy_file _ _ _ fs) as [ok fs1 o1|e fs1 o1]; [|discriminate].
    destruct (copy_loop plan _ _ _ _ fs1) as [c2 fs2 o2|e fs2 o2] eqn:E; [|discriminate].
    injection H as <- <- <-.
    apply (IH _ _ _ _ _ _ ds df) in E.
    destruct ok; rewrite <- ?Nat.add_succ_r, E; reflexivity.
Qed.

(** Every entry is counted once. *)
Lemma copy_loop_count old_base new_base plan : forall sc fc fs c fs' o,
  copy_loop plan old_base new_base sc fc fs = Ok c fs' o ->
  fst c + snd c = sc + fc + length plan.
Proof.
  induction plan as [|[[src_rel dst_rel] ni] plan IH]; intros sc fc fs c fs' o H.
  - cbn in H. unfold ret in H. injection H as <- <- <-. cbn. lia.
  - rewrite copy_loop_cons in H.
    destruct (copy_file _ _ _ fs) as [ok fs1 o1|e fs1 o1]; [|discriminate].
    destruct (copy_loop plan _ _ _ _ fs1) as [c2 fs2 o2|e fs2 o2] eqn:E; [|discriminate].
    injection H as <- <- <-. apply IH in E. destruct ok; cbn [length]; lia.
Qed.

End MigrateFacts.

(** ** Frames *)

Module FrameFacts.
Import Migrate Footprint FSFacts MigrateFacts.

Lemma touched_self (ts : list Path) (t : Path) : In t ts -> touched ts t.
Proof. intros H. exists t. split; [exact H|reflexivity]. Qed.

Lemma frames_mono {A : Type} (ts ts' : list Path) (m : FSM A) :
  (forall t, In t ts -> touched ts' t) -> frames ts m -> frames ts' m.
Proof.
  intros H Hm fs q Hq. apply Hm. intros (t & Hin & Hpre).
  destruct (H t Hin) as (t' & Hin' & Hpre'). apply Hq.
  exists t'. split; [exact Hin'|]. etrans; eauto.
Qed.

Lemma frames_incl {A : Type} (ts ts' : list Path) (m : FSM A) :
  incl ts ts' -> frames ts m -> frames ts' m.
Proof. intros H. apply frames_mono. intros t Ht. apply touched_self, H, Ht. Qed.

Lemma frames_ret {A : Type} (ts : list Path) (a : A) : frames ts (ret a).
Proof. intros fs q _. reflexivity. Qed.

Lemma frames_print (ts : list Path) (line : string) : frames ts (print line).
Proof. intros fs q _. reflexivity. Qed.

Lemma frames_raise {A : Type} (ts : list Path) (e : OSError) : frames ts (raise (A := A) e).
Proof. intros fs q _. reflexivity. Qed.

Lemma frames_bind {A B : Type} (ts : list Path) (m : FSM A) (k : A -> FSM B) :
  frames ts m -> (forall a, frames ts (k a)) -> frames ts (bind m k).
Proof.
  intros Hm Hk fs q Hq. specialize (Hm fs q Hq). unfold bind.
  destruct (m fs) as [a fs1 o1|e fs1 o1]; [|exact Hm].
  specialize (Hk a fs1 q Hq).
  destruct (k a fs1) as [b fs2 o2|e fs2 o2]; cbn in *; congruence.
Qed.

(** Reading the state is no change, and what follows may depend on it. *)
Lemma frames_get_state {B : Type} (ts : list Path) (k : FS -> FSM B) :
  (forall fs, frames ts (k fs)) -> frames ts (bind get_state k).
Proof. intros Hk fs q Hq. rewrite bind_get_state. now apply Hk. Qed.

Lemma frames_for_each {A : Type} (ts : list Path) (l : list A) (body : A -> FSM unit) :
  (forall x, In x l -> frames ts (body x)) -> frames ts (for_each l body).
Proof.
  induction l as [|x l IH]; intros H; [apply frames_ret|].
  cbn [for_each]. apply frames_bind.
  - apply H. now left.
  - intros _. apply IH. intros y Hy. apply H. now right.
Qed.

Lemma frames_for_each_flat {A : Type} (foot : A -> list Path) (l : list A)
    (body : A -> FSM unit) :
  (forall x, frames (foot x) (body x)) -> frames (flat_map foot l) (for_each l body).
Proof.
  intros H. apply frames_for_each. intros x Hx.
  eapply frames_incl; [|apply H].
  intros t Ht. apply in_flat_map. eauto.
Qed.

Lemma frames_mkdir_parents (p : Path) : frames [p] (mkdir_parents p).
Proof.
  intros fs q Hq. apply mkdir_parents_frame.
  intros Hpre. apply Hq. exists p. split; [now left|exact Hpre].
Qed.

Lemma frames_read_bytes (p : Path) : frames [] (read_bytes p).
Proof.
  intros fs q _. rewrite read_bytes_eq. now destruct (node_at fs p) as [[|c]|].
Qed.

Lemma frames_read_text (p : Path) : frames [] (read_text p).
Proof.
  intros fs q _. rewrite read_text_eq.
  destruct (node_at fs p) as [[|c]|]; try reflexivity.
  now destruct (Utf8.decode_failure c).
Qed.

Lemma frames_open_write (p : Path) (f : option string -> string) : frames [p] (open_write p f).
Proof.
  intros fs q Hq.
  assert (p <> q) as Hne.
  { intros <-. apply Hq, touched_self. now left. }
  rewrite open_write_eq.
  destruct (node_at fs p) as [[|c]|]; cbn; try reflexivity.
  - now apply lookup_insert_ne.
  - destruct (node_at fs (PathLib.parent p)) as [[|c]|]; cbn; try reflexivity.
    now apply lookup_insert_ne.
Qed.

Lemma frames_copy2 (src dst : Path) :
  frames [dst; dst ++ [PathLib.name src]] (copy2 src dst).
Proof.
  unfold copy2. apply frames_get_state. intros fs0. cbv zeta.
  destruct (decide _); [apply frames_raise|].
  apply frames_bind.
  - eapply frames_incl; [|apply frames_read_bytes]. intros t [].
  - intros c. eapply frames_incl; [|apply frames_open_write].
    intros t [<-|[]]. destruct (is_dir fs0 dst); cbn; auto.
Qed.

Lemma parent_prefix (p : Path) : PathLib.parent p `prefix_of` p.
Proof.
  destruct p as [|c p _] using rev_ind; [reflexivity|].
  rewrite parent_snoc. now apply prefix_app_r.
Qed.

Lemma frames_copy_file (src dst : Path) (append : bool) :
  frames [dst; dst ++ [PathLib.name src]] (copy_file src dst append).
Proof.
  unfold copy_file. apply frames_get_state. intros fs0.
  destruct (negb _).
  { apply frames_bind; [apply frames_print|intros _; apply frames_ret]. }
  apply frames_bind.
  { eapply frames_mono; [|apply frames_mkdir_parents].
    intros t [<-|[]]. exists dst. split; [now left|apply parent_prefix]. }
  intros _. apply frames_get_state. intros fs1.
  apply frames_bind.
  - destruct (append && _).
    + apply frames_bind.
      * eapply frames_incl; [|apply frames_read_text]. intros t [].
      * intros content. eapply frames_incl; [|apply frames_open_write].
        intros t [<-|[]]. now left.
    + apply frames_copy2.
  - intros _. apply frames_bind; [apply frames_print|intros _; apply frames_ret].
Qed.

Lemma frames_add_file_header (file_path : Path) (description : string) :
  frames [file_path] (add_file_header file_path description).
Proof.
  unfold add_file_header. apply frames_bind.
  - eapply frames_incl; [|apply frames_read_text]. intros t [].
  - intros content. destruct (_ && _); [apply frames_open_write|apply frames_ret].
Qed.

Lemma frames_ensure_directory (base_path : Path) (d : string) :
  frames (ensure_footprint base_path d) (ensure_directory base_path d).
Proof.
  unfold ensure_directory, ensure_footprint. apply frames_bind.
  - eapply frames_incl; [|apply frames_mkdir_parents].
    intros t [<-|[]]. now left.
  - intros _. destruct (String.prefix "src/" d); [|apply frames_ret].
    cbv zeta. apply frames_get_state. intros fs0.
    destruct (negb _); [|apply frames_ret].
    eapply frames_incl; [|apply frames_open_write].
    intros t [<-|[]]. right. now left.
Qed.

Lemma frames_ensure_directories (base_path : Path) :
  frames (flat_map (ensure_footprint base_path) dirs) (ensure_directories base_path).
Proof. apply frames_for_each_flat, frames_ensure_directory. Qed.

Lemma frames_copy_loop (old_base new_base : Path) (plan : list (string * string * bool)) :
  forall sc fc : nat,
  frames (flat_map (copy_footprint old_base new_base) plan)
         (copy_loop plan old_base new_base sc fc).
Proof.
  induction plan as [|[[src_rel dst_rel] ni] plan IH]; intros sc fc.
  - apply frames_ret.
  - cbn [copy_loop flat_map]. apply frames_bind.
    + eapply frames_incl; [|apply frames_copy_file]. apply incl_appl, incl_refl.
    + intros ok. eapply frames_incl; [apply incl_appr, incl_refl|].
      destruct ok; apply IH.
Qed.

Lemma frames_add_header_if_exists (new_base : Path) (item : string * string) :
  frames [new_base // fst item] (add_header_if_exists new_base item).
Proof.
  destruct item as [file_rel description]. unfold add_header_if_exists.
  apply frames_get_state. intros fs0.
  destruct (exists_ _ _); [|apply frames_ret].
  apply frames_bind; [apply frames_add_file_header|intros _; apply frames_print].
Qed.

Lemma frames_create_migration_report (base_path : Path) (success fail : nat) :
  frames [base_path // "MIGRATION_REPORT.md"]
         (create_migration_report base_path success fail).
Proof.
  unfold create_migration_report. apply frames_get_state. intros fs0.
  apply frames_open_write.
Qed.

(** The whole run changes nothing outside its footprint. *)
Lemma frames_migrate_files (old_base new_base : Path) :
  frames (migrate_footprint old_base new_base) (migrate_files old_base new_base).
Proof.
  unfold migrate_files, migrate_footprint.
  repeat (apply frames_bind; [apply frames_print|intros _]).
  apply frames_bind.
  { eapply frames_incl; [|apply frames_ensure_directories]. apply incl_appl, incl_refl. }
  intros _.
  repeat (apply frames_bind; [apply frames_print|intros _]).
  apply frames_bind.
  { eapply frames_incl; [|apply frames_copy_loop].
    apply incl_appr, incl_appl, incl_refl. }
  intros counts. cbv zeta.
  repeat (apply frames_bind; [apply frames_print|intros _]).
  apply frames_bind.
  { apply frames_for_each. intros item Hitem.
    eapply frames_incl; [|apply frames_add_header_if_exists].
    intros t [<-|[]]. apply in_or_app. right. apply in_or_app. right.
    apply in_or_app. left.
    exact (in_map (fun item => new_base // fst item) _ _ Hitem). }
  intros _.
  repeat (apply frames_bind; [apply frames_print|intros _]).
  apply frames_bind.
  { eapply frames_incl; [|apply frames_create_migration_report].
    intros t [<-|[]]. do 3 (apply in_or_app; right). now left. }
  intros _.
  repeat (apply frames_bind; [apply frames_print|intros _]).
  apply frames_print.
Qed.

(** A path is not touched: every target is met in turn, and differs from
    the path before the path ends. *)
Ltac untouched :=
  let t := fresh "t" in
  let Hin := fresh "Hin" in
  let Hpre := fresh "Hpre" in
  let k := fresh "k" in
  intros (t & Hin & Hpre);
  try unfold migrate_footprint in Hin;
  try unfold dirs in Hin; try unfold FILE_MAPPING in Hin;
  try unfold file_descriptions in Hin;
  cbn [flat_map List.map] in Hin;
  repeat (apply in_app_or in Hin as [Hin|Hin]);
  cbv -[app PathLib.name] in Hin, Hpre;
  destruct Hpre as [k Hpre];
  repeat match type of Hin with
         | _ \/ _ => destruct Hin as [<-|Hin]
         | False => destruct Hin
         end;
  rewrite <- ?app_assoc in Hpre; apply app_inv_head in Hpre;
  cbn in Hpre; discriminate Hpre.

End FrameFacts.

(** ** The directory provisioner *)

Module ProvisionFacts.
Import Migrate Footprint FSFacts MigrateFacts.

Lemma marker_path (base_path : Path) (d : string) :
  base_path // d // "__init__.py" = (base_path // d) ++ ["__init__.py"].
Proof. reflexivity. Qed.

Lemma provisioned_mono (base_path : Path) (fs fs' : FS) (d : string) :
  fs ⊆ fs' -> provisioned base_path fs d -> provisioned base_path fs' d.
Proof.
  intros Hsub [Hdirs Hmark]. split.
  - intros k Hk Hpre. eapply lookup_weaken; eauto.
  - intros Hp. eapply exists_weaken; eauto.
Qed.

(** Provisioning what is provisioned changes nothing. *)
Lemma ensure_directory_noop (base_path : Path) (fs : FS) (d : string) :
  provisioned base_path fs d -> ensure_directory base_path d fs = Ok tt fs [].
Proof.
  intros [Hdirs Hmark]. unfold ensure_directory.
  erewrite bind_Ok by (apply mkdir_parents_noop; exact Hdirs).
  destruct (String.prefix "src/" d); [|reflexivity].
  cbv zeta. rewrite bind_get_state, Hmark by reflexivity. reflexivity.
Qed.

(** When provisioning returns, the directory is provisioned, and what was
    there is there still. *)
Lemma ensure_directory_Ok (base_path : Path) (d : string) (fs fs' : FS) o :
  ensure_directory base_path d fs = Ok tt fs' o ->
  o = [] /\ fs ⊆ fs' /\ provisioned base_path fs' d.
Proof.
  unfold ensure_directory, provisioned. unfold bind at 1.
  destruct (mkdir_parents (base_path // d) fs) as [[] fs1 o1|e fs1 o1] eqn:Hm;
    [|discriminate].
  apply mkdir_parents_Ok in Hm as (-> & Hsub & Hdir & Hdirs).
  destruct (String.prefix "src/" d).
  - cbv zeta. rewrite bind_get_state.
    destruct (exists_ fs1 (base_path // d // "__init__.py")) eqn:Hex; cbn [negb].
    + intros H. injection H as <- <-. auto.
    + unfold write_text. rewrite open_write_eq.
      rewrite marker_path in *. rewrite parent_snoc, Hdir.
      unfold exists_ in Hex. rewrite node_at_snoc in *.
      destruct (fs1 !! ((base_path // d) ++ ["__init__.py"])) eqn:Hnone; [discriminate|].
      intros H. injection H as <- <-.
      assert (fs1 ⊆ <[(base_path // d) ++ ["__init__.py"] := File PACKAGE_INIT]> fs1)
        as Hsub1 by now apply insert_subseteq.
      repeat split.
      * etrans; eauto.
      * intros k Hk Hpre. eapply lookup_weaken; eauto.
      * intros _. unfold exists_. now rewrite node_at_snoc, lookup_insert_eq.
  - intros H. injection H as <- <-. repeat split; auto. discriminate.
Qed.

Lemma ensure_loop_Ok (base_path : Path) (l : list string) : forall (fs fs' : FS) o,
  for_each l (ensure_directory base_path) fs = Ok tt fs' o ->
  o = [] /\ fs ⊆ fs' /\ Forall (provisioned base_path fs') l.
Proof.
  induction l as [|d l IH]; intros fs fs' o H.
  - cbn in H. injection H as <- <-. auto.
  - cbn [for_each] in H. unfold bind in H.
    destruct (ensure_directory base_path d fs) as [[] fs1 o1|e fs1 o1] eqn:Hd;
      [|discriminate].
    destruct (for_each l _ fs1) as [[] fs2 o2|e fs2 o2] eqn:Hl; [|discriminate].
    injection H as <- <-.
    apply ensure_directory_Ok in Hd as (-> & Hsub1 & Hprov).
    apply IH in Hl as (-> & Hsub2 & Hall).
    repeat split.
    + etrans; eauto.
    + constructor; [|exact Hall]. eapply provisioned_mono; eauto.
Qed.

Lemma ensure_loop_noop (base_path : Path) (fs : FS) (l : list string) :
  Forall (provisioned base_path fs) l ->
  for_each l (ensure_directory base_path) fs = Ok tt fs [].
Proof.
  induction 1 as [|d l Hd Hl IH]; [reflexivity|].
  cbn [for_each]. erewrite bind_Ok by (apply ensure_directory_noop; exact Hd).
  now rewrite IH.
Qed.

End ProvisionFacts.

(** ** Plans whose transfers do not meet *)

Module PlanFacts.
Import Migrate Transfer FSFacts MigrateFacts.

(** Making a directory that is there changes nothing. *)
Lemma mkdir_existing (fs : FS) (p : Path) :
  wf fs -> is_dir fs p = true -> mkdir_parents p fs = Ok tt fs [].
Proof.
  intros Hwf Hp. apply mkdir_parents_noop. intros k Hk [l ->].
  unfold is_dir in Hp.
  destruct (node_at fs (k ++ l)) as [[|c]|] eqn:Hn; try discriminate.
  destruct l as [|x l].
  - rewrite app_nil_r in Hn. destruct k; [done|exact Hn].
  - assert (node_at fs k = Some Dir) as Hd.
    { apply (wf_above fs Hwf (x :: l) k); [done|].
      destruct k; cbn in Hn |- *; eauto. }
    destruct k; [done|exact Hd].
Qed.

(** A file written into a directory that is there, where no directory
    stands, leaves the filesystem well formed. *)
Lemma wf_insert_file (fs : FS) (p : Path) (c : string) :
  wf fs -> is_dir fs (PathLib.parent p) = true -> is_dir fs p = false ->
  wf (<[p := File c]> fs).
Proof.
  intros Hwf Hparent Hp. apply map_Forall_insert_2.
  - assert (PathLib.parent p <> p) as Hne.
    { destruct p as [|x p _] using rev_ind; [discriminate|].
      rewrite parent_snoc. intros H. apply (f_equal (@length string)) in H.
      rewrite length_app in H. cbn in H. lia. }
    rewrite node_at_insert_ne by exact Hne.
    unfold is_dir in Hparent. now destruct (node_at fs (PathLib.parent p)) as [[|?]|].
  - intros q n Hq. pose proof (Hwf q n Hq) as Hd. cbv beta in Hd |- *.
    rewrite node_at_insert_ne; [exact Hd|].
    intros Heq. rewrite Heq in Hd. unfold is_dir in Hp. now rewrite Hd in Hp.
Qed.

Lemma ready_inv (old_base new_base : Path) (fs : FS) (entry : string * string * bool) :
  ready old_base new_base fs entry = true ->
  Str.contains "Append" (snd (fst entry)) = false
  /\ is_dir fs (source old_base entry) = false
  /\ is_dir fs (destination new_base entry) = false
  /\ is_dir fs (PathLib.parent (destination new_base entry)) = true.
Proof.
  unfold ready. rewrite !andb_true_iff, !negb_true_iff. tauto.
Qed.

(** The transfer of an entry that is ready, from a file. *)
Lemma copy_file_ready (old_base new_base : Path) (fs : FS) (entry : string * string * bool)
    (c : string) :
  wf fs ->
  ready old_base new_base fs entry = true ->
  destination new_base entry <> source old_base entry ->
  node_at fs (source old_base entry) = Some (File c) ->
  copy_file (source old_base entry) (destination new_base entry) false fs
  = Ok true (<[destination new_base entry := File c]> fs)
       ["  ✓ Copied: " +:+ PathLib.to_str (source old_base entry) +:+ " -> "
        +:+ PathLib.to_str (destination new_base entry)].
Proof.
  intros Hwf Hready Hne Hsrc.
  apply ready_inv in Hready as (_ & _ & Hdst & Hparent).
  rewrite copy_file_eq. unfold exists_ at 1. rewrite Hsrc. cbn [negb andb].
  rewrite (mkdir_existing fs _ Hwf Hparent).
  rewrite copy2_eq. cbv zeta. rewrite Hdst, Hsrc.
  destruct (decide _) as [Heq|_]; [now symmetry in Heq|].
  rewrite open_write_eq. unfold is_dir in Hdst, Hparent.
  destruct (node_at fs (destination new_base entry)) as [[|c0]|]; [discriminate|reflexivity|].
  destruct (node_at fs (PathLib.parent _)) as [[|c0]|]; try discriminate. reflexivity.
Qed.

(** What stays true of the entries to come when a file has been written
    at a destination. *)
Lemma ready_after (old_base new_base : Path) (fs : FS) (q : Path) (c : string)
    (entry : string * string * bool) :
  is_dir fs q = false ->
  q <> source old_base entry ->
  ready old_base new_base fs entry = true ->
  ready old_base new_base (<[q := File c]> fs) entry = true.
Proof.
  intros Hq Hne Hready.
  apply ready_inv in Hready as (Hmode & Hsrc & Hdst & Hparent).
  assert (q <> []) as Hq0 by (intros ->; discriminate).
  unfold ready. rewrite Hmode. cbn [negb andb].
  rewrite (is_dir_insert_ne fs (source old_base entry) q) by congruence.
  rewrite Hsrc. cbn [negb andb].
  assert (is_dir (<[q := File c]> fs) (destination new_base entry) = false) as ->.
  { destruct (decide (destination new_base entry = q)) as [->|Hd].
    - unfold is_dir. now rewrite node_at_insert.
    - now rewrite is_dir_insert_ne. }
  cbn [negb andb]. rewrite is_dir_insert_ne; [exact Hparent|].
  intros Heq. rewrite Heq in Hparent. congruence.
Qed.

(** The loop over a plan whose entries are ready and apart. *)
Lemma copy_loop_ready (old_base new_base : Path) (plan : list (string * string * bool)) :
  apart old_base new_base plan ->
  forall (sc fc : nat) (fs : FS),
    wf fs ->
    Forall (fun entry => ready old_base new_base fs entry = true) plan ->
    copy_loop plan old_base new_base sc fc fs
    = Ok (sc + length (List.filter (present old_base fs) plan),
          fc + length (List.filter (fun entry => negb (present old_base fs entry)) plan))
         (transferred old_base new_base plan fs)
         (List.map (line old_base new_base fs) plan).
Proof.
  induction plan as [|entry plan IH]; intros Hapart sc fc fs Hwf Hready.
  - cbn. now rewrite !Nat.add_0_r.
  - assert (apart old_base new_base plan) as Hapart'
      by (intros e e' He He'; apply Hapart; now right).
    apply Forall_cons in Hready as [Hentry Hplan].
    destruct entry as [[src_rel dst_rel] ni] eqn:Eentry. rewrite <- Eentry in *.
    assert (copy_loop (entry :: plan) old_base new_base sc fc fs
            = match copy_file (source old_base entry) (destination new_base entry)
                              (Str.contains "Append" (snd (fst entry))) fs with
              | Ok ok fs1 o1 =>
                  match copy_loop plan old_base new_base
                          (if ok then S sc else sc) (if ok then fc else S fc) fs1 with
                  | Ok c fs2 o2 => Ok c fs2 (o1 ++ o2)
                  | Raise e fs2 o2 => Raise e fs2 (o1 ++ o2)
                  end
              | Raise e fs1 o1 => Raise e fs1 o1
              end) as ->
      by (rewrite Eentry; apply copy_loop_cons).
    clear Eentry src_rel dst_rel ni.
    pose proof (ready_inv _ _ _ _ Hentry) as (Hmode & Hsrc & Hdst & Hparent).
    rewrite Hmode.
    cbn [List.filter List.map transferred length]. unfold line at 1.
    unfold is_dir in Hsrc.
    destruct (node_at fs (source old_base entry)) as [[|c]|] eqn:Hnode; [discriminate| |].
    + assert (present old_base fs entry = true) as Hp
        by (unfold present, exists_; now rewrite Hnode).
      rewrite Hp. cbn [negb length].
      rewrite (copy_file_ready old_base new_base fs entry c Hwf Hentry
                 (Hapart entry entry (or_introl eq_refl) (or_introl eq_refl)) Hnode).
      assert (forall e, In e plan ->
                        destination new_base entry <> source old_base e) as Hne
        by (intros e He; apply Hapart; [now left|now right]).
      rewrite IH; [|exact Hapart'|now apply wf_insert_file|].
      2:{ rewrite Forall_forall in Hplan |- *. intros e He.
          apply ready_after; [exact Hdst|apply Hne|apply Hplan]; try exact He.
          now apply list_elem_of_In. }
      assert (forall e, In e plan ->
                        present old_base (<[destination new_base entry := File c]> fs) e
                        = present old_base fs e) as Hpresent.
      { intros e He. unfold present. apply exists_insert_ne.
        intros Heq. now apply (Hne e He). }
      rewrite (filter_ext_in _ _ _ Hpresent).
      rewrite (filter_ext_in (fun e => negb (present old_base _ e))
                             (fun e => negb (present old_base fs e)))
        by (intros e He; now rewrite Hpresent).
      rewrite (map_ext_in (line old_base new_base _) (line old_base new_base fs))
        by (intros e He; unfold line; now rewrite Hpresent).
      cbn [app]. f_equal. f_equal; lia.
    + assert (present old_base fs entry = false) as Hp
        by (unfold present, exists_; now rewrite Hnode).
      rewrite Hp. cbn [negb length].
      rewrite copy_file_missing by (unfold exists_; now rewrite Hnode).
      rewrite IH by assumption. cbn [app]. f_equal. f_equal; lia.
Qed.

(** What no later transfer writes to is as the filesystem has it. *)
Lemma transferred_lookup (old_base new_base : Path) (plan : list (string * string * bool)) :
  forall (fs : FS) (q : Path),
    (forall e, In e plan -> destination new_base e <> q) ->
    node_at (transferred old_base new_base plan fs) q = node_at fs q.
Proof.
  induction plan as [|entry plan IH]; intros fs q Hq; [reflexivity|].
  cbn [transferred]. rewrite IH by (intros e He; apply Hq; now right).
  destruct (node_at fs (source old_base entry)) as [[|c]|]; try reflexivity.
  apply node_at_insert_ne. intros Heq. apply (Hq entry); [now left|now symmetry].
Qed.

(** With destinations that differ, every destination ends with the bytes
    of its source, or as it was when the source is missing. *)
Lemma transferred_entry (old_base new_base : Path) (plan : list (string * string * bool)) :
  apart old_base new_base plan ->
  NoDup (List.map (destination new_base) plan) ->
  forall (fs : FS) (entry : string * string * bool),
    In entry plan ->
    is_dir fs (source old_base entry) = false ->
    destination new_base entry <> [] ->
    node_at (transferred old_base new_base plan fs) (destination new_base entry)
    = match node_at fs (source old_base entry) with
      | Some (File c) => Some (File c)
      | _ => node_at fs (destination new_base entry)
      end.
Proof.
  induction plan as [|e0 plan IH]; intros Hapart Hnodup fs entry Hin Hsrc Hroot; [destruct Hin|].
  apply NoDup_cons in Hnodup as [Hfresh Hnodup].
  assert (apart old_base new_base plan) as Hapart'
    by (intros e e' He He'; apply Hapart; now right).
  cbn [transferred]. destruct Hin as [->|Hin].
  - rewrite transferred_lookup.
    2:{ intros e He Heq. apply Hfresh. rewrite <- Heq.
        apply list_elem_of_In, in_map, He. }
    destruct (node_at fs (source old_base entry)) as [[|c]|]; try reflexivity.
    now apply node_at_insert.
  - assert (destination new_base e0 <> source old_base entry) as Hne
      by (apply Hapart; [now left|now right]).
    assert (destination new_base entry <> destination new_base e0) as Hdd.
    { intros Heq. apply Hfresh. rewrite <- Heq. apply list_elem_of_In, in_map, Hin. }
    destruct (node_at fs (source old_base e0)) as [[|c]|].
    + now apply IH.
    + rewrite IH; try assumption.
      * rewrite !node_at_insert_ne by congruence. reflexivity.
      * rewrite is_dir_insert_ne by congruence. exact Hsrc.
    + now apply IH.
Qed.

End PlanFacts.

(** * The statements of the specification *)

(** C1.  No destination of the table contains the word by which
    [migrate_files] decides to append, so the rows that the table marks
    [# Append] are copied over what is there.  With ["X"] in
    [determineSyncN.py] and ["Y"] in [determineSyncTwo.py], the copying
    loop leaves ["Y"] in [sync_detection.py], and the whole run the header
    followed by ["Y"]: not ["X"], the separator block and ["Y"]. *)
Theorem C1_append_rows_overwrite :
  Forall (fun entry => Str.contains "Append" (snd (fst entry)) = false)
         Migrate.FILE_MAPPING
  /\ state_of (Migrate.copy_loop Migrate.FILE_MAPPING ["old"] ["new"] 0 0 Scenario.xy_fs)
       !! Scenario.sync_detection
     = Some (File "Y")
  /\ state_of (Migrate.migrate_files ["old"] ["new"] Scenario.xy_fs)
       !! Scenario.sync_detection
     = Some (File (Migrate.header "Synchronization detection for oscillator systems"
                   +:+ "Y"))
  /\ "Y" <> "X" +:+ Migrate.separator ["old"; "N5ForShare"; "determineSyncTwo.py"] +:+ "Y"
  /\ Migrate.header "Synchronization detection for oscillator systems" +:+ "Y"
     <> "X" +:+ Migrate.separator ["old"; "N5ForShare"; "determineSyncTwo.py"] +:+ "Y".
Proof.
  split; [|split; [|split; [|split]]].
  - repeat constructor.
  - vm_compute. reflexivity.
  - vm_compute. reflexivity.
  - vm_compute. discriminate.
  - vm_compute. discriminate.
Qed.


(** A check that raises in the middle of a run: without the YAML
    library the configuration check raises, the runner files one error
    under its name, and the documentation check runs after it. *)
Example configuration_raises_documentation_runs :
  let self := state_of (Validate.validate_all Scenario.no_yaml (Validate.init ["proj"])) in
  List.last (Validate.errors self) EmptyString
  = "Configuration: cannot access local variable 'yaml' where it is not associated with a value"
  /\ Validate.warnings self
     = [ "Module not found: src.utils.config"; "Module not found: src.utils.data_utils";
         "Module not found: src.utils.logging_utils";
         "Module not found: src.models.message_passing";
         "Documentation missing: README.md";
         "Documentation missing: REORGANIZATION_GUIDE.md" ].
Proof. split; vm_compute; reflexivity. Qed.

(** C3 as stated fails: a package above one of the modules that the
    import check looks for may end the process when it is imported, and
    the [SystemExit] passes both handlers.  Here [src/utils/__init__.py]
    exits with status 0, in a tree that lacks six of the required
    directories and eight of the required files: the exit status is 0 with
    fourteen Errors in the bucket. *)
Lemma C3_counterexample :
  fst (Validate.main Scenario.exiting_package ["proj"]) = 0
  /\ length (Validate.errors
               (state_of (Validate.validate_all Scenario.exiting_package
                            (Validate.init ["proj"])))) = 14.
Proof. split; vm_compute; reflexivity. Qed.

(** C3, amended.  When no module lookup ends the process, the exit status
    is 0 exactly when the Error bucket is empty at the end of the run,
    whatever the Warnings bucket holds; when a lookup does, the exit status
    is the one it asks for, whatever the buckets hold.  The boolean that
    the runner returns depends on the Error bucket only; and a conforming
    root with one module that is not found ends with no Error, one Warning
    and exit status 0. *)
Theorem C3_exit_status_from_errors_only :
  forall (env : Validate.Env) (root : Path),
    (Verdict.first_exit env Validate.import_tests = None ->
     fst (Validate.main env root) = 0
     <-> Validate.errors (state_of (Validate.validate_all env (Validate.init root))) = [])
    /\ (forall status,
          Verdict.first_exit env Validate.import_tests = Some status ->
          fst (Validate.main env root) = status)
    /\ (forall (checks : list (string * Validate.V unit)) self,
          exists success self' out,
            Validate.validate_all_with checks self = Ok success self' out
            /\ (success = true <-> Validate.errors self' = []))
    /\ (Validate.errors
          (state_of (Validate.validate_all Scenario.one_import_missing
                       (Validate.init ["proj"])))
        = []
        /\ Validate.warnings
             (state_of (Validate.validate_all Scenario.one_import_missing
                          (Validate.init ["proj"])))
           = ["Module not found: src.models.message_passing"]
        /\ fst (Validate.main Scenario.one_import_missing ["proj"]) = 0).
Proof.
  intros env root. split; [|split; [|split]].
  - intros Hquiet. rewrite ProcessFacts.main_status, Hquiet.
    rewrite (ProcessFacts.validate_all_quiet env (Validate.init root) Hquiet).
    cbn [state_of].
    destruct (Validate.errors _) as [|e es]; cbn; split; intros H;
      congruence || reflexivity || discriminate.
  - intros status Hexit. now rewrite ProcessFacts.main_status, Hexit.
  - intros checks self. eexists _, _, _. split.
    + apply ValidateFacts.validate_all_with_Ok.
    + destruct (Validate.errors _) as [|e es]; cbn; split; intros H;
        congruence || reflexivity || discriminate.
  - split; [|split]; vm_compute; reflexivity.
Qed.

(** C3, amended, at the conforming root with one module that is not
    found. *)
Lemma C3_witness :
  fst (Validate.main Scenario.one_import_missing ["proj"]) = 0
  <-> Validate.errors
        (state_of (Validate.validate_all Scenario.one_import_missing (Validate.init ["proj"])))
      = [].
Proof.
  assert (Verdict.first_exit Scenario.one_import_missing Validate.import_tests = None)
    as Hquiet by (vm_compute; reflexivity).
  exact (proj1 (C3_exit_status_from_errors_only Scenario.one_import_missing ["proj"]) Hquiet).
Defined.

(** C4.  A transfer whose source does not exist prints a diagnostic and
    returns [False], with the filesystem as it was.  So the loop goes on
    after such an entry, from the same filesystem, with one more failure
    and the diagnostic printed, whatever the entries before and after it
    do.  And when the entries of a plan are ready to be transferred and
    apart from each other, the loop returns: every entry is counted once,
    as a success when its source is there and as a failure when it is
    missing, each prints its line, and the filesystem ends with the bytes
    of every source that is there at its destination; with destinations
    that differ, each destination holds the bytes of its own source, and
    the destination of a missing source is as it was. *)
Theorem C4_missing_source_does_not_abort :
  (forall (src dst : Path) (append : bool) (fs : FS),
      exists_ fs src = false ->
      Migrate.copy_file src dst append fs
      = Ok false fs ["  WARNING: Source file not found: " +:+ PathLib.to_str src])
  /\ (forall (old_base new_base : Path) pre src_rel dst_rel ni post (sc fc : nat) (fs : FS),
        exists_ (state_of (Migrate.copy_loop pre old_base new_base sc fc fs))
                (old_base // src_rel) = false ->
        Migrate.copy_loop (pre ++ (src_rel, dst_rel, ni) :: post) old_base new_base sc fc fs
        = match Migrate.copy_loop pre old_base new_base sc fc fs with
          | Ok c fs1 o1 =>
              match Migrate.copy_loop post old_base new_base (fst c) (S (snd c)) fs1 with
              | Ok c' fs2 o2 =>
                  Ok c' fs2
                     (o1 ++ ("  WARNING: Source file not found: "
                             +:+ PathLib.to_str (old_base // src_rel)) :: o2)
              | Raise e fs2 o2 =>
                  Raise e fs2
                        (o1 ++ ("  WARNING: Source file not found: "
                                +:+ PathLib.to_str (old_base // src_rel)) :: o2)
              end
          | Raise e fs1 o1 => Raise e fs1 o1
          end)
  /\ (forall (old_base new_base : Path) (plan : list (string * string * bool))
             (sc fc : nat) (fs : FS),
        wf fs ->
        Forall (fun entry => Transfer.ready old_base new_base fs entry = true) plan ->
        Transfer.apart old_base new_base plan ->
        let successes := length (List.filter (Transfer.present old_base fs) plan) in
        let failures :=
          length (List.filter (fun entry => negb (Transfer.present old_base fs entry)) plan) in
        Migrate.copy_loop plan old_base new_base sc fc fs
        = Ok (sc + successes, fc + failures)
             (Transfer.transferred old_base new_base plan fs)
             (List.map (Transfer.line old_base new_base fs) plan)
        /\ successes + failures = length plan
        /\ (NoDup (List.map (Transfer.destination new_base) plan) ->
            forall entry,
              In entry plan ->
              node_at (Transfer.transferred old_base new_base plan fs)
                      (Transfer.destination new_base entry)
              = match node_at fs (Transfer.source old_base entry) with
                | Some (File c) => Some (File c)
                | _ => node_at fs (Transfer.destination new_base entry)
                end)).
Proof.
  split; [exact MigrateFacts.copy_file_missing|]. split.
  - intros old_base new_base pre src_rel dst_rel ni post sc fc fs Hmiss.
    rewrite MigrateFacts.copy_loop_app.
    destruct (Migrate.copy_loop pre old_base new_base sc fc fs) as [c fs1 o1|e fs1 o1];
      [|reflexivity].
    cbn [state_of] in Hmiss.
    rewrite MigrateFacts.copy_loop_cons, (MigrateFacts.copy_file_missing _ _ _ _ Hmiss).
    destruct (Migrate.copy_loop post _ _ _ _ fs1); reflexivity.
  - intros old_base new_base plan sc fc fs Hwf Hready Hapart. cbv zeta.
    split; [now apply PlanFacts.copy_loop_ready|].
    split; [apply List.filter_length|].
    intros Hnodup entry Hin.
    rewrite Forall_forall in Hready.
    destruct (PlanFacts.ready_inv _ _ _ _ (Hready entry (proj2 (list_elem_of_In _ _) Hin)))
      as (_ & Hsrc & Hdst & _).
    apply PlanFacts.transferred_entry; try assumption.
    intros Heq. rewrite Heq in Hdst. discriminate.
Qed.

(** C4 at a plan of three entries, the second of which has no source: two
    successes and one failure, the bytes of the two other sources at their
    destinations, and nothing at the destination of the missing one. *)
Lemma C4_witness :
  let r := Migrate.copy_loop Scenario.three_entries ["old"] ["new"] 0 0
             Scenario.two_of_three_fs in
  value_of (0, 0) r = (2, 1)
  /\ node_at (state_of r) ["new"; "a.py"] = Some (File "A")
  /\ node_at (state_of r) ["new"; "b.py"] = None
  /\ node_at (state_of r) ["new"; "c.py"] = Some (File "C")
  /\ out_of r
     = [ "  ✓ Copied: /old/a.py -> /new/a.py";
         "  WARNING: Source file not found: /old/b.py";
         "  ✓ Copied: /old/c.py -> /new/c.py" ].
Proof.
  assert (wf Scenario.two_of_three_fs) as Hwf.
  { apply (@bool_decide_unpack _ (wf_dec Scenario.two_of_three_fs)). vm_compute. exact I. }
  assert (Forall (fun entry => Transfer.ready ["old"] ["new"] Scenario.two_of_three_fs entry
                               = true) Scenario.three_entries) as Hready
    by (repeat constructor; vm_compute; reflexivity).
  assert (Transfer.apart ["old"] ["new"] Scenario.three_entries) as Hapart.
  { intros e e' He He'. unfold Scenario.three_entries in He, He'. cbn [In] in He, He'.
    repeat (destruct He as [<-|He]; [|]); try (destruct He);
      repeat (destruct He' as [<-|He']; [|]); try (destruct He'); discriminate. }
  assert (NoDup (List.map (Transfer.destination ["new"]) Scenario.three_entries)) as Hnodup.
  { apply (bool_decide_unpack _). vm_compute. exact I. }
  destruct C4_missing_source_does_not_abort as (_ & _ & H).
  destruct (H ["old"] ["new"] Scenario.three_entries 0 0 Scenario.two_of_three_fs
              Hwf Hready Hapart) as (Hrun & _ & Hentry).
  cbv zeta. rewrite Hrun. cbn [value_of state_of out_of].
  split; [vm_compute; reflexivity|].
  split; [|split; [|split]].
  - change ["new"; "a.py"] with (Transfer.destination ["new"] ("a.py", "a.py", true)).
    rewrite (Hentry Hnodup ("a.py", "a.py", true)) by (cbn; tauto).
    vm_compute. reflexivity.
  - change ["new"; "b.py"] with (Transfer.destination ["new"] ("b.py", "b.py", true)).
    rewrite (Hentry Hnodup ("b.py", "b.py", true)) by (cbn; tauto).
    vm_compute. reflexivity.
  - change ["new"; "c.py"] with (Transfer.destination ["new"] ("c.py", "c.py", true)).
    rewrite (Hentry Hnodup ("c.py", "c.py", true)) by (cbn; tauto).
    vm_compute. reflexivity.
  - vm_compute. reflexivity.
Defined.

(** C5.  A transfer in append mode whose source is a file that holds a
    text: when the destination is a file, it ends up holding what it held,
    then the separator block, then the text of the source, so that its old
    bytes are a prefix of the new ones; the separator block is a rule of
    sixty [=], a comment that names the source file, and the rule again;
    the text of the source is its bytes, but for the line ends that text
    mode translates.  When the destination does not exist, the transfer is
    the one made in overwrite mode. *)
Theorem C5_append_mode :
  forall (src dst : Path) (fs : FS) (s : string),
    wf fs ->
    node_at fs src = Some (File s) ->
    Utf8.valid s = true ->
    (forall d,
        node_at fs dst = Some (File d) ->
        Migrate.copy_file src dst true fs
        = Ok true
             (<[dst := File (d +:+ Migrate.separator src +:+ Str.universal_newlines s)]> fs)
             ["  ✓ Copied: " +:+ PathLib.to_str src +:+ " -> " +:+ PathLib.to_str dst]
        /\ String.prefix d (d +:+ Migrate.separator src +:+ Str.universal_newlines s) = true)
    /\ (forall (dir : Path) (name : string),
          src = dir ++ [name] ->
          Migrate.separator src
          = "

# ============================================================
# Appended from " +:+ name +:+ "
# ============================================================

")
    /\ (Str.no_CR s = true -> Str.universal_newlines s = s)
    /\ (node_at fs dst = None ->
        Migrate.copy_file src dst true fs = Migrate.copy_file src dst false fs).
Proof.
  intros src dst fs s Hwf Hsrc Hvalid. split; [|split; [|split]].
  - intros d Hdst. split; [|apply StrFacts.prefix_append].
    rewrite MigrateFacts.copy_file_eq.
    unfold exists_ at 1. rewrite Hsrc. cbn [negb].
    rewrite (FSFacts.mkdir_parent_of_existing fs dst _ Hwf Hdst).
    unfold exists_. rewrite Hdst. cbn [andb].
    unfold bind. rewrite (MigrateFacts.read_text_valid _ _ _ Hsrc Hvalid).
    unfold append_text. rewrite MigrateFacts.open_write_eq, Hdst.
    reflexivity.
  - intros dir name ->. unfold Migrate.separator. rewrite FSFacts.name_snoc.
    rewrite !StrFacts.append_assoc. reflexivity.
  - apply StrFacts.universal_newlines_id.
  - intros Hdst. rewrite !MigrateFacts.copy_file_eq.
    destruct (negb (exists_ fs src)); [reflexivity|].
    destruct (mkdir_parents (PathLib.parent dst) fs) as [[] fs1 o1|e fs1 o1] eqn:Hm;
      [|reflexivity].
    assert (exists_ fs1 dst = false) as ->; [|reflexivity].
    destruct dst as [|c dst _] using rev_ind; [discriminate|].
    unfold exists_. rewrite FSFacts.node_at_snoc in *.
    rewrite FSFacts.parent_snoc in Hm.
    pose proof (FSFacts.mkdir_parents_frame dst fs (dst ++ [c])) as Hf.
    rewrite Hm in Hf. cbn [state_of] in Hf.
    rewrite Hf, Hdst; [reflexivity|]. apply prefix_snoc_not.
Qed.

(** C5 at a transfer onto an existing file: ["X"], the separator block
    that names [b.py], and ["Y"]. *)
Lemma C5_witness :
  Migrate.copy_file ["old"; "b.py"] ["new"; "out.py"] true Scenario.append_fs
  = Ok true
       (<[ ["new"; "out.py"] :=
             File "X

# ============================================================
# Appended from b.py
# ============================================================

Y" ]>
          Scenario.append_fs)
       ["  ✓ Copied: /old/b.py -> /new/out.py"].
Proof.
  assert (wf Scenario.append_fs) as Hwf.
  { apply (@bool_decide_unpack _ (wf_dec Scenario.append_fs)). vm_compute. exact I. }
  assert (node_at Scenario.append_fs ["old"; "b.py"] = Some (File "Y")) as Hsrc
    by (vm_compute; reflexivity).
  assert (node_at Scenario.append_fs ["new"; "out.py"] = Some (File "X")) as Hdst
    by (vm_compute; reflexivity).
  exact (proj1 (proj1 (C5_append_mode _ _ _ _ Hwf Hsrc eq_refl) _ Hdst)).
Defined.

(** C6.  Annotating twice leaves the filesystem as the first annotation
    left it, whatever the file holds and whether or not the annotation
    returns.  On a file that holds a text: if the text, leading whitespace
    apart, starts with one of the two docstring delimiters, nothing is
    rewritten; if not, the file is rewritten with the header before the
    text; and the second annotation returns without rewriting anything. *)
Theorem C6_header_annotation_idempotent :
  forall (file_path : Path) (description : string) (fs : FS),
    let r1 := Migrate.add_file_header file_path description fs in
    let r2 := Migrate.add_file_header file_path description (state_of r1) in
    state_of r2 = state_of r1
    /\ forall c,
         node_at fs file_path = Some (File c) ->
         Utf8.valid c = true ->
         let text := Str.universal_newlines c in
         let documented :=
           String.prefix Str.dq3 (Str.lstrip text) || String.prefix Str.sq3 (Str.lstrip text) in
         r1 = Ok tt (if documented then fs
                     else <[file_path := File (Migrate.header description +:+ text)]> fs) []
         /\ (Utf8.valid description = true -> r2 = Ok tt (state_of r1) []).
Proof.
  intros file_path description fs. cbv zeta.
  assert (forall c,
             node_at fs file_path = Some (File c) ->
             Utf8.decode_failure c = None ->
             let text := Str.universal_newlines c in
             let documented :=
               String.prefix Str.dq3 (Str.lstrip text)
               || String.prefix Str.sq3 (Str.lstrip text) in
             let fs1 := if documented then fs
                        else <[file_path := File (Migrate.header description +:+ text)]> fs in
             Migrate.add_file_header file_path description fs = Ok tt fs1 []
             /\ state_of (Migrate.add_file_header file_path description fs1) = fs1
             /\ (Utf8.valid description = true ->
                 Migrate.add_file_header file_path description fs1 = Ok tt fs1 []))
    as Htext.
  { intros c Hc Hdec. cbv zeta.
    rewrite MigrateFacts.add_file_header_eq, Hc, Hdec. cbv zeta.
    rewrite MigrateFacts.has_docstring_lstrip.
    destruct (String.prefix Str.dq3 _ || String.prefix Str.sq3 _) eqn:D; cbn [negb].
    - split; [reflexivity|].
      rewrite MigrateFacts.add_file_header_eq, Hc, Hdec. cbv zeta.
      rewrite MigrateFacts.has_docstring_lstrip, D. auto.
    - split; [reflexivity|].
      rewrite MigrateFacts.add_file_header_eq.
      rewrite FSFacts.node_at_insert by (intros ->; discriminate).
      destruct (Utf8.decode_failure (Migrate.header description +:+ _)) eqn:Hdec2.
      + split; [reflexivity|]. intros Hd.
        pose proof (Utf8Facts.valid_app _ _ (MigrateFacts.header_valid _ Hd)
                      (Utf8Facts.valid_universal_newlines c
                         ltac:(unfold Utf8.valid; now rewrite Hdec))) as Hv.
        unfold Utf8.valid in Hv. rewrite Hdec2 in Hv. discriminate.
      + cbv zeta.
        rewrite MigrateFacts.has_docstring_lstrip, MigrateFacts.header_is_docstring.
        cbn [orb negb]. auto. }
  split.
  - rewrite (MigrateFacts.add_file_header_eq file_path description fs).
    destruct (node_at fs file_path) as [[|c]|] eqn:Hc.
    + cbn [state_of]. now rewrite MigrateFacts.add_file_header_eq, Hc.
    + destruct (Utf8.decode_failure c) eqn:Hdec.
      * cbn [state_of]. now rewrite MigrateFacts.add_file_header_eq, Hc, Hdec.
      * destruct (Htext c eq_refl Hdec) as (H1 & H2 & _).
        rewrite MigrateFacts.add_file_header_eq, Hc, Hdec in H1.
        rewrite H1. cbn [state_of]. exact H2.
    + cbn [state_of]. now rewrite MigrateFacts.add_file_header_eq, Hc.
  - intros c Hc Hvalid.
    assert (Utf8.decode_failure c = None) as Hdec
      by (unfold Utf8.valid in Hvalid; now destruct (Utf8.decode_failure c)).
    destruct (Htext c Hc Hdec) as (H1 & _ & H3).
    rewrite H1. cbn [state_of]. auto.
Qed.

(** C6 at a file without a docstring: the first annotation puts the header
    before the text, the second one leaves it there. *)
Lemma C6_witness :
  let r1 := Migrate.add_file_header ["proj"; "m.py"] "A module" Scenario.plain_file_fs in
  let r2 := Migrate.add_file_header ["proj"; "m.py"] "A module" (state_of r1) in
  state_of r2 = state_of r1
  /\ r2 = Ok tt (state_of r1) []
  /\ node_at (state_of r1) ["proj"; "m.py"]
     = Some (File (String Str.dquote (String Str.dquote (String Str.dquote "
A module

This module is part of the MOCU-OED project for optimal experimental design
in coupled oscillator systems.
")) +:+ String Str.dquote (String Str.dquote (String Str.dquote "

import os")))).
Proof.
  assert (node_at Scenario.plain_file_fs ["proj"; "m.py"] = Some (File "import os")) as Hc
    by (vm_compute; reflexivity).
  destruct (C6_header_annotation_idempotent ["proj"; "m.py"] "A module"
              Scenario.plain_file_fs) as (H1 & H2).
  destruct (H2 "import os" Hc eq_refl) as (Hr1 & Hr2).
  cbv zeta. split; [exact H1|]. split; [exact (Hr2 eq_refl)|].
  rewrite Hr1. cbn [state_of]. vm_compute. reflexivity.
Defined.

(** C7 as stated fails: on a path that does not exist the annotation
    raises. *)
Lemma C7_counterexample :
  ~ exists fs' out,
      Migrate.add_file_header ["proj"; "missing.py"] "A module" Scenario.plain_file_fs
      = Ok tt fs' out.
Proof.
  intros (fs' & out & H). rewrite MigrateFacts.add_file_header_eq in H.
  replace (node_at Scenario.plain_file_fs ["proj"; "missing.py"]) with (@None node) in H
    by (vm_compute; reflexivity).
  discriminate H.
Qed.

(** C7, amended.  On a path that does not exist the annotation raises the
    error of opening the file ([FileNotFoundError], or [NotADirectoryError]
    when a regular file stands above the path) and leaves the filesystem as
    it was; the header loop of the migration tests for existence first and
    skips such a path without an error. *)
Theorem C7_missing_path_raises :
  forall (file_path : Path) (description : string) (fs : FS),
    exists_ fs file_path = false ->
    Migrate.add_file_header file_path description fs
    = Raise (lookup_error fs file_path) fs []
    /\ (lookup_error fs file_path = FileNotFoundError file_path
        \/ lookup_error fs file_path = NotADirectoryError file_path)
    /\ (forall new_base file_rel,
          new_base // file_rel = file_path ->
          Migrate.add_header_if_exists new_base (file_rel, description) fs
          = Ok tt fs []).
Proof.
  intros file_path description fs H. split; [|split].
  - rewrite MigrateFacts.add_file_header_eq.
    unfold exists_ in H. now destruct (node_at fs file_path).
  - apply FSFacts.lookup_error_cases.
  - intros new_base file_rel <-. unfold Migrate.add_header_if_exists.
    now rewrite bind_get_state, H.
Qed.

(** C7, amended, at a path that does not exist. *)
Lemma C7_witness :
  Migrate.add_file_header ["proj"; "missing.py"] "A module" Scenario.plain_file_fs
  = Raise (lookup_error Scenario.plain_file_fs ["proj"; "missing.py"])
          Scenario.plain_file_fs []
  /\ Migrate.add_header_if_exists ["proj"] ("missing.py", "A module") Scenario.plain_file_fs
     = Ok tt Scenario.plain_file_fs [].
Proof.
  assert (exists_ Scenario.plain_file_fs ["proj"; "missing.py"] = false) as Hmiss
    by (vm_compute; reflexivity).
  destruct (C7_missing_path_raises ["proj"; "missing.py"] "A module" _ Hmiss)
    as (H1 & _ & H2).
  split; [exact H1|]. apply (H2 ["proj"] "missing.py"). reflexivity.
Defined.

(** C8.  When the provisioner has run, running it again returns without an
    error and leaves the filesystem, hence the set of directories, as the
    first run left it.  A run changes nothing that exists: a marker file
    that is there keeps its content. *)
Theorem C8_provisioner_idempotent :
  forall (base_path : Path) (fs fs1 : FS) (out : list string),
    Migrate.ensure_directories base_path fs = Ok tt fs1 out ->
    Migrate.ensure_directories base_path fs1 = Ok tt fs1 []
    /\ (forall (p : Path) (n : node), fs !! p = Some n -> fs1 !! p = Some n)
    /\ (forall (d content : string),
          fs !! (base_path // d // "__init__.py") = Some (File content) ->
          fs1 !! (base_path // d // "__init__.py") = Some (File content)).
Proof.
  intros base_path fs fs1 out H.
  apply ProvisionFacts.ensure_loop_Ok in H as (_ & Hsub & Hall).
  split; [|split].
  - now apply ProvisionFacts.ensure_loop_noop.
  - intros p n Hp. eapply lookup_weaken; eauto.
  - intros d content Hp. eapply lookup_weaken; eauto.
Qed.

(** C8 at a root that holds one file. *)
Lemma C8_witness :
  Migrate.ensure_directories ["proj"]
    (state_of (Migrate.ensure_directories ["proj"] Scenario.plain_file_fs))
  = Ok tt (state_of (Migrate.ensure_directories ["proj"] Scenario.plain_file_fs)) []
  /\ state_of (Migrate.ensure_directories ["proj"] Scenario.plain_file_fs)
       !! ["proj"; "m.py"]
     = Some (File "import os").
Proof.
  pose proof (is_Ok_unit (Migrate.ensure_directories ["proj"] Scenario.plain_file_fs)
                ltac:(vm_compute; reflexivity)) as Hrun.
  assert (Scenario.plain_file_fs !! ["proj"; "m.py"] = Some (File "import os")) as Hfile
    by (vm_compute; reflexivity).
  destruct (C8_provisioner_idempotent _ _ _ _ Hrun) as (H1 & H2 & _).
  split; [exact H1|]. apply H2, Hfile.
Defined.

(** C9.  The provisioner leaves a marker file in the directories of its
    list whose name starts with ["src/"], which are [src/core],
    [src/models], [src/strategies] and [src/utils], creates none in the
    others, and none in [src] itself.  So when [src/__init__.py] is not
    there before the migration, it is not there after it, and the check of
    the required files reports it missing. *)
Theorem C9_no_marker_at_the_source_root :
  (forall (base_path : Path) (fs fs1 : FS) (out : list string),
      Migrate.ensure_directories base_path fs = Ok tt fs1 out ->
      (forall d,
          In d Migrate.dirs ->
          if String.prefix "src/" d
          then exists_ fs1 (base_path // d // "__init__.py") = true
          else fs1 !! (base_path // d // "__init__.py")
               = fs !! (base_path // d // "__init__.py"))
      /\ fs1 !! (base_path // "src" // "__init__.py")
         = fs !! (base_path // "src" // "__init__.py"))
  /\ List.filter (String.prefix "src/") Migrate.dirs
     = ["src/core"; "src/models"; "src/strategies"; "src/utils"]
  /\ (forall (old_base new_base : Path) (fs fs' : FS) (out : list string) env,
        fs !! (new_base // "src/__init__.py") = None ->
        Migrate.migrate_files old_base new_base fs = Ok tt fs' out ->
        Validate.env_fs env = fs' ->
        exists self' out',
          Validate.check_required_files env (Validate.init new_base) = Ok tt self' out'
          /\ In "Missing file: src/__init__.py" (Validate.errors self')).
Proof.
  split; [|split].
  - intros base_path fs fs1 out H.
    pose proof (FrameFacts.frames_ensure_directories base_path fs) as Hframe.
    rewrite H in Hframe. cbn [state_of] in Hframe.
    apply ProvisionFacts.ensure_loop_Ok in H as (_ & _ & Hall).
    split.
    + intros d Hd. destruct (String.prefix "src/" d) eqn:Hp.
      * rewrite Forall_forall in Hall.
        apply (Hall d); [now apply list_elem_of_In|exact Hp].
      * apply Hframe.
        unfold Migrate.dirs in Hd. cbn [In] in Hd.
        repeat (destruct Hd as [<-|Hd]; [try discriminate Hp|]);
          [FrameFacts.untouched ..|destruct Hd].
    + apply Hframe. FrameFacts.untouched.
  - reflexivity.
  - intros old_base new_base fs fs' out env Hnone Hrun Henv.
    pose proof (FrameFacts.frames_migrate_files old_base new_base fs
                  (new_base // "src/__init__.py")) as Hframe.
    rewrite Hrun in Hframe. cbn [state_of] in Hframe.
    rewrite Hnone in Hframe.
    destruct (ValidateFacts.for_each_check_required_file env Validate.required_files
                (Validate.init new_base)) as (self' & out' & H & _ & _ & Hmiss).
    exists self', out'. split; [exact H|].
    apply (Hmiss "src/__init__.py").
    + cbn. tauto.
    + rewrite Henv. unfold exists_.
      change (Validate.project_root (Validate.init new_base) // "src/__init__.py")
        with (new_base ++ ["src"; "__init__.py"]).
      change (new_base // "src/__init__.py")
        with (new_base ++ ["src"; "__init__.py"]) in Hframe.
      assert (node_at fs' (new_base ++ ["src"; "__init__.py"]) = None) as ->;
        [|reflexivity].
      rewrite <- Hframe by FrameFacts.untouched.
      now destruct new_base.
Qed.

(** C9 at a run of the migration on an empty new tree. *)
Lemma C9_witness :
  exists self' out',
    Validate.check_required_files
      {| Validate.env_fs := state_of (Migrate.migrate_files ["old"] ["new"] Scenario.xy_fs);
         Validate.find_spec := fun _ => Validate.SpecNone;
         Validate.yaml_module := None |}
      (Validate.init ["new"]) = Ok tt self' out'
    /\ In "Missing file: src/__init__.py" (Validate.errors self').
Proof.
  pose proof (is_Ok_unit (Migrate.migrate_files ["old"] ["new"] Scenario.xy_fs)
                ltac:(vm_compute; reflexivity)) as Hrun.
  assert (Scenario.xy_fs !! (["new"] // "src/__init__.py") = None) as Hnone
    by (vm_compute; reflexivity).
  destruct C9_no_marker_at_the_source_root as (_ & _ & H).
  exact (H ["old"] ["new"] _ _ _
           {| Validate.env_fs :=
                state_of (Migrate.migrate_files ["old"] ["new"] Scenario.xy_fs);
              Validate.find_spec := fun _ => Validate.SpecNone;
              Validate.yaml_module := None |}
           Hnone Hrun eq_refl).
Defined.

(** C10 as stated fails: a configuration file that parses to a string is
    not a mapping, and yet the check files no Error and six findings, one
    per section. *)
Lemma C10_counterexample :
  let self := Validate.init ["proj"] in
  let r := Validate.check_configuration Scenario.scalar_config self in
  exists_ (Validate.env_fs Scenario.scalar_config)
          (Validate.project_root self // "configs" // "default_config.yaml") = true
  /\ Validate.yaml_module Scenario.scalar_config
     = Some (fun text => Validate.Loaded (Validate.YStr text))
  /\ Validate.errors (state_of r) = []
  /\ Validate.passed (state_of r)
     = ["Config section exists: system"; "Config section exists: paths"]
  /\ Validate.warnings (state_of r)
     = ["Config section missing: integration"; "Config section missing: training";
        "Config section missing: model"; "Config section missing: oed"]
  /\ ~ (length (Validate.errors (state_of r)) = 1
        /\ Validate.passed (state_of r) = []
        /\ Validate.warnings (state_of r) = []).
Proof.
  cbv zeta. repeat split; try (vm_compute; reflexivity).
  intros (H & _). vm_compute in H. discriminate.
Qed.

(** C10, amended.  The configuration file exists and parses.  If the
    value is null, a boolean or a number, the first membership test raises
    [TypeError]: the generic handler files exactly one Error and there is
    no finding for any section.  If the value is a string or a sequence
    (or a mapping), every section gets its finding, Passed or Warning, and
    there is no Error. *)
Theorem C10_configuration_that_is_not_a_mapping :
  forall env self safe_load content config,
    node_at (Validate.env_fs env)
            (Validate.project_root self // "configs" // "default_config.yaml")
    = Some (File content) ->
    Validate.yaml_module env = Some safe_load ->
    safe_load (Str.universal_newlines content) = Validate.Loaded config ->
    (Validate.supports_in config = false ->
     Validate.check_configuration env self
     = Ok tt
          {| Validate.project_root := Validate.project_root self;
             Validate.errors :=
               Validate.errors self
               ++ ["Config check failed: argument of type '"
                   +:+ Validate.type_name config +:+ "' is not iterable"];
             Validate.warnings := Validate.warnings self;
             Validate.passed := Validate.passed self |}
          ["  argument of type '" +:+ Validate.type_name config +:+ "' is not iterable"])
    /\ (Validate.supports_in config = true ->
        exists self' out,
          Validate.check_configuration env self = Ok tt self' out
          /\ Validate.errors self' = Validate.errors self
          /\ length (Validate.passed self') + length (Validate.warnings self')
             = length (Validate.passed self) + length (Validate.warnings self) + 6).
Proof.
  intros env self safe_load content config Hfile Hyaml Hload.
  assert (exists_ (Validate.env_fs env)
            (Validate.project_root self // "configs" // "default_config.yaml") = true)
    as Hex by (unfold exists_; now rewrite Hfile).
  unfold Validate.check_configuration. rewrite bind_get_state, Hex, Hyaml.
  cbn [negb]. unfold try_except, Validate.check_configuration_try.
  erewrite bind_Ok by (apply ValidateFacts.read_fs_open_text; exact Hfile).
  rewrite Hload, bind_ret. split.
  - intros Hc. destruct config; try discriminate; reflexivity.
  - intros Hc.
    destruct (ValidateFacts.for_each_check_section config
                Validate.required_sections Hc self) as (self' & out & H & _ & He & Hn).
    rewrite H. exists self', ([] ++ out). repeat split; assumption.
Qed.

(** C10, amended, at an empty file and at a file holding a plain scalar. *)
Lemma C10_witness :
  (exists self' out,
      Validate.check_configuration Scenario.empty_config (Validate.init ["proj"])
      = Ok tt self' out
      /\ Validate.errors self'
         = ["Config check failed: argument of type 'NoneType' is not iterable"]
      /\ Validate.passed self' = [] /\ Validate.warnings self' = [])
  /\ exists self' out,
       Validate.check_configuration Scenario.scalar_config (Validate.init ["proj"])
       = Ok tt self' out
       /\ Validate.errors self' = [].
Proof.
  assert (node_at (Validate.env_fs Scenario.empty_config)
            (Validate.project_root (Validate.init ["proj"])
             // "configs" // "default_config.yaml")
          = Some (File EmptyString)) as Hempty by (vm_compute; reflexivity).
  assert (node_at (Validate.env_fs Scenario.scalar_config)
            (Validate.project_root (Validate.init ["proj"])
             // "configs" // "default_config.yaml")
          = Some (File "system and paths")) as Hscalar by (vm_compute; reflexivity).
  split.
  - destruct (C10_configuration_that_is_not_a_mapping Scenario.empty_config
                (Validate.init ["proj"]) (fun _ => Validate.Loaded Validate.YNull)
                EmptyString Validate.YNull Hempty eq_refl eq_refl) as [H _].
    eexists _, _. split; [exact (H eq_refl)|]. repeat split.
  - destruct (C10_configuration_that_is_not_a_mapping Scenario.scalar_config
                (Validate.init ["proj"]) (fun text => Validate.Loaded (Validate.YStr text))
                "system and paths" (Validate.YStr "system and paths")
                Hscalar eq_refl eq_refl) as [_ H].
    destruct (H eq_refl) as (self' & out & Hrun & He & _).
    exists self', out. split; assumption.
Defined.

(** * Further properties *)

(** ** Transfers *)

Module TransferFacts.
Import Migrate FSFacts MigrateFacts.

Lemma mkdir_from_out (target : Path) (rest : list string) :
  forall (pre : Path) (fs : FS), out_of (mkdir_from target pre rest fs) = [].
Proof.
  induction rest as [|c rest IH]; intros pre fs; [reflexivity|].
  rewrite mkdir_from_cons.
  destruct (fs !! (pre ++ [c])) as [[|content]|]; auto.
Qed.

Lemma open_write_out (p : Path) (f : option string -> string) (fs : FS) :
  out_of (open_write p f fs) = [].
Proof.
  rewrite open_write_eq.
  destruct (node_at fs p) as [[|c]|]; try reflexivity.
  now destruct (node_at fs (PathLib.parent p)) as [[|c]|].
Qed.

Lemma copy2_out (src dst : Path) (fs : FS) : out_of (copy2 src dst fs) = [].
Proof.
  rewrite copy2_eq. cbv zeta. destruct (decide _); [reflexivity|].
  destruct (node_at fs src) as [[|c]|]; try reflexivity. apply open_write_out.
Qed.

Lemma append_branch_out (src dst : Path) (fs : FS) :
  out_of (bind (read_text src)
               (fun content => append_text dst (separator src +:+ content)) fs) = [].
Proof.
  unfold bind. rewrite read_text_eq.
  destruct (node_at fs src) as [[|c]|]; try reflexivity.
  destruct (Utf8.decode_failure c); [reflexivity|].
  pose proof (open_write_out dst
                (fun old => match old with
                            | Some c0 => c0 +:+ (separator src +:+ Str.universal_newlines c)
                            | None => separator src +:+ Str.universal_newlines c
                            end) fs) as H.
  unfold append_text. destruct (open_write _ _ fs); cbn in *; now subst.
Qed.

(** [mkdir] above [dst] neither makes nor changes [dst]. *)
Lemma mkdir_parent_keeps_target (dst : Path) (fs : FS) :
  node_at (state_of (mkdir_parents (PathLib.parent dst) fs)) dst = node_at fs dst.
Proof.
  destruct dst as [|c dst _] using rev_ind; [reflexivity|].
  rewrite !node_at_snoc, parent_snoc.
  apply mkdir_parents_frame, prefix_snoc_not.
Qed.

(** What a transfer that returns has returned and printed. *)
Lemma copy_file_Ok :
  forall (src dst : Path) (append : bool) (fs fs' : FS) (ok : bool) (out : list string),
    copy_file src dst append fs = Ok ok fs' out ->
    ok = exists_ fs src
    /\ out = [if ok
              then "  ✓ Copied: " +:+ PathLib.to_str src +:+ " -> " +:+ PathLib.to_str dst
              else "  WARNING: Source file not found: " +:+ PathLib.to_str src].
Proof.
  intros src dst append fs fs' ok out H.
  rewrite copy_file_eq in H.
  destruct (exists_ fs src); cbn [negb] in H.
  - pose proof (mkdir_from_out (PathLib.parent dst) (PathLib.parent dst)
                  [] fs) as Hm.
    fold (mkdir_parents (PathLib.parent dst)) in Hm.
    destruct (mkdir_parents (PathLib.parent dst) fs) as [[] fs1 o1|e fs1 o1];
      [|discriminate].
    cbn in Hm. subst o1.
    destruct (append && exists_ fs1 dst).
    + pose proof (append_branch_out src dst fs1) as Ho.
      destruct (bind _ _ fs1) as [[] fs2 o2|e fs2 o2]; [|discriminate].
      cbn in Ho. subst o2. injection H as <- <- <-. auto.
    + pose proof (copy2_out src dst fs1) as Ho.
      destruct (copy2 src dst fs1) as [[] fs2 o2|e fs2 o2]; [|discriminate].
      cbn in Ho. subst o2. injection H as <- <- <-. auto.
  - injection H as <- <- <-. auto.
Qed.

End TransferFacts.

(** X1.  When a transfer returns, it returns whether the source was there,
    and it has printed exactly one line: the diagnostic if it was not, the
    confirmation if it was. *)
Theorem X1_copy_file_reports_the_source :
  forall (src dst : Path) (append : bool) (fs fs' : FS) (ok : bool) (out : list string),
    Migrate.copy_file src dst append fs = Ok ok fs' out ->
    ok = exists_ fs src
    /\ out = [if ok
              then "  ✓ Copied: " +:+ PathLib.to_str src +:+ " -> " +:+ PathLib.to_str dst
              else "  WARNING: Source file not found: " +:+ PathLib.to_str src].
Proof. exact TransferFacts.copy_file_Ok. Qed.

(** X1 at a transfer whose source is missing. *)
Lemma X1_witness :
  false = exists_ Scenario.two_of_three_fs ["old"; "b.py"]
  /\ ["  WARNING: Source file not found: " +:+ PathLib.to_str ["old"; "b.py"]]
     = ["  WARNING: Source file not found: " +:+ PathLib.to_str ["old"; "b.py"]].
Proof.
  assert (exists_ Scenario.two_of_three_fs ["old"; "b.py"] = false) as Hmiss
    by (vm_compute; reflexivity).
  exact (X1_copy_file_reports_the_source _ ["new"; "b.py"] false _ _ _ _
           (MigrateFacts.copy_file_missing _ _ _ _ Hmiss)).
Defined.

(** X2.  A transfer in overwrite mode from a regular file, when it returns,
    has put the bytes of the source, unchanged, onto the destination, or,
    when the destination is a directory, into it under the name of the
    source; the source itself still holds them. *)
Theorem X2_overwrite_copies_the_bytes :
  forall (src dst : Path) (fs fs' : FS) (s : string) (ok : bool) (out : list string),
    node_at fs src = Some (File s) ->
    Migrate.copy_file src dst false fs = Ok ok fs' out ->
    ok = true
    /\ fs' !! (if is_dir fs dst then dst ++ [PathLib.name src] else dst) = Some (File s)
    /\ node_at fs' src = Some (File s).
Proof.
  intros src dst fs fs' s ok out Hsrc H.
  rewrite MigrateFacts.copy_file_eq in H.
  unfold exists_ in H at 1. rewrite Hsrc in H. cbn [negb andb] in H.
  pose proof (TransferFacts.mkdir_parent_keeps_target dst fs) as Hdst.
  destruct (mkdir_parents (PathLib.parent dst) fs) as [[] fs1 o1|e fs1 o1] eqn:Hm;
    [|discriminate].
  cbn [state_of] in Hdst.
  apply FSFacts.mkdir_parents_Ok in Hm as (-> & Hsub & _).
  pose proof (FSFacts.node_at_weaken _ _ _ _ Hsub Hsrc) as Hsrc1.
  rewrite MigrateFacts.copy2_eq in H. cbv zeta in H.
  assert (is_dir fs1 dst = is_dir fs dst) as Hd by (unfold is_dir; now rewrite Hdst).
  rewrite Hd, Hsrc1 in H.
  destruct (decide _) as [|Hne]; [discriminate|].
  rewrite MigrateFacts.open_write_eq in H.
  set (target := if is_dir fs dst then dst ++ [PathLib.name src] else dst) in *.
  assert (forall c, node_at (<[target := File c]> fs1) src = Some (File s)) as Hkeep.
  { intros c. destruct src as [|x src]; [discriminate|]. cbn in Hsrc1 |- *.
    now rewrite lookup_insert_ne. }
  destruct (node_at fs1 target) as [[|c]|].
  - discriminate.
  - injection H as <- <- <-. rewrite lookup_insert_eq. auto.
  - destruct (node_at fs1 (PathLib.parent target)) as [[|c]|]; try discriminate.
    injection H as <- <- <-. rewrite lookup_insert_eq. auto.
Qed.

(** X2 at a destination that is a directory. *)
Lemma X2_witness :
  state_of (Migrate.copy_file ["old"; "a.py"] ["new"; "out"] false Scenario2.dir_destination_fs)
    !! (if is_dir Scenario2.dir_destination_fs ["new"; "out"]
        then ["new"; "out"] ++ [PathLib.name ["old"; "a.py"]]
        else ["new"; "out"])
  = Some (File "A").
Proof.
  assert (node_at Scenario2.dir_destination_fs ["old"; "a.py"] = Some (File "A")) as Hsrc
    by (vm_compute; reflexivity).
  pose proof (is_Ok_eq false
                (Migrate.copy_file ["old"; "a.py"] ["new"; "out"] false
                   Scenario2.dir_destination_fs)
                ltac:(vm_compute; reflexivity)) as Hrun.
  exact (proj1 (proj2 (X2_overwrite_copies_the_bytes _ _ _ _ _ _ _ Hsrc Hrun))).
Defined.

(** X3.  A source that is a directory is no failed transfer: in either
    mode [copy_file] raises, so that the run of the migration stops
    there. *)
Theorem X3_directory_source_raises :
  forall (src dst : Path) (append : bool) (fs : FS),
    node_at fs src = Some Dir ->
    is_Ok (Migrate.copy_file src dst append fs) = false
    /\ forall src_rel dst_rel ni plan old_base new_base sc fc,
         old_base // src_rel = src ->
         new_base // dst_rel = dst ->
         is_Ok (Migrate.copy_loop ((src_rel, dst_rel, ni) :: plan)
                                  old_base new_base sc fc fs) = false.
Proof.
  intros src dst append fs Hsrc.
  assert (forall append', is_Ok (Migrate.copy_file src dst append' fs) = false) as Hcopy.
  { intros append'. rewrite MigrateFacts.copy_file_eq.
    unfold exists_ at 1. rewrite Hsrc. cbn [negb].
    destruct (mkdir_parents (PathLib.parent dst) fs) as [[] fs1 o1|e fs1 o1] eqn:Hm;
      [|reflexivity].
    apply FSFacts.mkdir_parents_Ok in Hm as (-> & Hsub & _).
    pose proof (FSFacts.node_at_weaken _ _ _ _ Hsub Hsrc) as Hsrc1.
    destruct (append' && exists_ fs1 dst).
    - unfold bind. rewrite MigrateFacts.read_text_eq, Hsrc1. reflexivity.
    - rewrite MigrateFacts.copy2_eq. cbv zeta.
      destruct (decide _); [reflexivity|]. rewrite Hsrc1. reflexivity. }
  split; [apply Hcopy|].
  intros src_rel dst_rel ni plan old_base new_base sc fc <- <-.
  rewrite MigrateFacts.copy_loop_cons.
  specialize (Hcopy (Str.contains "Append" dst_rel)).
  destruct (Migrate.copy_file _ _ _ fs); [discriminate|reflexivity].
Qed.

(** X3 at a source that is a directory. *)
Lemma X3_witness :
  is_Ok (Migrate.copy_file ["old"; "a.py"] ["new"; "a.py"] false Scenario2.dir_source_fs)
  = false.
Proof.
  assert (node_at Scenario2.dir_source_fs ["old"; "a.py"] = Some Dir) as Hsrc
    by (vm_compute; reflexivity).
  exact (proj1 (X3_directory_source_raises _ ["new"; "a.py"] false _ Hsrc)).
Defined.

(** X4.  When the copying loop returns, every entry of the plan has been
    counted once, as a success or as a failure, and has printed one line;
    the failures are the entries that printed the diagnostic. *)
Theorem X4_copy_loop_counts_every_entry :
  forall plan old_base new_base sc fc (fs fs' : FS) c out,
    Migrate.copy_loop plan old_base new_base sc fc fs = Ok c fs' out ->
    fst c + snd c = sc + fc + length plan
    /\ length out = length plan
    /\ snd c = fc + length (List.filter (String.prefix "  WARNING: Source file not found: ")
                                        out).
Proof.
  induction plan as [|[[src_rel dst_rel] ni] plan IH];
    intros old_base new_base sc fc fs fs' c out H.
  - cbn in H. injection H as <- <- <-. cbn. lia.
  - rewrite MigrateFacts.copy_loop_cons in H.
    destruct (Migrate.copy_file _ _ _ fs) as [ok fs1 o1|e fs1 o1] eqn:Hc; [|discriminate].
    apply TransferFacts.copy_file_Ok in Hc as [_ ->].
    destruct (Migrate.copy_loop plan _ _ _ _ fs1) as [c2 fs2 o2|e fs2 o2] eqn:Hl;
      [|discriminate].
    injection H as <- <- <-.
    apply IH in Hl as (Hcount & Hlen & Hfail).
    destruct ok; cbn [app length List.filter]; cbn [length] in *.
    + assert (String.prefix "  WARNING: Source file not found: "
                ("  ✓ Copied: " +:+ PathLib.to_str (old_base // src_rel) +:+ " -> "
                 +:+ PathLib.to_str (new_base // dst_rel)) = false) as -> by reflexivity.
      lia.
    + assert (String.prefix "  WARNING: Source file not found: "
                ("  WARNING: Source file not found: "
                 +:+ PathLib.to_str (old_base // src_rel)) = true) as ->
        by apply StrFacts.prefix_append.
      cbn [length]. lia.
Qed.

(** X4 at a plan of two entries. *)
Lemma X4_witness :
  length (out_of (Migrate.copy_loop
                    [ ("a.py", "x/a.py", true); ("b.py", "x/b.py", true) ]
                    ["old"] ["new"] 0 0 Scenario.two_of_three_fs))
  = length [ ("a.py", "x/a.py", true); ("b.py", "x/b.py", true) ].
Proof.
  pose proof (is_Ok_eq (0, 0)
                (Migrate.copy_loop [ ("a.py", "x/a.py", true); ("b.py", "x/b.py", true) ]
                   ["old"] ["new"] 0 0 Scenario.two_of_three_fs)
                ltac:(vm_compute; reflexivity)) as Hrun.
  exact (proj1 (proj2 (X4_copy_loop_counts_every_entry _ _ _ _ _ _ _ _ _ Hrun))).
Defined.

(** ** What is kept *)

Module KeepsFacts.
Import Migrate Keeps FSFacts MigrateFacts.

Lemma same_kind_refl (n : node) : same_kind n n.
Proof. now destruct n. Qed.

Lemma same_kind_trans (n1 n2 n3 : node) :
  same_kind n1 n2 -> same_kind n2 n3 -> same_kind n1 n3.
Proof. now destruct n1, n2, n3. Qed.

Lemma keeps_unchanged {A : Type} (m : FSM A) :
  (forall fs : FS, state_of (m fs) = fs) -> keeps m.
Proof.
  intros H fs p n Hp. rewrite H. exists n. split; [exact Hp|apply same_kind_refl].
Qed.

Lemma keeps_subseteq {A : Type} (m : FSM A) :
  (forall fs : FS, fs ⊆ state_of (m fs)) -> keeps m.
Proof.
  intros H fs p n Hp. exists n. split; [|apply same_kind_refl].
  eapply lookup_weaken; eauto.
Qed.

Lemma keeps_ret {A : Type} (a : A) : keeps (ret a).
Proof. now apply keeps_unchanged. Qed.

Lemma keeps_print (line : string) : keeps (print line).
Proof. now apply keeps_unchanged. Qed.

Lemma keeps_raise {A : Type} (e : OSError) : keeps (raise (A := A) e).
Proof. now apply keeps_unchanged. Qed.

Lemma keeps_bind {A B : Type} (m : FSM A) (k : A -> FSM B) :
  keeps m -> (forall a, keeps (k a)) -> keeps (bind m k).
Proof.
  intros Hm Hk fs p n Hp. destruct (Hm fs p n Hp) as (n1 & H1 & K1).
  unfold bind. destruct (m fs) as [a fs1 o1|e fs1 o1]; [|eauto].
  cbn [state_of] in H1. destruct (Hk a fs1 p n1 H1) as (n2 & H2 & K2).
  exists n2. split; [|eapply same_kind_trans; eauto].
  now destruct (k a fs1).
Qed.

Lemma keeps_get_state {B : Type} (k : FS -> FSM B) :
  (forall fs, keeps (k fs)) -> keeps (bind get_state k).
Proof. intros Hk fs p n Hp. rewrite bind_get_state. now apply Hk. Qed.

Lemma keeps_for_each {A : Type} (l : list A) (body : A -> FSM unit) :
  (forall x, keeps (body x)) -> keeps (for_each l body).
Proof.
  intros H. induction l as [|x l IH]; [apply keeps_ret|].
  cbn [for_each]. apply keeps_bind; [apply H|intros _; exact IH].
Qed.

Lemma mkdir_from_subseteq (target : Path) (rest : list string) :
  forall (pre : Path) (fs : FS), fs ⊆ state_of (mkdir_from target pre rest fs).
Proof.
  induction rest as [|c rest IH]; intros pre fs; [reflexivity|].
  rewrite mkdir_from_cons.
  destruct (fs !! (pre ++ [c])) as [[|content]|] eqn:E; [apply IH|reflexivity|].
  etrans; [|apply IH]. now apply insert_subseteq.
Qed.

Lemma keeps_mkdir_parents (p : Path) : keeps (mkdir_parents p).
Proof. apply keeps_subseteq. intros fs. apply mkdir_from_subseteq. Qed.

Lemma keeps_read_bytes (p : Path) : keeps (read_bytes p).
Proof.
  apply keeps_unchanged. intros fs. rewrite read_bytes_eq.
  now destruct (node_at fs p) as [[|c]|].
Qed.

Lemma keeps_read_text (p : Path) : keeps (read_text p).
Proof.
  apply keeps_unchanged. intros fs. rewrite read_text_eq.
  destruct (node_at fs p) as [[|c]|]; try reflexivity.
  now destruct (Utf8.decode_failure c).
Qed.

(** Writing a file replaces a file or makes a new one. *)
Lemma keeps_open_write (p : Path) (f : option string -> string) : keeps (open_write p f).
Proof.
  intros fs q n Hq. rewrite open_write_eq.
  destruct (node_at fs p) as [[|c]|] eqn:Hp; cbn [state_of].
  - exists n. split; [exact Hq|apply same_kind_refl].
  - destruct (decide (p = q)) as [<-|Hne].
    + rewrite lookup_insert_eq. eexists. split; [reflexivity|].
      destruct p; [discriminate|]. cbn in Hp. rewrite Hp in Hq.
      injection Hq as <-. exact I.
    + rewrite lookup_insert_ne by exact Hne.
      exists n. split; [exact Hq|apply same_kind_refl].
  - assert (p <> q) as Hne.
    { intros <-. destruct p; [discriminate|]. cbn in Hp. congruence. }
    destruct (node_at fs (PathLib.parent p)) as [[|c]|]; cbn [state_of];
      rewrite ?lookup_insert_ne by exact Hne;
      exists n; (split; [exact Hq|apply same_kind_refl]).
Qed.

Lemma keeps_copy2 (src dst : Path) : keeps (copy2 src dst).
Proof.
  unfold copy2. apply keeps_get_state. intros fs0. cbv zeta.
  destruct (decide _); [apply keeps_raise|].
  apply keeps_bind; [apply keeps_read_bytes|intros c; apply keeps_open_write].
Qed.

Lemma keeps_copy_file (src dst : Path) (append : bool) : keeps (copy_file src dst append).
Proof.
  unfold copy_file. apply keeps_get_state. intros fs0.
  destruct (negb _).
  { apply keeps_bind; [apply keeps_print|intros _; apply keeps_ret]. }
  apply keeps_bind; [apply keeps_mkdir_parents|intros _].
  apply keeps_get_state. intros fs1. apply keeps_bind.
  - destruct (append && _); [|apply keeps_copy2].
    apply keeps_bind; [apply keeps_read_text|intros c; apply keeps_open_write].
  - intros _. apply keeps_bind; [apply keeps_print|intros _; apply keeps_ret].
Qed.

Lemma keeps_add_file_header (file_path : Path) (description : string) :
  keeps (add_file_header file_path description).
Proof.
  unfold add_file_header. apply keeps_bind; [apply keeps_read_text|].
  intros content. destruct (_ && _); [apply keeps_open_write|apply keeps_ret].
Qed.

Lemma keeps_ensure_directory (base_path : Path) (d : string) :
  keeps (ensure_directory base_path d).
Proof.
  unfold ensure_directory. apply keeps_bind; [apply keeps_mkdir_parents|intros _].
  destruct (String.prefix "src/" d); [|apply keeps_ret].
  cbv zeta. apply keeps_get_state. intros fs0.
  destruct (negb _); [apply keeps_open_write|apply keeps_ret].
Qed.

Lemma keeps_copy_loop (old_base new_base : Path) (plan : list (string * string * bool)) :
  forall sc fc : nat, keeps (copy_loop plan old_base new_base sc fc).
Proof.
  induction plan as [|[[src_rel dst_rel] ni] plan IH]; intros sc fc; [apply keeps_ret|].
  cbn [copy_loop]. apply keeps_bind; [apply keeps_copy_file|].
  intros ok. destruct ok; apply IH.
Qed.

Lemma keeps_add_header_if_exists (new_base : Path) (item : string * string) :
  keeps (add_header_if_exists new_base item).
Proof.
  destruct item as [file_rel description]. unfold add_header_if_exists.
  apply keeps_get_state. intros fs0.
  destruct (exists_ _ _); [|apply keeps_ret].
  apply keeps_bind; [apply keeps_add_file_header|intros _; apply keeps_print].
Qed.

Lemma keeps_migrate_files (old_base new_base : Path) :
  keeps (migrate_files old_base new_base).
Proof.
  unfold migrate_files.
  repeat (apply keeps_bind; [apply keeps_print|intros _]).
  apply keeps_bind; [apply keeps_for_each, keeps_ensure_directory|intros _].
  repeat (apply keeps_bind; [apply keeps_print|intros _]).
  apply keeps_bind; [apply keeps_copy_loop|intros counts; cbv zeta].
  repeat (apply keeps_bind; [apply keeps_print|intros _]).
  apply keeps_bind; [apply keeps_for_each, keeps_add_header_if_exists|intros _].
  repeat (apply keeps_bind; [apply keeps_print|intros _]).
  apply keeps_bind.
  { unfold create_migration_report. apply keeps_get_state. intros fs0.
    apply keeps_open_write. }
  intros _.
  repeat (apply keeps_bind; [apply keeps_print|intros _]).
  apply keeps_print.
Qed.

End KeepsFacts.

(** X5.  The migration deletes nothing and turns no file into a directory
    nor a directory into a file: what is there when the run starts is
    there, of the same kind, when the run stops, whether it returns or
    raises. *)
Theorem X5_migration_deletes_nothing :
  forall (old_base new_base : Path) (fs : FS) (p : Path) (n : node),
    fs !! p = Some n ->
    exists n',
      state_of (Migrate.migrate_files old_base new_base fs) !! p = Some n'
      /\ Keeps.same_kind n n'.
Proof. intros old_base new_base fs p n. apply KeepsFacts.keeps_migrate_files. Qed.

(** X5 at a source of the old tree. *)
Lemma X5_witness :
  exists n',
    state_of (Migrate.migrate_files ["old"] ["new"] Scenario.xy_fs)
      !! ["old"; "N5ForShare"; "determineSyncN.py"] = Some n'
    /\ Keeps.same_kind (File "X") n'.
Proof.
  assert (Scenario.xy_fs !! ["old"; "N5ForShare"; "determineSyncN.py"] = Some (File "X"))
    as Hp by (vm_compute; reflexivity).
  exact (X5_migration_deletes_nothing ["old"] ["new"] _ _ _ Hp).
Defined.

(** ** The entry point *)

Module MainFacts.
Import Migrate MigrateMain Footprint FrameFacts.

Lemma frames_main (script_dir : Path) (response : string) :
  frames (migrate_footprint (PathLib.parent script_dir) (PathLib.parent script_dir))
         (main script_dir response).
Proof.
  unfold main. cbv zeta.
  repeat (apply frames_bind; [apply frames_print|intros _]).
  destruct (affirmative response); [apply frames_migrate_files|apply frames_print].
Qed.

(** No source of the table is touched by a migration in place. *)
Lemma sources_untouched (base : Path) :
  Forall (fun entry : string * string * bool =>
            ~ touched (migrate_footprint base base) (base // fst (fst entry)))
         FILE_MAPPING.
Proof. unfold FILE_MAPPING. repeat constructor; cbn [fst]; untouched. Qed.

End MainFacts.

(** X6.  The script works in place, on the directory above its own.  If
    the answer at the prompt is not [yes] or [y], in any letter case, the
    filesystem is left as it was; and whatever the answer, and whether or
    not the run raises, every source of the table holds what it held: the
    migration copies, it does not move. *)
Theorem X6_main_leaves_the_sources :
  forall (script_dir : Path) (response : string) (fs : FS),
    (MigrateMain.affirmative response = false ->
     state_of (MigrateMain.main script_dir response fs) = fs)
    /\ Forall (fun entry : string * string * bool =>
                 state_of (MigrateMain.main script_dir response fs)
                   !! (PathLib.parent script_dir // fst (fst entry))
                 = fs !! (PathLib.parent script_dir // fst (fst entry)))
              Migrate.FILE_MAPPING.
Proof.
  intros script_dir response fs. split.
  - intros H. unfold MigrateMain.main. cbv zeta. rewrite H. reflexivity.
  - pose proof (MainFacts.sources_untouched (PathLib.parent script_dir)) as H.
    rewrite Forall_forall in H |- *. intros entry Hin.
    apply MainFacts.frames_main, H, Hin.
Qed.

(** X6 at an answer with a space after it. *)
Lemma X6_witness :
  state_of (MigrateMain.main ["proj"; "scripts"] "yes " Scenario2.in_place_fs)
  = Scenario2.in_place_fs.
Proof.
  exact (proj1 (X6_main_leaves_the_sources ["proj"; "scripts"] "yes " Scenario2.in_place_fs)
           eq_refl).
Defined.

(** ** The checks of the validator *)

Module VerdictFacts.
Import Validate Verdict ValidateFacts ProcessFacts.

(** A loop whose body files findings and prints, as a function of the item
    and of the root, files the findings of all items in order. *)
Lemma for_each_findings {A : Type} (root : Path) (body : A -> V unit)
    (fe fw fp fo : A -> list string) :
  (forall x self, project_root self = root ->
                  body x self = Ok tt (file_findings self (fe x) (fw x) (fp x)) (fo x)) ->
  forall (l : list A) self,
    project_root self = root ->
    for_each l body self
    = Ok tt (file_findings self (flat_map fe l) (flat_map fw l) (flat_map fp l))
         (flat_map fo l).
Proof.
  intros Hbody l. induction l as [|x l IH]; intros self Hroot.
  - cbn. now rewrite file_findings_nil.
  - cbn [for_each flat_map]. erewrite bind_Ok by (apply Hbody; exact Hroot).
    rewrite IH by exact Hroot. now rewrite file_findings_twice.
Qed.

Lemma flat_map_nil {A B : Type} (f : A -> list B) (l : list A) :
  flat_map f l = [] <-> forall x, In x l -> f x = [].
Proof.
  induction l as [|x l IH]; cbn; [tauto|].
  split.
  - intros H. apply app_eq_nil in H as [Hx Hl]. intros y [<-|Hy]; [exact Hx|].
    now apply IH.
  - intros H. rewrite (H x) by auto. apply IH. auto.
Qed.

Lemma flat_map_empty {A B : Type} (l : list A) :
  flat_map (fun _ : A => @nil B) l = [].
Proof. now induction l. Qed.

Lemma flat_map_singleton {A B : Type} (g : A -> B) (l : list A) :
  flat_map (fun x => [g x]) l = List.map g l.
Proof. induction l as [|x l IH]; cbn; congruence. Qed.

Lemma exists_and_is_dir (fs : FS) (p : Path) : exists_ fs p && is_dir fs p = is_dir fs p.
Proof. unfold exists_, is_dir. now destruct (node_at fs p) as [[|c]|]. Qed.

Lemma exists_and_is_file (fs : FS) (p : Path) : exists_ fs p && is_file fs p = is_file fs p.
Proof. unfold exists_, is_file. now destruct (node_at fs p) as [[|c]|]. Qed.

Lemma check_directory_structure_eq (env : Env) (self : ProjectValidator) :
  check_directory_structure env self
  = Ok tt
       (file_findings self
          (flat_map (directory_errors env (project_root self)) required_dirs) []
          (flat_map (directory_passed env (project_root self)) required_dirs))
       (List.map (fun d => (if is_dir (env_fs env) (project_root self // d)
                            then "  ✓ " else "  ✗ ") +:+ d) required_dirs).
Proof.
  unfold check_directory_structure.
  rewrite (for_each_findings (project_root self) (check_directory env)
             (directory_errors env (project_root self)) (fun _ => [])
             (directory_passed env (project_root self))
             (fun d => [(if is_dir (env_fs env) (project_root self // d)
                         then "  ✓ " else "  ✗ ") +:+ d])); [|  |reflexivity].
  - now rewrite flat_map_empty, flat_map_singleton.
  - intros d self0 Hroot. unfold check_directory, directory_errors, directory_passed.
    rewrite bind_get_state, exists_and_is_dir, Hroot.
    destruct (is_dir _ _); unfold file_findings; cbn; now rewrite !app_nil_r.
Qed.

Lemma check_required_files_eq (env : Env) (self : ProjectValidator) :
  check_required_files env self
  = Ok tt
       (file_findings self
          (flat_map (file_errors env (project_root self)) required_files) []
          (flat_map (file_passed env (project_root self)) required_files))
       (List.map (fun f => (if is_file (env_fs env) (project_root self // f)
                            then "  ✓ " else "  ✗ ") +:+ f) required_files).
Proof.
  unfold check_required_files.
  rewrite (for_each_findings (project_root self) (check_required_file env)
             (file_errors env (project_root self)) (fun _ => [])
             (file_passed env (project_root self))
             (fun f => [(if is_file (env_fs env) (project_root self // f)
                         then "  ✓ " else "  ✗ ") +:+ f])); [|  |reflexivity].
  - now rewrite flat_map_empty, flat_map_singleton.
  - intros f self0 Hroot. unfold check_required_file, file_errors, file_passed.
    rewrite bind_get_state, exists_and_is_file, Hroot.
    destruct (is_file _ _); unfold file_findings; cbn; now rewrite !app_nil_r.
Qed.

(** *** Which checks file an Error *)

Lemma decides_directories (env : Env) :
  decides "Directory Structure" (check_directory_structure env) (directories_ok env).
Proof.
  intros self. rewrite check_directory_structure_eq. cbn [settle].
  eexists. split; [reflexivity|]. split; [reflexivity|].
  rewrite flat_map_nil. unfold directories_ok, directory_errors.
  split; intros H d Hd; specialize (H d Hd); now destruct (is_dir _ _).
Qed.

Lemma decides_files (env : Env) :
  decides "Required Files" (check_required_files env) (files_ok env).
Proof.
  intros self. rewrite check_required_files_eq. cbn [settle].
  eexists. split; [reflexivity|]. split; [reflexivity|].
  rewrite flat_map_nil. unfold files_ok, file_errors.
  split; intros H f Hf; specialize (H f Hf); now destruct (is_file _ _).
Qed.

Lemma decides_imports (env : Env) :
  decides "Python Imports" (imports_filed env) (fun _ => imports_ok env).
Proof.
  intros self. unfold imports_filed. cbn [settle].
  eexists. split; [reflexivity|]. split; [reflexivity|].
  rewrite flat_map_nil. unfold imports_ok, import_errors.
  split; intros H test Ht; specialize (H test Ht); now destruct (find_spec _ _).
Qed.

(** The configuration check, case by case. *)
Lemma check_configuration_cases (env : Env) (self : ProjectValidator) :
  let config_file := project_root self // "configs" // "default_config.yaml" in
  match node_at (env_fs env) config_file with
  | None =>
      check_configuration env self
      = Ok tt (file_findings self ["Configuration file not found"] [] [])
           ["  ✗ Configuration file missing"]
  | Some n =>
      match yaml_module env with
      | None => exists e, check_configuration env self = Raise e self []
      | Some safe_load =>
          match n with
          | Dir =>
              exists msg out, check_configuration env self
                              = Ok tt (file_findings self [msg] [] []) out
          | File content =>
              match safe_load (Str.universal_newlines content) with
              | LoadFails msg =>
                  check_configuration env self
                  = Ok tt (file_findings self ["Invalid YAML: " +:+ msg] [] [])
                       ["  Invalid YAML: " +:+ msg]
              | LoadRaises msg =>
                  check_configuration env self
                  = Ok tt (file_findings self ["Config check failed: " +:+ msg] [] [])
                       ["  " +:+ msg]
              | Loaded config =>
                  if supports_in config then
                    exists self' out,
                      check_configuration env self = Ok tt self' out
                      /\ project_root self' = project_root self
                      /\ errors self' = errors self
                      /\ length (passed self') + length (warnings self')
                         = length (passed self) + length (warnings self) + 6
                  else
                    exists msg out, check_configuration env self
                                    = Ok tt (file_findings self [msg] [] []) out
              end
          end
      end
  end.
Proof.
  cbv zeta. unfold check_configuration. rewrite bind_get_state. unfold exists_.
  destruct (node_at _ _) as [n|] eqn:Hn; cbn [negb].
  2:{ unfold file_findings. cbn. now rewrite !app_nil_r. }
  destruct (yaml_module env) as [safe_load|]; [|eexists; reflexivity].
  unfold try_except, check_configuration_try.
  destruct n as [|content].
  - exists ("Config check failed: "
            +:+ Exception_str
                  (OSErr (IsADirectoryError
                            (project_root self // "configs" // "default_config.yaml")))),
           ["  " +:+ Exception_str
                      (OSErr (IsADirectoryError
                                (project_root self // "configs" // "default_config.yaml")))].
    unfold bind at 1. unfold read_fs at 1, open_text, read_bytes, bind, get_state.
    rewrite Hn. unfold file_findings. cbn [project_root errors warnings passed].
    rewrite !app_nil_r. reflexivity.
  - erewrite bind_Ok by (apply read_fs_open_text; exact Hn).
    destruct (safe_load _) as [config|msg|msg].
    + rewrite bind_ret. destruct (supports_in config) eqn:Hc.
      * destruct (for_each_check_section config required_sections Hc self)
          as (self' & out & H & Hr & He & Hl).
        rewrite H. exists self', ([] ++ out). auto.
      * exists ("Config check failed: argument of type '" +:+ type_name config
                +:+ "' is not iterable"),
               ["  argument of type '" +:+ type_name config +:+ "' is not iterable"].
        unfold file_findings. cbn [project_root errors warnings passed].
        rewrite !app_nil_r. destruct config; try discriminate; reflexivity.
    + unfold file_findings. cbn. now rewrite !app_nil_r.
    + unfold file_findings. cbn. now rewrite !app_nil_r.
Qed.

Lemma decides_configuration (env : Env) :
  decides "Configuration" (check_configuration env) (configuration_ok env).
Proof.
  intros self. pose proof (check_configuration_cases env self) as H. cbv zeta in H.
  unfold configuration_ok.
  destruct (node_at _ _) as [n|] eqn:Hn.
  2:{ rewrite H. eexists. split; [reflexivity|]. split; [reflexivity|].
      split; [discriminate|]. intros (c & l & k & Hc & _). discriminate. }
  destruct (yaml_module env) as [safe_load|] eqn:Hy.
  2:{ destruct H as [e ->]. eexists. split; [reflexivity|]. split; [reflexivity|].
      split; [discriminate|]. intros (c & l & k & _ & Hl & _). discriminate. }
  destruct n as [|content].
  { destruct H as (msg & out & ->). eexists. split; [reflexivity|]. split; [reflexivity|].
    split; [discriminate|]. intros (c & l & k & Hc & _). discriminate. }
  destruct (safe_load _) as [config|msg|msg] eqn:Hload.
  2,3:(rewrite H; eexists; split; [reflexivity|]; split; [reflexivity|];
       split; [discriminate|];
       intros (c & l & k & Hc & Hl & Hk & _); congruence).
  destruct (supports_in config) eqn:Hs.
  - destruct H as (self' & out & -> & Hr & He & _). exists []. cbn [settle].
    rewrite app_nil_r. repeat split; auto.
    intros _. exists content, safe_load, config. auto.
  - destruct H as (msg & out & ->). eexists. split; [reflexivity|]. split; [reflexivity|].
    split; [discriminate|].
    intros (c & l & k & Hc & Hl & Hk & Hsup). congruence.
Qed.

(** The documentation loop keeps the errors, and returns unless it meets a
    directory or bytes that do not decode. *)
Lemma for_each_check_doc_file (env : Env) (docs : list (string * string)) :
  forall self,
    errors (state_of (for_each docs (check_doc_file env) self)) = errors self
    /\ project_root (state_of (for_each docs (check_doc_file env) self))
       = project_root self
    /\ (is_Ok (for_each docs (check_doc_file env) self) = true
        <-> forall doc, In doc docs ->
                        reads_as_text (env_fs env) (project_root self // fst doc) = true).
Proof.
  induction docs as [|[file_name description] docs IH]; intros self.
  - cbn. repeat split; auto; intros _ doc [].
  - cbn [for_each].
    assert (let r := check_doc_file env (file_name, description) self in
            errors (state_of r) = errors self
            /\ project_root (state_of r) = project_root self
            /\ is_Ok r = reads_as_text (env_fs env) (project_root self // file_name))
      as (He & Hr & Hok).
    { unfold check_doc_file. rewrite bind_get_state. unfold exists_, reads_as_text.
      destruct (node_at _ _) as [[|content]|] eqn:Hn.
      - unfold bind, read_fs, read_text, read_bytes, get_state, bind. rewrite Hn.
        cbn. auto.
      - pose proof (read_fs_text env _ content self Hn) as Hread. unfold Utf8.valid.
        destruct (Utf8.decode_failure content).
        + rewrite (bind_Raise _ _ _ _ _ _ Hread). cbn. auto.
        + rewrite (bind_Ok _ _ _ _ _ _ Hread). destruct (Nat.ltb _ _); cbn; auto.
      - cbn. auto. }
    destruct (check_doc_file env (file_name, description) self)
      as [[] s1 o1|e s1 o1] eqn:Hc;
      [rewrite !(bind_Ok _ _ _ _ _ _ Hc)|rewrite !(bind_Raise _ _ _ _ _ _ Hc)];
      cbn [state_of is_Ok] in *.
    + destruct (IH s1) as (He' & Hr' & Hok').
      rewrite Hr in Hok'.
      destruct (for_each docs _ s1) as [[] s2 o2|e s2 o2]; cbn [state_of is_Ok] in *;
        (split; [congruence|]); (split; [congruence|]).
      * split; [|reflexivity]. intros _ doc [<-|Hd].
        -- cbn [fst]. now symmetry.
        -- now apply Hok'.
      * split; [discriminate|]. intros H. apply Hok'. intros doc Hd. apply H. now right.
    + repeat split; auto; [discriminate|].
      intros H. specialize (H (file_name, description) (or_introl eq_refl)).
      cbn [fst] in H. rewrite H in Hok. discriminate.
Qed.

Lemma decides_documentation (env : Env) :
  decides "Documentation" (check_documentation env) (documentation_ok env).
Proof.
  intros self. unfold check_documentation, documentation_ok.
  destruct (for_each_check_doc_file env doc_files self) as (He & Hr & Hok).
  destruct (for_each doc_files _ self) as [[] s1 o1|e s1 o1]; cbn [settle state_of is_Ok] in *.
  - exists []. rewrite app_nil_r. repeat split; auto. intros _. now apply Hok.
  - eexists. rewrite He. split; [reflexivity|]. split; [exact Hr|].
    split; [discriminate|]. intros H. apply Hok in H. discriminate.
Qed.

(** Checks in a row decide together. *)
Lemma decide_together_nil : decide_together [] (fun _ => True).
Proof. intros self. exists []. cbn. rewrite app_nil_r. tauto. Qed.

Lemma decide_together_cons (check_name : string) (check_func : V unit)
    (checks : list (string * V unit)) (P Q : Path -> Prop) :
  decides check_name check_func P ->
  decide_together checks Q ->
  decide_together ((check_name, check_func) :: checks) (fun root => P root /\ Q root).
Proof.
  intros HP HQ self. cbn [after_checks].
  destruct (HP self) as (d1 & He1 & Hr1 & Hd1).
  destruct (HQ (settle check_name (check_func self))) as (d2 & He2 & Hr2 & Hd2).
  exists (d1 ++ d2). rewrite He2, He1, Hr2, Hr1, app_assoc.
  split; [reflexivity|]. split; [reflexivity|].
  rewrite Hr1 in Hd2. rewrite <- Hd1, <- Hd2. split.
  - intros H. now apply app_eq_nil in H.
  - intros [-> ->]. reflexivity.
Qed.

Lemma checks_decide (env : Env) :
  decide_together (quiet_checks env)
    (fun root => directories_ok env root /\ files_ok env root /\ imports_ok env
                 /\ configuration_ok env root /\ documentation_ok env root /\ True).
Proof.
  unfold quiet_checks.
  apply decide_together_cons; [apply decides_directories|].
  apply decide_together_cons; [apply decides_files|].
  apply (decide_together_cons _ _ _ (fun _ => imports_ok env)); [apply decides_imports|].
  apply decide_together_cons; [apply decides_configuration|].
  apply decide_together_cons; [apply decides_documentation|].
  apply decide_together_nil.
Qed.

(** The exit status, from the five conditions, when no lookup ends the
    process. *)
Lemma main_verdict (env : Env) (root : Path) :
  first_exit env import_tests = None ->
  fst (main env root) = 0
  <-> directories_ok env root /\ files_ok env root /\ imports_ok env
      /\ configuration_ok env root /\ documentation_ok env root.
Proof.
  intros Hquiet. rewrite main_status, Hquiet.
  destruct (checks_decide env (init root)) as (delta & He & _ & Hd).
  change (errors (init root)) with (@nil string) in He.
  change (project_root (init root)) with root in Hd.
  rewrite He. cbn [app].
  transitivity (delta = []).
  - destruct delta; cbn; split; intros H; congruence.
  - rewrite Hd. tauto.
Qed.

Lemma flat_map_one_each {A : Type} (f g : A -> list string) (l : list A) :
  (forall x, length (f x) + length (g x) = 1) ->
  length (flat_map f l) + length (flat_map g l) = length l.
Proof.
  intros H. induction l as [|x l IH]; [reflexivity|].
  cbn [flat_map length]. rewrite !length_app. specialize (H x). lia.
Qed.

(** On a mapping, the configuration check goes by the keys. *)
Lemma check_configuration_mapping (env : Env) (self : ProjectValidator)
    (safe_load : string -> load_result) (content : string) (items : list (yaml * yaml)) :
  node_at (env_fs env) (project_root self // "configs" // "default_config.yaml")
  = Some (File content) ->
  yaml_module env = Some safe_load ->
  safe_load (Str.universal_newlines content) = Loaded (YMap items) ->
  check_configuration env self
  = Ok tt
       (file_findings self []
          (flat_map (section_warnings items) required_sections)
          (flat_map (section_passed items) required_sections))
       (out_of (check_configuration env self)).
Proof.
  intros Hfile Hyaml Hload.
  assert (exists out,
             check_configuration env self
             = Ok tt (file_findings self []
                        (flat_map (section_warnings items) required_sections)
                        (flat_map (section_passed items) required_sections)) out)
    as [out H]; [|now rewrite H].
  unfold check_configuration. rewrite bind_get_state.
  unfold exists_. rewrite Hfile, Hyaml. cbn [negb].
  unfold try_except, check_configuration_try.
  erewrite bind_Ok by (apply read_fs_open_text; exact Hfile).
  rewrite Hload, bind_ret.
  rewrite (for_each_findings (project_root self) (check_section (YMap items))
             (fun _ => []) (section_warnings items) (section_passed items)
             (fun section => out_of (check_section (YMap items) section self)));
    [|  |reflexivity].
  - rewrite flat_map_empty. eexists. reflexivity.
  - intros section self0 _. unfold check_section, section_in, section_warnings, section_passed.
    rewrite bind_ret. destruct (existsb _ items); unfold file_findings; cbn;
      now rewrite !app_nil_r.
Qed.

End VerdictFacts.

(** X7.  The directory check never raises and never warns: for each of the
    eight required paths, in order, it files one finding, Passed when the
    path is a directory and Error when it is missing or a regular file. *)
Theorem X7_directory_check :
  forall (env : Validate.Env) (self : Validate.ProjectValidator),
    Validate.check_directory_structure env self
    = Ok tt
         (Verdict.file_findings self
            (flat_map (Verdict.directory_errors env (Validate.project_root self))
                      Validate.required_dirs)
            []
            (flat_map (Verdict.directory_passed env (Validate.project_root self))
                      Validate.required_dirs))
         (List.map (fun d => (if is_dir (Validate.env_fs env) (Validate.project_root self // d)
                              then "  ✓ " else "  ✗ ") +:+ d)
                   Validate.required_dirs)
    /\ length (flat_map (Verdict.directory_errors env (Validate.project_root self))
                        Validate.required_dirs)
       + length (flat_map (Verdict.directory_passed env (Validate.project_root self))
                          Validate.required_dirs)
       = 8.
Proof.
  intros env self. split; [apply VerdictFacts.check_directory_structure_eq|].
  apply (VerdictFacts.flat_map_one_each _ _ Validate.required_dirs).
  intros d. unfold Verdict.directory_errors, Verdict.directory_passed.
  now destruct (is_dir _ _).
Qed.

(** X8.  The check of the required files never raises and never warns:
    for each of the nine required paths, in order, it files one finding,
    Passed when the path is a regular file and Error when it is missing or
    a directory. *)
Theorem X8_required_files_check :
  forall (env : Validate.Env) (self : Validate.ProjectValidator),
    Validate.check_required_files env self
    = Ok tt
         (Verdict.file_findings self
            (flat_map (Verdict.file_errors env (Validate.project_root self))
                      Validate.required_files)
            []
            (flat_map (Verdict.file_passed env (Validate.project_root self))
                      Validate.required_files))
         (List.map (fun f => (if is_file (Validate.env_fs env) (Validate.project_root self // f)
                              then "  ✓ " else "  ✗ ") +:+ f)
                   Validate.required_files)
    /\ length (flat_map (Verdict.file_errors env (Validate.project_root self))
                        Validate.required_files)
       + length (flat_map (Verdict.file_passed env (Validate.project_root self))
                          Validate.required_files)
       = 9.
Proof.
  intros env self. split; [apply VerdictFacts.check_required_files_eq|].
  apply (VerdictFacts.flat_map_one_each _ _ Validate.required_files).
  intros f. unfold Verdict.file_errors, Verdict.file_passed.
  now destruct (is_file _ _).
Qed.

(** X9.  The import check raises no [Exception]: a module that is found
    is a Passed finding, a module for which the lookup answers [None] a
    Warning, and a lookup that raises an [Exception] an Error with the
    message of the exception.  A lookup that ends the process ends the
    check, with the findings of the lookups before it filed.  When no
    lookup does, the check returns with four findings in all. *)
Theorem X9_import_check :
  forall (env : Validate.Env) (self : Validate.ProjectValidator),
    let looked_up := Verdict.before_exit env Validate.import_tests in
    Validate.check_imports env self
    = match Verdict.first_exit env Validate.import_tests with
      | None =>
          Ok tt (Verdict.imports_state env self looked_up)
             (flat_map (Verdict.import_lines env) looked_up)
      | Some status =>
          Raise (Validate.SystemExit status) (Verdict.imports_state env self looked_up)
                (flat_map (Verdict.import_lines env) looked_up)
      end
    /\ (Verdict.first_exit env Validate.import_tests = None ->
        looked_up = Validate.import_tests
        /\ length (flat_map (Verdict.import_errors env) Validate.import_tests)
           + length (flat_map (Verdict.import_warnings env) Validate.import_tests)
           + length (flat_map (Verdict.import_passed env) Validate.import_tests)
           = 4).
Proof.
  intros env self. cbv zeta. split; [apply ProcessFacts.for_each_check_import|].
  intros Hquiet. split; [now apply ProcessFacts.before_exit_all|].
  revert Hquiet.
  unfold Validate.import_tests, Verdict.import_errors, Verdict.import_warnings,
    Verdict.import_passed.
  cbn [flat_map fst Verdict.first_exit].
  destruct (Validate.find_spec env "src.utils.config"),
    (Validate.find_spec env "src.utils.data_utils"),
    (Validate.find_spec env "src.utils.logging_utils"),
    (Validate.find_spec env "src.models.message_passing");
    intros Hquiet; try discriminate Hquiet; reflexivity.
Qed.

(** X9 at a package that ends the process when the first module is looked
    up: no finding, and the status of the exit. *)
Lemma X9_witness :
  Validate.check_imports Scenario.exiting_package (Validate.init ["proj"])
  = Raise (Validate.SystemExit 0) (Validate.init ["proj"]) [].
Proof.
  exact (proj1 (X9_import_check Scenario.exiting_package (Validate.init ["proj"]))).
Defined.

(** X10.  The documentation check files no Error of its own: it leaves the
    errors as they are, also when it raises; and it raises exactly when one
    of the two documentation paths cannot be read as text: it is a
    directory, or a file whose bytes do not decode. *)
Theorem X10_documentation_check :
  forall (env : Validate.Env) (self : Validate.ProjectValidator),
    Validate.errors (state_of (Validate.check_documentation env self))
    = Validate.errors self
    /\ (is_Ok (Validate.check_documentation env self) = true
        <-> Verdict.documentation_ok env (Validate.project_root self))
    /\ (forall p,
          Verdict.reads_as_text (Validate.env_fs env) p = false
          <-> node_at (Validate.env_fs env) p = Some Dir
              \/ exists c, node_at (Validate.env_fs env) p = Some (File c)
                           /\ Utf8.valid c = false).
Proof.
  intros env self.
  destruct (VerdictFacts.for_each_check_doc_file env Validate.doc_files self)
    as (He & _ & Hok).
  split; [exact He|]. split; [exact Hok|].
  intros p. unfold Verdict.reads_as_text.
  destruct (node_at _ p) as [[|c]|]; split; intros H; try discriminate; auto.
  - right. eauto.
  - destruct H as [H|(c' & H & Hc)]; [discriminate|congruence].
  - destruct H as [H|(c' & H & _)]; discriminate.
Qed.

(** X11.  The configuration check raises in one case only: the file is
    there and the YAML library cannot be imported.  When the file is not
    there, it files the one Error [Configuration file not found] and
    nothing else. *)
Theorem X11_configuration_check_errors :
  forall (env : Validate.Env) (self : Validate.ProjectValidator),
    let config_file := Validate.project_root self // "configs" // "default_config.yaml" in
    (is_Ok (Validate.check_configuration env self) = false
     <-> exists_ (Validate.env_fs env) config_file = true
         /\ Validate.yaml_module env = None)
    /\ (exists_ (Validate.env_fs env) config_file = false ->
        Validate.check_configuration env self
        = Ok tt (Verdict.file_findings self ["Configuration file not found"] [] [])
             ["  ✗ Configuration file missing"]).
Proof.
  intros env self. cbv zeta.
  pose proof (VerdictFacts.check_configuration_cases env self) as H. cbv zeta in H.
  unfold exists_.
  destruct (node_at _ _) as [n|].
  2:{ rewrite H. split; [|reflexivity]. split; [discriminate|]. intros [? _]. discriminate. }
  split; [|discriminate].
  destruct (Validate.yaml_module env) as [safe_load|].
  2:{ destruct H as [e ->]. split; auto. }
  split; [|intros [_ ?]; discriminate].
  destruct n as [|content].
  { destruct H as (msg & out & ->). discriminate. }
  destruct (safe_load _) as [config|msg|msg]; [|rewrite H; discriminate ..].
  destruct (Validate.supports_in config).
  - destruct H as (self' & out & -> & _). discriminate.
  - destruct H as (msg & out & ->). discriminate.
Qed.

(** X11 at a root without a configuration file. *)
Lemma X11_witness :
  Validate.check_configuration Scenario2.readme_dir (Validate.init ["proj"])
  = Ok tt (Verdict.file_findings (Validate.init ["proj"])
             ["Configuration file not found"] [] [])
       ["  ✗ Configuration file missing"].
Proof.
  assert (exists_ (Validate.env_fs Scenario2.readme_dir)
            (Validate.project_root (Validate.init ["proj"])
             // "configs" // "default_config.yaml") = false) as Hmiss
    by (vm_compute; reflexivity).
  exact (proj2 (X11_configuration_check_errors Scenario2.readme_dir (Validate.init ["proj"]))
           Hmiss).
Defined.

(** X12.  When the configuration parses to a mapping, the check goes by
    its keys and by nothing else: a section is a Passed finding when it is
    a key that is a string, a Warning when it is not, whatever the value
    under the key; there is no Error. *)
Theorem X12_configuration_mapping :
  forall (env : Validate.Env) (self : Validate.ProjectValidator)
         (safe_load : string -> Validate.load_result) (content : string)
         (items : list (Validate.yaml * Validate.yaml)),
    node_at (Validate.env_fs env)
            (Validate.project_root self // "configs" // "default_config.yaml")
    = Some (File content) ->
    Validate.yaml_module env = Some safe_load ->
    safe_load (Str.universal_newlines content) = Validate.Loaded (Validate.YMap items) ->
    Validate.check_configuration env self
    = Ok tt
         (Verdict.file_findings self []
            (flat_map (Verdict.section_warnings items) Validate.required_sections)
            (flat_map (Verdict.section_passed items) Validate.required_sections))
         (out_of (Validate.check_configuration env self))
    /\ length (flat_map (Verdict.section_warnings items) Validate.required_sections)
       + length (flat_map (Verdict.section_passed items) Validate.required_sections)
       = 6.
Proof.
  intros env self safe_load content items Hfile Hyaml Hload.
  split; [now apply (VerdictFacts.check_configuration_mapping env self safe_load content)|].
  apply (VerdictFacts.flat_map_one_each _ _ Validate.required_sections).
  intros section. unfold Verdict.section_warnings, Verdict.section_passed.
  now destruct (existsb _ items).
Qed.

(** X12 at a mapping with two of the sections and a key that is a number. *)
Lemma X12_witness :
  Validate.warnings
    (state_of (Validate.check_configuration Scenario2.two_sections_config
                 (Validate.init ["proj"])))
  = [ "Config section missing: integration"; "Config section missing: training";
      "Config section missing: model"; "Config section missing: oed" ].
Proof.
  assert (node_at (Validate.env_fs Scenario2.two_sections_config)
            (Validate.project_root (Validate.init ["proj"])
             // "configs" // "default_config.yaml")
          = Some (File Scenario2.two_sections_text)) as Hfile
    by (vm_compute; reflexivity).
  rewrite (proj1 (X12_configuration_mapping Scenario2.two_sections_config
                    (Validate.init ["proj"]) _
                    Scenario2.two_sections_text _ Hfile eq_refl eq_refl)).
  reflexivity.
Defined.

(** X13.  When no module lookup ends the process, the validation exits
    with status 0 exactly when the eight required directories are
    directories, the nine required files are regular files, no module
    lookup raises, the configuration file parses, with the YAML library at
    hand, to a value on which [in] is defined, and each of the two
    documentation paths, if it is there, can be read as text.  Nothing
    else counts: modules that are not found, sections that are missing and
    documentation that is short or absent do not change the status.  When
    a lookup ends the process, the status is the one it asks for. *)
Theorem X13_exit_status_characterised :
  forall (env : Validate.Env) (root : Path),
    (Verdict.first_exit env Validate.import_tests = None ->
     fst (Validate.main env root) = 0
     <-> Verdict.directories_ok env root
         /\ Verdict.files_ok env root
         /\ Verdict.imports_ok env
         /\ Verdict.configuration_ok env root
         /\ Verdict.documentation_ok env root)
    /\ (forall status,
          Verdict.first_exit env Validate.import_tests = Some status ->
          fst (Validate.main env root) = status).
Proof.
  intros env root. split; [apply VerdictFacts.main_verdict|].
  intros status Hexit. now rewrite ProcessFacts.main_status, Hexit.
Qed.

(** X13 at the conforming root with one module that is not found. *)
Lemma X13_witness :
  fst (Validate.main Scenario.one_import_missing ["proj"]) = 0
  <-> Verdict.directories_ok Scenario.one_import_missing ["proj"]
      /\ Verdict.files_ok Scenario.one_import_missing ["proj"]
      /\ Verdict.imports_ok Scenario.one_import_missing
      /\ Verdict.configuration_ok Scenario.one_import_missing ["proj"]
      /\ Verdict.documentation_ok Scenario.one_import_missing ["proj"].
Proof.
  assert (Verdict.first_exit Scenario.one_import_missing Validate.import_tests = None)
    as Hquiet by (vm_compute; reflexivity).
  exact (proj1 (X13_exit_status_characterised Scenario.one_import_missing ["proj"]) Hquiet).
Defined.

(** ** The two scripts together *)

Module TogetherFacts.
Import Migrate Validate Footprint Verdict FSFacts.

(** What is provisioned is a directory, and so is everything above it. *)
Lemma provisioned_is_dir (base_path : Path) (fs : FS) (d : string) (rel : list string) :
  provisioned base_path fs d ->
  rel <> [] ->
  rel `prefix_of` PathLib.parts d ->
  String.prefix "/" d = false ->
  is_dir fs (base_path ++ rel) = true.
Proof.
  intros [Hdirs _] Hrel Hpre Habs.
  assert (base_path ++ rel <> []) as Hne
    by (intros H; apply app_eq_nil in H as [_ H]; contradiction).
  unfold PathLib.joinpath in Hdirs. rewrite Habs in Hdirs.
  specialize (Hdirs (base_path ++ rel) Hne (prefix_app _ _ _ Hpre)).
  unfold is_dir. destruct (base_path ++ rel); [congruence|]. cbn. now rewrite Hdirs.
Qed.

(** After provisioning, every directory that the validator requires is
    there. *)
Lemma provisioned_required_dirs (base_path : Path) (fs : FS) :
  Forall (provisioned base_path fs) dirs ->
  forall dir_path, In dir_path required_dirs -> is_dir fs (base_path // dir_path) = true.
Proof.
  intros Hall dir_path Hin. rewrite Forall_forall in Hall.
  assert (forall d, In d dirs -> provisioned base_path fs d) as Hprov
    by (intros d Hd; apply Hall, list_elem_of_In, Hd).
  unfold required_dirs in Hin. cbn [In] in Hin.
  assert (In "src/core" dirs /\ In "src/models" dirs /\ In "src/strategies" dirs
          /\ In "src/utils" dirs /\ In "scripts" dirs /\ In "configs" dirs
          /\ In "tests" dirs) as (H1 & H2 & H3 & H4 & H5 & H6 & H7)
    by (unfold dirs; cbn [In]; tauto).
  destruct Hin as [<-|[<-|[<-|[<-|[<-|[<-|[<-|[<-|[]]]]]]]]].
  - apply (provisioned_is_dir base_path fs "src/core" ["src"] (Hprov _ H1));
      [discriminate|now exists ["core"]|reflexivity].
  - apply (provisioned_is_dir base_path fs "src/core" ["src"; "core"] (Hprov _ H1));
      [discriminate|reflexivity|reflexivity].
  - apply (provisioned_is_dir base_path fs "src/models" ["src"; "models"] (Hprov _ H2));
      [discriminate|reflexivity|reflexivity].
  - apply (provisioned_is_dir base_path fs "src/strategies" ["src"; "strategies"]
             (Hprov _ H3)); [discriminate|reflexivity|reflexivity].
  - apply (provisioned_is_dir base_path fs "src/utils" ["src"; "utils"] (Hprov _ H4));
      [discriminate|reflexivity|reflexivity].
  - apply (provisioned_is_dir base_path fs "scripts" ["scripts"] (Hprov _ H5));
      [discriminate|reflexivity|reflexivity].
  - apply (provisioned_is_dir base_path fs "configs" ["configs"] (Hprov _ H6));
      [discriminate|reflexivity|reflexivity].
  - apply (provisioned_is_dir base_path fs "tests" ["tests"] (Hprov _ H7));
      [discriminate|reflexivity|reflexivity].
Qed.

End TogetherFacts.

(** X14.  The migration cannot make a root pass the validation: it leaves
    no file at [src/__init__.py], which the validator requires, so that a
    root without that file before a migration that returns gets exit
    status 1 after it, unless a module lookup ends the process with a
    status of its own. *)
Theorem X14_validation_fails_after_migration :
  forall (old_base new_base : Path) (fs fs' : FS) (out : list string) (env : Validate.Env),
    fs !! (new_base // "src/__init__.py") = None ->
    Migrate.migrate_files old_base new_base fs = Ok tt fs' out ->
    Validate.env_fs env = fs' ->
    fst (Validate.main env new_base)
    = match Verdict.first_exit env Validate.import_tests with
      | Some status => status
      | None => 1
      end.
Proof.
  intros old_base new_base fs fs' out env Hnone Hrun Henv.
  destruct (Verdict.first_exit env Validate.import_tests) as [status|] eqn:Hquiet.
  { now rewrite ProcessFacts.main_status, Hquiet. }
  pose proof (VerdictFacts.main_verdict env new_base Hquiet) as Hverdict.
  rewrite ProcessFacts.main_status, Hquiet in Hverdict |- *.
  destruct (Nat.eqb _ _); [|reflexivity].
  exfalso. destruct (proj1 Hverdict eq_refl) as (_ & Hfiles & _).
  specialize (Hfiles "src/__init__.py" ltac:(cbn; tauto)).
  pose proof (FrameFacts.frames_migrate_files old_base new_base fs
                (new_base // "src/__init__.py")) as Hframe.
  rewrite Hrun in Hframe. cbn [state_of] in Hframe.
  rewrite Henv in Hfiles. unfold is_file in Hfiles.
  change (new_base // "src/__init__.py") with (new_base ++ ["src"; "__init__.py"]) in *.
  assert (node_at fs' (new_base ++ ["src"; "__init__.py"])
          = fs' !! (new_base ++ ["src"; "__init__.py"])) as Hn by now destruct new_base.
  rewrite Hn in Hfiles.
  rewrite Hframe, Hnone in Hfiles by FrameFacts.untouched. discriminate.
Qed.

(** X14 at a migration into an empty tree. *)
Lemma X14_witness :
  fst (Validate.main
         {| Validate.env_fs :=
              state_of (Migrate.migrate_files ["old"] ["new"] Scenario.xy_fs);
            Validate.find_spec := fun _ => Validate.SpecNone;
            Validate.yaml_module := None |}
         ["new"]) = 1.
Proof.
  pose proof (is_Ok_unit (Migrate.migrate_files ["old"] ["new"] Scenario.xy_fs)
                ltac:(vm_compute; reflexivity)) as Hrun.
  assert (Scenario.xy_fs !! (["new"] // "src/__init__.py") = None) as Hnone
    by (vm_compute; reflexivity).
  exact (X14_validation_fails_after_migration ["old"] ["new"] _ _ _
           {| Validate.env_fs :=
                state_of (Migrate.migrate_files ["old"] ["new"] Scenario.xy_fs);
              Validate.find_spec := fun _ => Validate.SpecNone;
              Validate.yaml_module := None |}
           Hnone Hrun eq_refl).
Defined.

(** X15.  The provisioner makes what the directory check looks for: when
    it has returned, each of the eight required directories is a
    directory, [src] among them though it is not in the provisioner's
    list, and the directory check files eight Passed findings and no
    Error. *)
Theorem X15_provisioned_root_passes_the_directory_check :
  forall (base_path : Path) (fs fs1 : FS) (out : list string)
         (env : Validate.Env) (self : Validate.ProjectValidator),
    Migrate.ensure_directories base_path fs = Ok tt fs1 out ->
    Validate.env_fs env = fs1 ->
    Validate.project_root self = base_path ->
    Verdict.directories_ok env base_path
    /\ exists out',
         Validate.check_directory_structure env self
         = Ok tt (Verdict.file_findings self [] []
                    (List.map (fun d => "Directory exists: " +:+ d) Validate.required_dirs))
              out'.
Proof.
  intros base_path fs fs1 out env self Hrun Henv Hroot.
  apply ProvisionFacts.ensure_loop_Ok in Hrun as (_ & _ & Hall).
  assert (Verdict.directories_ok env base_path) as Hok.
  { intros d Hd. rewrite Henv. now apply TogetherFacts.provisioned_required_dirs. }
  split; [exact Hok|].
  rewrite VerdictFacts.check_directory_structure_eq, Hroot. eexists. f_equal.
  assert (forall l, (forall d, In d l -> is_dir (Validate.env_fs env) (base_path // d) = true) ->
                    flat_map (Verdict.directory_errors env base_path) l = []
                    /\ flat_map (Verdict.directory_passed env base_path) l
                       = List.map (fun d => "Directory exists: " +:+ d) l) as Hl.
  { induction l as [|d l IH]; intros H; [auto|].
    destruct IH as [IH1 IH2]; [intros d' Hd'; apply H; now right|].
    cbn [flat_map List.map]. unfold Verdict.directory_errors at 1.
    unfold Verdict.directory_passed at 1.
    rewrite (H d) by now left. cbn [app]. now rewrite IH1, IH2. }
  destruct (Hl Validate.required_dirs Hok) as [-> ->]. reflexivity.
Qed.

(** X15 at a root that holds one file. *)
Lemma X15_witness :
  Verdict.directories_ok
    {| Validate.env_fs :=
         state_of (Migrate.ensure_directories ["proj"] Scenario.plain_file_fs);
       Validate.find_spec := fun _ => Validate.SpecNone;
       Validate.yaml_module := None |}
    ["proj"].
Proof.
  pose proof (is_Ok_unit (Migrate.ensure_directories ["proj"] Scenario.plain_file_fs)
                ltac:(vm_compute; reflexivity)) as Hrun.
  exact (proj1 (X15_provisioned_root_passes_the_directory_check ["proj"] _ _ _
                  {| Validate.env_fs :=
                       state_of (Migrate.ensure_directories ["proj"] Scenario.plain_file_fs);
                     Validate.find_spec := fun _ => Validate.SpecNone;
                     Validate.yaml_module := None |}
                  (Validate.init ["proj"]) Hrun eq_refl eq_refl)).
Defined.

(** ** What the provisioner creates, and the report *)

Module CreationFacts.
Import Migrate FSFacts MigrateFacts ProvisionFacts.

Lemma bind_Ok_inv {S E A B : Type} (m : M S E A) (k : A -> M S E B) s b s' o :
  bind m k s = Ok b s' o ->
  exists a s1 o1 o2, m s = Ok a s1 o1 /\ k a s1 = Ok b s' o2 /\ o = o1 ++ o2.
Proof.
  unfold bind. destruct (m s) as [a s1 o1|e s1 o1]; [|discriminate].
  destruct (k a s1) as [b' s2 o2|e s2 o2] eqn:Hk; [|discriminate].
  intros H. injection H as <- <- <-. eauto 8.
Qed.

(** [mkdir] creates directories only, on the way to its target. *)
Lemma mkdir_from_new (target : Path) (rest : list string) :
  forall (pre : Path) (fs fs' : FS) o (q : Path) (n : node),
    mkdir_from target pre rest fs = Ok tt fs' o ->
    fs !! q = None -> fs' !! q = Some n ->
    n = Dir /\ q `prefix_of` pre ++ rest.
Proof.
  induction rest as [|c rest IH]; intros pre fs fs' o q n H Hq Hn.
  - cbn in H. injection H as <- <-. congruence.
  - rewrite mkdir_from_cons in H.
    destruct (fs !! (pre ++ [c])) as [[|content]|] eqn:E; [|discriminate|].
    + destruct (IH _ _ _ _ _ _ H Hq Hn) as [-> Hpre].
      split; [reflexivity|]. now rewrite <- app_assoc in Hpre.
    + destruct (decide (q = pre ++ [c])) as [->|Hne].
      * apply mkdir_from_Ok in H as (_ & Hsub & _).
        assert (fs' !! (pre ++ [c]) = Some Dir) as Hd
          by (eapply lookup_weaken; [apply lookup_insert_eq|exact Hsub]).
        split; [congruence|]. apply prefix_app, prefix_cons, prefix_nil.
      * assert (<[pre ++ [c] := Dir]> fs !! q = None) as Hq'
          by (rewrite lookup_insert_ne; auto).
        destruct (IH _ _ _ _ _ _ H Hq' Hn) as [-> Hpre].
        split; [reflexivity|]. now rewrite <- app_assoc in Hpre.
Qed.

(** One step of the provisioner creates directories on the way to [d], and
    the marker of [d]. *)
Lemma ensure_directory_new (base_path : Path) (d : string) (fs fs' : FS) o
    (q : Path) (n : node) :
  ensure_directory base_path d fs = Ok tt fs' o ->
  fs !! q = None -> fs' !! q = Some n ->
  (n = Dir /\ q `prefix_of` base_path // d)
  \/ (n = File PACKAGE_INIT /\ String.prefix "src/" d = true
      /\ q = base_path // d // "__init__.py").
Proof.
  unfold ensure_directory. intros H Hq Hn.
  apply bind_Ok_inv in H as ([] & fs1 & o1 & o2 & Hm & H & ->).
  pose proof (fun n1 => mkdir_from_new _ _ _ _ _ _ q n1 Hm Hq) as Hnew. cbn [app] in Hnew.
  destruct (String.prefix "src/" d).
  - cbv zeta in H. rewrite bind_get_state in H.
    destruct (negb _).
    + unfold write_text in H. rewrite open_write_eq in H.
      destruct (node_at fs1 _) as [[|c]|] eqn:Hnode; [discriminate| |].
      * injection H as <- <-.
        destruct (decide (q = base_path // d // "__init__.py")) as [->|Hne].
        -- rewrite lookup_insert_eq in Hn. right. split; [congruence|auto].
        -- rewrite lookup_insert_ne in Hn by auto. left. now apply Hnew.
      * destruct (node_at fs1 (PathLib.parent _)) as [[|c]|]; try discriminate.
        injection H as <- <-.
        destruct (decide (q = base_path // d // "__init__.py")) as [->|Hne].
        -- rewrite lookup_insert_eq in Hn. right. split; [congruence|auto].
        -- rewrite lookup_insert_ne in Hn by auto. left. now apply Hnew.
    + injection H as <- <-. left. now apply Hnew.
  - injection H as <- <-. left. now apply Hnew.
Qed.

Lemma ensure_loop_new (base_path : Path) (l : list string) :
  forall (fs fs' : FS) o (q : Path) (n : node),
    for_each l (ensure_directory base_path) fs = Ok tt fs' o ->
    fs !! q = None -> fs' !! q = Some n ->
    exists d, In d l
              /\ ((n = Dir /\ q `prefix_of` base_path // d)
                  \/ (n = File PACKAGE_INIT /\ String.prefix "src/" d = true
                      /\ q = base_path // d // "__init__.py")).
Proof.
  induction l as [|d l IH]; intros fs fs' o q n H Hq Hn.
  - cbn in H. injection H as <- <-. congruence.
  - cbn [for_each] in H.
    apply bind_Ok_inv in H as ([] & fs1 & o1 & o2 & Hd & Hl & ->).
    destruct (fs1 !! q) as [n1|] eqn:Hq1.
    + exists d. split; [now left|].
      apply ensure_loop_Ok in Hl as (_ & Hsub & _).
      pose proof (lookup_weaken _ _ _ _ Hq1 Hsub) as Hn'.
      assert (n1 = n) as -> by congruence.
      eapply ensure_directory_new; eauto.
    + destruct (IH _ _ _ _ _ Hl Hq1 Hn) as (d' & Hin & Hd').
      exists d'. split; [now right|exact Hd'].
Qed.

(** *** The report *)

(** The loop of the report adds the table, one row for each entry of the
    plan, in the order of the plan. *)
Lemma report_rows_table (base_path : Path) (fs : FS) (plan : list (string * string * bool)) :
  forall report,
    report_rows plan base_path fs report = report +:+ Report.table base_path fs plan.
Proof.
  induction plan as [|[[src dst] ni] plan IH]; intros report.
  - cbn. induction report as [|c r IHr]; [reflexivity|].
    change (String c r +:+ EmptyString) with (String c (r +:+ EmptyString)).
    now rewrite <- IHr.
  - cbn [report_rows Report.table]. rewrite IH. unfold Report.row.
    now rewrite !StrFacts.append_assoc.
Qed.

(** What the report holds once it is written. *)
Lemma create_migration_report_Ok :
  forall (base_path : Path) (success fail : nat) (fs fs' : FS) (out : list string),
    create_migration_report base_path success fail fs = Ok tt fs' out ->
    fs' = <[base_path // "MIGRATION_REPORT.md" :=
              File (report_head success fail
                    +:+ Report.table base_path fs FILE_MAPPING
                    +:+ report_tail)]> fs
    /\ out = [].
Proof.
  intros base_path success fail fs fs' out H.
  unfold create_migration_report in H. rewrite bind_get_state in H.
  cbv zeta in H. unfold write_text in H. rewrite MigrateFacts.open_write_eq in H.
  rewrite report_rows_table, StrFacts.append_assoc in H.
  destruct (node_at fs _) as [[|c]|]; [discriminate| |].
  - injection H as <- <-. auto.
  - destruct (node_at fs (PathLib.parent _)) as [[|c]|]; try discriminate.
    injection H as <- <-. auto.
Qed.

End CreationFacts.

(** X16.  The provisioner creates nothing but directories on the way to
    the directories of its list and marker files in those whose name
    starts with ["src/"]; a marker that it creates holds the placeholder
    docstring.  In particular each of the four markers, when it was not
    there, is a file with that content afterwards. *)
Theorem X16_provisioner_creates_only_its_own :
  forall (base_path : Path) (fs fs1 : FS) (out : list string),
    Migrate.ensure_directories base_path fs = Ok tt fs1 out ->
    (forall (q : Path) (n : node),
        fs !! q = None -> fs1 !! q = Some n ->
        exists d, In d Migrate.dirs
                  /\ ((n = Dir /\ q `prefix_of` base_path // d)
                      \/ (n = File Migrate.PACKAGE_INIT /\ String.prefix "src/" d = true
                          /\ q = base_path // d // "__init__.py")))
    /\ (forall d, In d Migrate.dirs -> String.prefix "src/" d = true ->
                  fs !! (base_path // d // "__init__.py") = None ->
                  fs1 !! (base_path // d // "__init__.py")
                  = Some (File Migrate.PACKAGE_INIT)).
Proof.
  intros base_path fs fs1 out H.
  assert (forall (q : Path) (n : node),
             fs !! q = None -> fs1 !! q = Some n ->
             exists d, In d Migrate.dirs
                       /\ ((n = Dir /\ q `prefix_of` base_path // d)
                           \/ (n = File Migrate.PACKAGE_INIT
                               /\ String.prefix "src/" d = true
                               /\ q = base_path // d // "__init__.py"))) as Hnew
    by (intros q n; now apply (CreationFacts.ensure_loop_new base_path Migrate.dirs fs fs1 out)).
  split; [exact Hnew|].
  intros d0 Hd0 Hp0 Hnone.
  apply ProvisionFacts.ensure_loop_Ok in H as (_ & _ & Hall).
  rewrite Forall_forall in Hall.
  destruct (Hall d0 (proj2 (list_elem_of_In _ _) Hd0)) as [_ Hmark].
  specialize (Hmark Hp0). unfold exists_ in Hmark.
  rewrite ProvisionFacts.marker_path, FSFacts.node_at_snoc in Hmark.
  rewrite ProvisionFacts.marker_path in Hnone |- *.
  destruct (fs1 !! ((base_path // d0) ++ ["__init__.py"])) as [n|] eqn:Hn; [|discriminate].
  destruct (Hnew _ _ Hnone Hn) as (d & Hd & [[_ Hpre]|[-> _]]); [|reflexivity].
  exfalso. clear - Hd0 Hp0 Hd Hpre.
  unfold Migrate.dirs in Hd0, Hd. cbn [In] in Hd0, Hd.
  repeat (destruct Hd0 as [<-|Hd0]; [try discriminate Hp0|]); [..|destruct Hd0];
    repeat (destruct Hd as [<-|Hd]; [|]); try (destruct Hd);
    cbv -[app] in Hpre; destruct Hpre as [k Hk];
    rewrite <- ?app_assoc in Hk; apply app_inv_head in Hk; discriminate Hk.
Qed.

(** X16 at a root that holds one file. *)
Lemma X16_witness :
  state_of (Migrate.ensure_directories ["proj"] Scenario.plain_file_fs)
    !! (["proj"] // "src/core" // "__init__.py")
  = Some (File Migrate.PACKAGE_INIT).
Proof.
  pose proof (is_Ok_unit (Migrate.ensure_directories ["proj"] Scenario.plain_file_fs)
                ltac:(vm_compute; reflexivity)) as Hrun.
  assert (Scenario.plain_file_fs !! (["proj"] // "src/core" // "__init__.py") = None)
    as Hnone by (vm_compute; reflexivity).
  exact (proj2 (X16_provisioner_creates_only_its_own _ _ _ _ Hrun) "src/core"
           (or_introl eq_refl) eq_refl Hnone).
Defined.

(** X17.  When the report is written, it is the head with the two counts,
    then one row for each entry of the table, in the order of the table,
    marked by whether the destination exists at that moment, then the fixed
    tail; it replaces what the report held, and no other path changes. *)
Theorem X17_report_content :
  forall (base_path : Path) (success fail : nat) (fs fs' : FS) (out : list string),
    Migrate.create_migration_report base_path success fail fs = Ok tt fs' out ->
    fs' = <[base_path // "MIGRATION_REPORT.md" :=
              File (Migrate.report_head success fail
                    +:+ Report.table base_path fs Migrate.FILE_MAPPING
                    +:+ Migrate.report_tail)]> fs
    /\ out = [].
Proof. exact CreationFacts.create_migration_report_Ok. Qed.

(** X17 at a root that holds one file. *)
Lemma X17_witness :
  out_of (Migrate.create_migration_report ["proj"] 11 1 Scenario.plain_file_fs) = [].
Proof.
  pose proof (is_Ok_unit (Migrate.create_migration_report ["proj"] 11 1 Scenario.plain_file_fs)
                ltac:(vm_compute; reflexivity)) as Hrun.
  exact (proj2 (X17_report_content _ _ _ _ _ _ Hrun)).
Defined.

(** ** When the provisioner raises *)

Module BlockedFacts.
Import Migrate Blocked FSFacts MigrateFacts ProvisionFacts CreationFacts.

(** [mkdir] returns when no regular file stands in its way. *)
Lemma mkdir_from_free (target : Path) (rest : list string) :
  forall (pre : Path) (fs : FS),
    (forall (k : list string) (c : string),
        k <> [] -> k `prefix_of` rest -> fs !! (pre ++ k) <> Some (File c)) ->
    exists fs', mkdir_from target pre rest fs = Ok tt fs' [].
Proof.
  induction rest as [|c rest IH]; intros pre fs H; [eexists; reflexivity|].
  rewrite mkdir_from_cons.
  assert (forall fs0 : FS,
             (forall (k : list string) (c0 : string),
                 k <> [] -> k `prefix_of` c :: rest -> fs0 !! (pre ++ k) <> Some (File c0)) ->
             forall (k : list string) (c0 : string),
               k <> [] -> k `prefix_of` rest -> fs0 !! ((pre ++ [c]) ++ k) <> Some (File c0))
    as Hstep.
  { intros fs0 H0 k c0 Hk Hpre. rewrite <- app_assoc.
    apply H0; [discriminate|now apply prefix_cons]. }
  destruct (fs !! (pre ++ [c])) as [[|content]|] eqn:E.
  - apply IH. now apply Hstep.
  - exfalso. apply (H [c] content); [discriminate|apply prefix_cons, prefix_nil|exact E].
  - apply IH. apply Hstep. intros k c0 Hk Hpre.
    destruct (decide (pre ++ [c] = pre ++ k)) as [Heq|Hne].
    + rewrite <- Heq, lookup_insert_eq. discriminate.
    + rewrite lookup_insert_ne by exact Hne. now apply H.
Qed.

(** One step of the provisioner returns when nothing stands in the way of
    its directory. *)
Lemma ensure_directory_free (base_path : Path) (d : string) (fs : FS) :
  ~ blocked fs (base_path // d) ->
  exists fs', ensure_directory base_path d fs = Ok tt fs' [].
Proof.
  intros Hfree.
  destruct (mkdir_from_free (base_path // d) (base_path // d) [] fs) as [fs1 Hm].
  { intros k c Hk Hpre Hfile. apply Hfree. exists k, c. auto. }
  fold (mkdir_parents (base_path // d)) in Hm.
  unfold ensure_directory. erewrite bind_Ok by exact Hm.
  apply mkdir_parents_Ok in Hm as (_ & _ & Hdir & _).
  destruct (String.prefix "src/" d); [|eexists; reflexivity].
  cbv zeta. rewrite bind_get_state.
  destruct (exists_ fs1 _) eqn:Hex; cbn [negb]; [eexists; reflexivity|].
  unfold write_text. rewrite open_write_eq.
  unfold exists_ in Hex.
  destruct (node_at fs1 (base_path // d // "__init__.py")) eqn:Hn; [discriminate|].
  rewrite marker_path, parent_snoc, Hdir. eexists. reflexivity.
Qed.

(** The loop returns when nothing stands in the way of its directories,
    provided no marker is on the way to one of them. *)
Lemma ensure_loop_free (base_path : Path) (l : list string) :
  (forall d0 d, In d0 l -> In d l ->
                ~ (base_path // d0 // "__init__.py") `prefix_of` (base_path // d)) ->
  forall fs : FS,
    (forall d, In d l -> ~ blocked fs (base_path // d)) ->
    exists fs', for_each l (ensure_directory base_path) fs = Ok tt fs' [].
Proof.
  induction l as [|d0 l IH]; intros Hmark fs Hfree; [eexists; reflexivity|].
  destruct (ensure_directory_free base_path d0 fs) as [fs1 H1]; [apply Hfree; now left|].
  cbn [for_each]. erewrite bind_Ok by exact H1.
  destruct (IH (fun a b Ha Hb => Hmark a b (or_intror Ha) (or_intror Hb)) fs1)
    as [fs' H2].
  - intros d Hd (k & c & Hk & Hpre & Hfile).
    destruct (fs !! k) as [n|] eqn:Hfs.
    + apply ensure_directory_Ok in H1 as (_ & Hsub & _).
      pose proof (lookup_weaken _ _ _ _ Hfs Hsub) as Hn.
      apply (Hfree d (or_intror Hd)). exists k, c. split; [exact Hk|]. split; [exact Hpre|].
      congruence.
    + destruct (ensure_directory_new _ _ _ _ _ _ _ H1 Hfs Hfile) as [[Hdir _]|(_ & _ & ->)].
      * discriminate.
      * apply (Hmark d0 d); [now left|now right|exact Hpre].
  - rewrite H2. eexists. reflexivity.
Qed.

(** No marker is on the way to a directory of the list. *)
Lemma markers_off_the_way (base_path : Path) :
  forall d0 d, In d0 dirs -> In d dirs ->
               ~ (base_path // d0 // "__init__.py") `prefix_of` (base_path // d).
Proof.
  intros d0 d Hd0 Hd Hpre.
  unfold dirs in Hd0, Hd. cbn [In] in Hd0, Hd.
  repeat (destruct Hd0 as [<-|Hd0]; [|]); try (destruct Hd0);
    repeat (destruct Hd as [<-|Hd]; [|]); try (destruct Hd);
    cbv -[app] in Hpre; destruct Hpre as [k Hk];
    rewrite <- ?app_assoc in Hk; apply app_inv_head in Hk; discriminate Hk.
Qed.

End BlockedFacts.

(** X18.  The provisioner raises exactly when a regular file stands where
    it needs a directory: it returns if and only if, for each directory of
    its list, no path from below the root down to that directory is a
    regular file. *)
Theorem X18_provisioner_returns_unless_blocked :
  forall (base_path : Path) (fs : FS),
    is_Ok (Migrate.ensure_directories base_path fs) = true
    <-> forall d, In d Migrate.dirs -> ~ Blocked.blocked fs (base_path // d).
Proof.
  intros base_path fs. split.
  - intros H d Hd (k & c & Hk & Hpre & Hfile).
    apply is_Ok_unit, ProvisionFacts.ensure_loop_Ok in H as (_ & Hsub & Hall).
    rewrite Forall_forall in Hall.
    destruct (Hall d (proj2 (list_elem_of_In _ _) Hd)) as [Hdirs _].
    pose proof (lookup_weaken _ _ _ _ Hfile Hsub) as Hn.
    rewrite (Hdirs k Hk Hpre) in Hn. discriminate.
  - intros H.
    destruct (BlockedFacts.ensure_loop_free base_path Migrate.dirs
                (BlockedFacts.markers_off_the_way base_path) fs H) as [fs' Hrun].
    unfold Migrate.ensure_directories. now rewrite Hrun.
Qed.

(** ** The run as a whole *)

Module RunFacts.
Import Migrate Footprint FrameFacts CreationFacts.

(** Every target of the run lies under the new base. *)
Lemma footprint_under_new_base (old_base new_base : Path) :
  Forall (fun t => new_base `prefix_of` t) (migrate_footprint old_base new_base).
Proof.
  assert (forall x : list string, new_base `prefix_of` new_base ++ x) as H1
      by (intros; apply prefix_app_r; reflexivity).
  assert (forall x y : list string, new_base `prefix_of` (new_base ++ x) ++ y) as H2
      by (intros; do 2 apply prefix_app_r; reflexivity).
  unfold migrate_footprint. rewrite !Forall_app. repeat split.
  - apply Forall_flat_map. unfold dirs.
    repeat constructor; cbv -[app prefix]; repeat constructor; auto.
  - apply Forall_flat_map. unfold FILE_MAPPING.
    repeat constructor; cbv -[app prefix]; repeat constructor; auto.
  - apply List.Forall_map. unfold file_descriptions.
    repeat constructor; cbv -[app prefix]; auto.
  - repeat constructor; cbv -[app prefix]; auto.
Qed.

Lemma print_Ok_inv {S E : Type} (line : string) (s s' : S) (a : unit) (o : list string) :
  print (E := E) line s = Ok a s' o -> s' = s /\ o = [line].
Proof. unfold print. intros H. injection H as _ <- <-. auto. Qed.

(** The two counts of the copying loop grow by the length of the plan. *)
Lemma copy_loop_total (plan : list (string * string * bool)) :
  forall (old_base new_base : Path) (sc fc : nat) (fs fs' : FS) (c : nat * nat)
         (out : list string),
    copy_loop plan old_base new_base sc fc fs = Ok c fs' out ->
    fst c + snd c = sc + fc + length plan.
Proof.
  induction plan as [|[[src_rel dst_rel] ni] plan IH];
    intros old_base new_base sc fc fs fs' c out H.
  - cbn in H. injection H as <- <- <-. cbn. lia.
  - rewrite MigrateFacts.copy_loop_cons in H.
    destruct (copy_file _ _ _ fs) as [ok fs1 o1|e fs1 o1]; [|discriminate].
    destruct (copy_loop plan _ _ _ _ fs1) as [c2 fs2 o2|e fs2 o2] eqn:Hl; [|discriminate].
    injection H as <- <- <-. apply IH in Hl. destruct ok; cbn [length]; lia.
Qed.

(** No row of the table is about the report itself. *)
Lemma table_after_report (base_path : Path) (fs : FS) (n : node) :
  Report.table base_path (<[base_path // "MIGRATION_REPORT.md" := n]> fs) FILE_MAPPING
  = Report.table base_path fs FILE_MAPPING.
Proof.
  unfold FILE_MAPPING. cbn [Report.table]. unfold Report.row.
  rewrite !FSFacts.exists_insert_ne
    by (cbv -[app]; intros E; apply app_inv_head in E; discriminate E).
  reflexivity.
Qed.

End RunFacts.

(** X19.  The migration writes under the new base only: a path that is
    neither under the new base nor above it holds after the run what it
    held before, whether the run returns or raises. *)
Theorem X19_migration_writes_under_the_new_base :
  forall (old_base new_base : Path) (fs : FS) (q : Path),
    ~ new_base `prefix_of` q ->
    ~ q `prefix_of` new_base ->
    state_of (Migrate.migrate_files old_base new_base fs) !! q = fs !! q.
Proof.
  intros old_base new_base fs q Hunder Habove.
  apply FrameFacts.frames_migrate_files. intros (t & Hin & Hpre).
  pose proof (RunFacts.footprint_under_new_base old_base new_base) as Hall.
  rewrite Forall_forall in Hall.
  specialize (Hall t (proj2 (list_elem_of_In _ _) Hin)).
  destruct (prefix_weak_total _ _ _ Hpre Hall); contradiction.
Qed.

(** X19 at a source of the old tree. *)
Lemma X19_witness :
  state_of (Migrate.migrate_files ["old"] ["new"] Scenario.xy_fs)
    !! ["old"; "N5ForShare"; "determineSyncN.py"]
  = Scenario.xy_fs !! ["old"; "N5ForShare"; "determineSyncN.py"].
Proof.
  apply (X19_migration_writes_under_the_new_base ["old"] ["new"]).
  - intros [k Hk]. discriminate Hk.
  - intros [k Hk]. discriminate Hk.
Defined.

(** X20.  When the run returns, the two counts it prints after the copying
    loop add up to the twelve entries of the table, and the report left
    under the new base carries the same two counts, followed by the table
    marked by what the new tree holds at the end of the run. *)
Theorem X20_run_reports_the_counts_of_the_loop :
  forall (old_base new_base : Path) (fs fs' : FS) (out : list string),
    Migrate.migrate_files old_base new_base fs = Ok tt fs' out ->
    exists success fail : nat,
      success + fail = 12
      /\ In (Str.nl +:+ "  Summary: " +:+ Str.of_nat success +:+ " succeeded, "
             +:+ Str.of_nat fail +:+ " failed") out
      /\ fs' !! (new_base // "MIGRATION_REPORT.md")
         = Some (File (Migrate.report_head success fail
                       +:+ Report.table new_base fs' Migrate.FILE_MAPPING
                       +:+ Migrate.report_tail)).
Proof.
  intros old_base new_base fs fs' out H.
  unfold Migrate.migrate_files in H.
  do 4 (apply CreationFacts.bind_Ok_inv in H as (? & ? & ? & ? & Hp & H & ->);
        apply RunFacts.print_Ok_inv in Hp as [-> ->]).
  apply CreationFacts.bind_Ok_inv in H as ([] & fs1 & o1 & ? & _ & H & ->).
  do 2 (apply CreationFacts.bind_Ok_inv in H as (? & ? & ? & ? & Hp & H & ->);
        apply RunFacts.print_Ok_inv in Hp as [-> ->]).
  apply CreationFacts.bind_Ok_inv in H as (c & fs2 & o2 & ? & Hloop & H & ->).
  cbv zeta in H.
  do 2 (apply CreationFacts.bind_Ok_inv in H as (? & ? & ? & ? & Hp & H & ->);
        apply RunFacts.print_Ok_inv in Hp as [-> ->]).
  apply CreationFacts.bind_Ok_inv in H as ([] & fs3 & o3 & ? & _ & H & ->).
  apply CreationFacts.bind_Ok_inv in H as (? & ? & ? & ? & Hp & H & ->).
  apply RunFacts.print_Ok_inv in Hp as [-> ->].
  apply CreationFacts.bind_Ok_inv in H as ([] & fs4 & o4 & ? & Hreport & H & ->).
  do 8 (apply CreationFacts.bind_Ok_inv in H as (? & ? & ? & ? & Hp & H & ->);
        apply RunFacts.print_Ok_inv in Hp as [-> ->]).
  apply RunFacts.print_Ok_inv in H as [-> ->].
  apply CreationFacts.create_migration_report_Ok in Hreport as [-> ->].
  apply RunFacts.copy_loop_total in Hloop.
  exists (fst c), (snd c). split; [exact Hloop|]. split.
  - rewrite !in_app_iff. cbn [In]. tauto.
  - now rewrite RunFacts.table_after_report, lookup_insert_eq.
Qed.

(** X20 at a run that returns. *)
Lemma X20_witness :
  exists success fail : nat,
    success + fail = 12
    /\ In (Str.nl +:+ "  Summary: " +:+ Str.of_nat success +:+ " succeeded, "
           +:+ Str.of_nat fail +:+ " failed")
          (out_of (Migrate.migrate_files ["old"] ["new"] Scenario.xy_fs))
    /\ state_of (Migrate.migrate_files ["old"] ["new"] Scenario.xy_fs)
         !! (["new"] // "MIGRATION_REPORT.md")
       = Some (File (Migrate.report_head success fail
                     +:+ Report.table ["new"]
                           (state_of (Migrate.migrate_files ["old"] ["new"] Scenario.xy_fs))
                           Migrate.FILE_MAPPING
                     +:+ Migrate.report_tail)).
Proof.
  pose proof (is_Ok_unit (Migrate.migrate_files ["old"] ["new"] Scenario.xy_fs)
                ltac:(vm_compute; reflexivity)) as Hrun.
  exact (X20_run_reports_the_counts_of_the_loop _ _ _ _ _ Hrun).
Defined.

(** ** Bytes that are no text *)

(** X21.  What is read in text mode must decode.  On a file whose bytes
    are not well-formed UTF-8 the annotation raises [UnicodeDecodeError]
    and leaves the filesystem as it was; and so does a transfer in append
    mode from such a file onto a destination that exists, which is read
    before the destination is opened. *)
Theorem X21_text_mode_needs_text :
  forall (src dst : Path) (description : string) (fs : FS) (s : string),
    node_at fs src = Some (File s) ->
    Utf8.valid s = false ->
    exists f,
      Utf8.decode_failure s = Some f
      /\ Migrate.add_file_header src description fs = Raise (UnicodeDecodeError s f) fs []
      /\ (wf fs ->
          exists_ fs dst = true ->
          Migrate.copy_file src dst true fs = Raise (UnicodeDecodeError s f) fs []).
Proof.
  intros src dst description fs s Hsrc Hvalid. unfold Utf8.valid in Hvalid.
  destruct (Utf8.decode_failure s) as [f|] eqn:Hdec; [|discriminate].
  exists f. split; [reflexivity|]. split.
  - now rewrite MigrateFacts.add_file_header_eq, Hsrc, Hdec.
  - intros Hwf Hdst. rewrite MigrateFacts.copy_file_eq.
    unfold exists_ at 1. rewrite Hsrc. cbn [negb].
    unfold exists_ in Hdst.
    destruct (node_at fs dst) as [n|] eqn:Hn; [|discriminate].
    rewrite (FSFacts.mkdir_parent_of_existing fs dst n Hwf Hn).
    unfold exists_. rewrite Hn. cbn [andb].
    unfold bind. now rewrite MigrateFacts.read_text_eq, Hsrc, Hdec.
Qed.

(** X21 at a file in Latin-1 that starts with an e acute: the message is
    the one of the codec. *)
Lemma X21_witness :
  exists f,
    Migrate.add_file_header ["proj"; "m.py"] "A module" Scenario.latin1_fs
    = Raise (UnicodeDecodeError (String (ascii_of_nat 233) "te") f) Scenario.latin1_fs []
    /\ OSError_str (UnicodeDecodeError (String (ascii_of_nat 233) "te") f)
       = "'utf-8' codec can't decode byte 0xe9 in position 0: invalid continuation byte".
Proof.
  assert (node_at Scenario.latin1_fs ["proj"; "m.py"]
          = Some (File (String (ascii_of_nat 233) "te"))) as Hsrc
    by (vm_compute; reflexivity).
  destruct (X21_text_mode_needs_text ["proj"; "m.py"] ["proj"] "A module"
              Scenario.latin1_fs _ Hsrc eq_refl) as (f & Hdec & Hrun & _).
  exists f. split; [exact Hrun|].
  vm_compute in Hdec. injection Hdec as <-. vm_compute. reflexivity.
Defined.
